(** * kubectl-must-gather: query windowing, profile resolution and log stitching

    A shallow embedding of the Go sources
      - [pkg/utils]      (ParseResourceID, ISO8601Duration, SafeFileName,
                          ParseISO8601ToDuration, ParseTimeRFC3339),
      - [pkg/mustgather] (GetDefaultProfiles, GenerateDefaultOutputName, Run,
                          resolveTables, exportTables, exportTableData),
      - the helper [stringContains] of the test suite,
    together with the parts of Go's standard library they call
    ([strings], [unicode/utf8], [regexp], [time], [sort]).

    Go strings are byte sequences: they are modelled by [string], whose
    characters are the 256 byte values.  Integers of type [int64]
    ([time.Duration]) are modelled by [Z] with the wrap-around written out. *)

From Stdlib Require Import ZArith Lia List String Ascii Bool.
From Stdlib Require Import Sorting.Sorted Sorting.Permutation.
From stdpp Require Import base gmap strings list sorting.

Local Open Scope string_scope.

(** Go functions returning [(T, error)]. *)
Inductive result (A : Type) : Type :=
| Ok (a : A)
| Err (msg : string).
Arguments Ok {A} a.
Arguments Err {A} msg.

Definition is_err {A} (r : result A) : bool :=
  match r with Ok _ => false | Err _ => true end.

(* ================================================================== *)
(** ** Bytes and UTF-8 ([unicode/utf8]) *)
(* ================================================================== *)

Module Utf8.

Definition between (lo hi c : ascii) : bool := ((lo <=? c) && (c <=? hi))%char.

(** [c < utf8.RuneSelf] *)
Definition isASCII (c : ascii) : bool := (c <? "128")%char.

(** A continuation byte, [0x80..0xBF]. *)
Definition cont (c : ascii) : bool := between "128" "191" c.

(** What [utf8.first] and [utf8.acceptRanges] say about a leading byte:
    the length of the sequence it announces and the range its second byte
    must lie in; [None] for ASCII bytes and for bytes that cannot start a
    sequence. *)
Definition leadInfo (s0 : ascii) : option (nat * ascii * ascii) :=
  if between "194" "223" s0 then Some (2, "128", "191")%char
  else if (s0 =? "224")%char then Some (3, "160", "191")%char
  else if between "225" "236" s0 then Some (3, "128", "191")%char
  else if (s0 =? "237")%char then Some (3, "128", "159")%char
  else if between "238" "239" s0 then Some (3, "128", "191")%char
  else if (s0 =? "240")%char then Some (4, "144", "191")%char
  else if between "241" "243" s0 then Some (4, "128", "191")%char
  else if (s0 =? "244")%char then Some (4, "128", "143")%char
  else None.

(** The width [utf8.DecodeRuneInString] reports for the first rune of [s]:
    [0] on the empty string, [1] for an ASCII byte and for an invalid byte
    (decoded as [RuneError]), else the length of the well-formed sequence. *)
Definition runeLen (s : string) : nat :=
  match s with
  | EmptyString => 0
  | String s0 r =>
      match leadInfo s0 with
      | None => 1
      | Some (sz, lo, hi) =>
          match r with
          | String s1 r1 =>
              if between lo hi s1 then
                if (sz <=? 2)%nat then 2
                else match r1 with
                     | String s2 r2 =>
                         if cont s2 then
                           if (sz <=? 3)%nat then 3
                           else match r2 with
                                | String s3 _ => if cont s3 then 4 else 1
                                | EmptyString => 1
                                end
                         else 1
                     | EmptyString => 1
                     end
              else 1
          | EmptyString => 1
          end
      end
  end.

End Utf8.

(* ================================================================== *)
(** ** Package [strings] *)
(* ================================================================== *)

Module GoStrings.
Import Utf8.

Definition isEmpty (s : string) : bool :=
  match s with EmptyString => true | String _ _ => false end.

(** [strings.HasPrefix] *)
Definition HasPrefix (s p : string) : bool := String.prefix p s.

(** The six ASCII white-space bytes of [strings.asciiSpace]:
    tab, line feed, vertical tab, form feed, carriage return, space. *)
Definition isAsciiSpace (c : ascii) : bool :=
  between "009" "013" c || (c =? " ")%char.

(** Byte length of the white-space rune [s] starts with, [0] when it starts
    with none.  [unicode.IsSpace] holds of the six ASCII bytes, of U+0085 and
    U+00A0, and of U+1680, U+2000..U+200A, U+2028, U+2029, U+202F, U+205F and
    U+3000, given here by their UTF-8 encodings. *)
Definition spaceLen (s : string) : nat :=
  match s with
  | String c r =>
      if isAsciiSpace c then 1
      else if (c =? "194")%char then
        match r with
        | String d _ => if ((d =? "133") || (d =? "160"))%char then 2 else 0
        | _ => 0
        end
      else if (c =? "225")%char then
        match r with
        | String "154" (String "128" _) => 3
        | _ => 0
        end
      else if (c =? "226")%char then
        match r with
        | String "128" (String d _) =>
            if (between "128" "138" d || (d =? "168") || (d =? "169") || (d =? "175"))%char
            then 3 else 0
        | String "129" (String "159" _) => 3
        | _ => 0
        end
      else if (c =? "227")%char then
        match r with
        | String "128" (String "128" _) => 3
        | _ => 0
        end
      else 0
  | EmptyString => 0
  end.

(** [strings.TrimLeftFunc(s, unicode.IsSpace)]: leading white-space runes are
    dropped one after the other; [skip] counts the bytes of the current rune
    still to drop. *)
Fixpoint trimLeftFrom (skip : nat) (s : string) : string :=
  match s with
  | EmptyString => EmptyString
  | String _ r =>
      match skip with
      | S k => trimLeftFrom k r
      | O => match spaceLen s with
             | O => s
             | S k => trimLeftFrom k r
             end
      end
  end.

Definition TrimLeftSpace (s : string) : string := trimLeftFrom 0 s.

(** [s] consists of white-space runes only. *)
Fixpoint allSpaceFrom (skip : nat) (s : string) : bool :=
  match s with
  | EmptyString => true
  | String _ r =>
      match skip with
      | S k => allSpaceFrom k r
      | O => match spaceLen s with
             | O => false
             | S k => allSpaceFrom k r
             end
      end
  end.

(** [strings.TrimRightFunc(s, unicode.IsSpace)]: the longest suffix made of
    white-space runes is dropped. *)
Fixpoint TrimRightSpace (s : string) : string :=
  match s with
  | EmptyString => EmptyString
  | String c r => if allSpaceFrom 0 s then EmptyString else String c (TrimRightSpace r)
  end.

(** [strings.TrimSpace] *)
Definition TrimSpace (s : string) : string := TrimRightSpace (TrimLeftSpace s).

(** [strings.Split(s, sep)] for a one-byte separator: always at least one
    field, and an empty field between two adjacent separators. *)
Fixpoint Split (sep : ascii) (s : string) : list string :=
  match s with
  | EmptyString => [EmptyString]
  | String c r =>
      if (c =? sep)%char then EmptyString :: Split sep r
      else match Split sep r with
           | h :: t => String c h :: t
           | [] => [String c EmptyString]
           end
  end.

(** [strings.ReplaceAll(s, old, new)] for a one-byte [old]. *)
Fixpoint ReplaceAll (old : ascii) (new : string) (s : string) : string :=
  match s with
  | EmptyString => EmptyString
  | String c r =>
      if (c =? old)%char then new ++ ReplaceAll old new r
      else String c (ReplaceAll old new r)
  end.

(** [s[i+1:]] for [i := strings.Index(s, string(c))]; [None] when [Index]
    returns [-1]. *)
Fixpoint afterFirst (c : ascii) (s : string) : option string :=
  match s with
  | EmptyString => None
  | String d r => if (d =? c)%char then Some r else afterFirst c r
  end.

Definition upperByte (c : ascii) : ascii :=
  if between "a" "z" c then ascii_of_N (N_of_ascii c - 32) else c.

Section ToUpper.
(** [unicode.ToUpper] on the runes outside ASCII, from the UTF-8 encoding of
    a rune to the encoding of its upper case: the Unicode case tables are
    data of Go's library and stay a parameter. *)
Variable upperRune : string -> string.

(** [strings.ToUpper]: ASCII letters are mapped byte by byte; on other
    strings [strings.Map(unicode.ToUpper, s)] maps rune by rune, an invalid
    byte becoming U+FFFD (bytes EF BF BD). *)
Fixpoint mapUpperFrom (skip : nat) (s : string) : string :=
  match s with
  | EmptyString => EmptyString
  | String c r =>
      match skip with
      | S k => mapUpperFrom k r
      | O =>
          if isASCII c then String (upperByte c) (mapUpperFrom 0 r)
          else match runeLen s with
               | S (S k) => upperRune (String.substring 0 (S (S k)) s) ++ mapUpperFrom (S k) r
               | _ => String "239" (String "191" (String "189" (mapUpperFrom 0 r)))
               end
      end
  end.

Definition ToUpper (s : string) : string := mapUpperFrom 0 s.
End ToUpper.

End GoStrings.

(* ================================================================== *)
(** ** Package [time] *)
(* ================================================================== *)

Module GoTime.
Import Utf8 GoStrings.
Local Open Scope Z_scope.

(** [time.Duration] is an [int64] count of nanoseconds. *)
Definition Nanosecond : Z := 1.
Definition Microsecond : Z := 1000 * Nanosecond.
Definition Millisecond : Z := 1000 * Microsecond.
Definition Second : Z := 1000 * Millisecond.
Definition Minute : Z := 60 * Second.
Definition Hour : Z := 60 * Minute.

Definition maxInt64 : Z := 2 ^ 63 - 1.

(** Conversion to [int64], two's complement. *)
Definition wrap64 (z : Z) : Z := (z + 2 ^ 63) mod 2 ^ 64 - 2 ^ 63.

Definition isDigit (c : ascii) : bool := between "0" "9" c.
Definition digitVal (c : ascii) : Z := Z.of_N (N_of_ascii c) - 48.

(** [time.leadingInt]: the leading digits of [s] as a [uint64]; an error
    ([None]) once the value exceeds [1<<63]. *)
Fixpoint leadingInt (x : Z) (s : string) : option (Z * string) :=
  match s with
  | EmptyString => Some (x, EmptyString)
  | String c r =>
      if isDigit c then
        if 2 ^ 63 / 10 <? x then None
        else
          let x' := x * 10 + digitVal c in
          if 2 ^ 63 <? x' then None else leadingInt x' r
      else Some (x, s)
  end.

(** [time.leadingFraction]: the leading digits of [s] read as the digits
    after a decimal point; digits past the precision of [uint64] are
    consumed and ignored.  The result holds the digits read as an integer and
    their number [k], Go's [scale] being [10^k]. *)
Fixpoint leadingFraction (x : Z) (k : nat) (overflow : bool) (s : string)
  : Z * nat * string :=
  match s with
  | EmptyString => (x, k, EmptyString)
  | String c r =>
      if isDigit c then
        if overflow then leadingFraction x k true r
        else if (2 ^ 63 - 1) / 10 <? x then leadingFraction x k true r
        else
          let y := x * 10 + digitVal c in
          if 2 ^ 63 <? y then leadingFraction x k true r
          else leadingFraction y (S k) false r
      else (x, k, s)
  end.

(** The unit of one component: the bytes up to the next ['.'] or digit. *)
Fixpoint unitSpan (s : string) : string * string :=
  match s with
  | EmptyString => (EmptyString, EmptyString)
  | String c r =>
      if (c =? ".")%char || isDigit c then (EmptyString, s)
      else let '(u, rest) := unitSpan r in (String c u, rest)
  end.

(** [time.unitMap]; the two spellings of the micro sign are U+00B5 and
    U+03BC. *)
Definition unitMap (u : string) : option Z :=
  if (u =? "ns")%string then Some Nanosecond
  else if (u =? "us")%string then Some Microsecond
  else if (u =? String "194" (String "181" "s"))%string then Some Microsecond
  else if (u =? String "206" (String "188" "s"))%string then Some Microsecond
  else if (u =? "ms")%string then Some Millisecond
  else if (u =? "s")%string then Some Second
  else if (u =? "m")%string then Some Minute
  else if (u =? "h")%string then Some Hour
  else None.

(** The optional fractional part of one component,
    [if s != "" && s[0] == '.' { s = s[1:]; f, scale, s = leadingFraction(s); ... }]:
    the digits read, their number, the rest, and whether a digit was
    consumed ([post]). *)
Definition fractionPart (s1 : string) : Z * nat * string * bool :=
  match s1 with
  | String c s1' =>
      if (c =? ".")%char then
        let '(f, k, s2) := leadingFraction 0 0 false s1' in
        (f, k, s2, negb (String.length s1' =? String.length s2)%nat)
      else (0, O, s1, false)
  | EmptyString => (0, O, s1, false)
  end.

Section ParseDuration.
(** The one floating-point step of [time.ParseDuration],
    [uint64(float64(f) * (float64(unit) / scale))] with [scale = 10^k]: the
    nanoseconds a fractional part [0.f] of a unit amounts to.  It is reached
    only for components written with a decimal point and stays a
    parameter. *)
Variable fracNanos : Z -> nat -> Z -> Z.

(** The loop of [time.ParseDuration] over the components (digits, an
    optional point and digits, a unit); [d] is the [uint64] sum so far.
    Every turn consumes at least one byte, so [String.length s] turns always
    suffice. *)
Fixpoint parseComponents (fuel : nat) (d : Z) (s : string) : option Z :=
  match s with
  | EmptyString => Some d
  | String c _ =>
      match fuel with
      | O => None
      | S fuel' =>
          if negb ((c =? ".")%char || isDigit c) then None
          else
            match leadingInt 0 s with
            | None => None
            | Some (v, s1) =>
                let pre := negb (String.length s =? String.length s1)%nat in
                let '(f, k, s2, post) := fractionPart s1 in
                if negb pre && negb post then None
                else
                  let '(u, s3) := unitSpan s2 in
                  if isEmpty u then None
                  else
                    match unitMap u with
                    | None => None
                    | Some unit =>
                        if 2 ^ 63 / unit <? v then None
                        else
                          let v := v * unit in
                          let v' :=
                            if 0 <? f then (v + fracNanos f k unit) mod 2 ^ 64
                            else v in
                          if (0 <? f) && (2 ^ 63 <? v') then None
                          else
                            let d' := (d + v') mod 2 ^ 64 in
                            if 2 ^ 63 <? d' then None
                            else parseComponents fuel' d' s3
                    end
            end
      end
  end.

(** [time.ParseDuration]: an optional sign
    ([if c == '-' || c == '+' { neg = c == '-'; s = s[1:] }]), then one or
    more components, or the single digit 0; [None] stands for the error
    result. *)
Definition ParseDuration (s : string) : option Z :=
  let '(neg, s) :=
    match s with
    | String c r =>
        if ((c =? "-") || (c =? "+"))%char then ((c =? "-")%char, r) else (false, s)
    | EmptyString => (false, s)
    end in
  if (s =? "0")%string then Some 0
  else if isEmpty s then None
  else
    match parseComponents (String.length s) 0 s with
    | None => None
    | Some d =>
        if neg then Some (wrap64 (- wrap64 d))
        else if maxInt64 <? d then None
        else Some d
    end.
End ParseDuration.

(** [int64(d.Seconds())].  [Duration.Seconds] is
    [float64(d/Second) + float64(d%Second)/1e9]: exact for a whole number of
    seconds, otherwise within one second of the quotient, and the rounding of
    the floating-point sum decides whether the conversion back to [int64]
    steps away from zero ([roundsAway]). *)
Definition SecondsInt64 (roundsAway : Z -> bool) (d : Z) : Z :=
  let sec := Z.quot d Second in
  let nsec := Z.rem d Second in
  if nsec =? 0 then sec
  else if roundsAway d then sec + Z.sgn d
  else sec.

(** A [time.Time]: the instant, in nanoseconds since
    January 1, year 1, 00:00:00 UTC, and the offset of its zone in seconds. *)
Record Instant : Type := mkInstant { nanos : Z; zoneOffset : Z }.

(** The zero value [time.Time{}]. *)
Definition zeroTime : Instant := mkInstant 0 0.
Definition IsZero (t : Instant) : bool := nanos t =? 0.
Definition Before (t u : Instant) : bool := nanos t <? nanos u.
Definition Add (t : Instant) (d : Z) : Instant := mkInstant (nanos t + d) (zoneOffset t).

Definition RFC3339 : string := "2006-01-02T15:04:05Z07:00".
Definition RFC3339Nano : string := "2006-01-02T15:04:05.999999999Z07:00".

End GoTime.

(* ================================================================== *)
(** ** Package [fmt]: the verb [%d] *)
(* ================================================================== *)

Module GoFmt.
Local Open Scope Z_scope.

Definition digitChar (n : Z) : ascii := ascii_of_N (Z.to_N (48 + n mod 10)).

(** Digits are produced from the least significant one, as
    [strconv.formatBits] does; an [int64] has at most 19 of them. *)
Fixpoint decFrom (fuel : nat) (n : Z) (acc : string) : string :=
  match fuel with
  | O => acc
  | S fuel' =>
      let acc' := String (digitChar n) acc in
      if n <? 10 then acc' else decFrom fuel' (n / 10) acc'
  end.

(** [fmt.Sprintf("%d", n)] for [0 <= n]. *)
Definition dec (n : Z) : string := decFrom 20 n EmptyString.

End GoFmt.

(* ================================================================== *)
(** ** Package [regexp]: the three patterns the sources compile *)
(* ================================================================== *)

Module GoRegexp.
Import Utf8 GoStrings GoTime.

(** The longest run of digits [s] starts with, and what follows it. *)
Fixpoint spanDigits (s : string) : string * string :=
  match s with
  | EmptyString => (EmptyString, EmptyString)
  | String c r =>
      if isDigit c then let '(ds, rest) := spanDigits r in (String c ds, rest)
      else (EmptyString, s)
  end.

(** [regexp.MustCompile(`(?i)(\d+)U`).FindStringSubmatch(s)], the capture
    [m[1]] of the leftmost match: [\d+] is greedy and the unit letter is no
    digit, so a match starts where a run of digits does and captures the run
    up to the unit.  [isUnit rest] tells whether [rest] starts with the
    letter [U] in either case. *)
Fixpoint FindDigitsBefore (isUnit : string -> bool) (s : string) : option string :=
  match s with
  | EmptyString => None
  | String _ r =>
      let '(ds, rest) := spanDigits s in
      if negb (isEmpty ds) && isUnit rest then Some ds
      else FindDigitsBefore isUnit r
  end.

(** Case-insensitive literals: [H] and [M] fold to their lower case only;
    the fold orbit of [S] also holds U+017F (bytes C5 BF). *)
Definition isH (s : string) : bool :=
  match s with String c _ => ((c =? "H") || (c =? "h"))%char | _ => false end.
Definition isM (s : string) : bool :=
  match s with String c _ => ((c =? "M") || (c =? "m"))%char | _ => false end.
Definition isS (s : string) : bool :=
  match s with
  | String c r =>
      ((c =? "S") || (c =? "s"))%char
      || ((c =? "197")%char && match r with String d _ => (d =? "191")%char | _ => false end)
  | _ => false
  end.

(** The character class [[A-Za-z0-9_.\-]]. *)
Definition inSafeClass (c : ascii) : bool :=
  between "A" "Z" c || between "a" "z" c || isDigit c
  || (c =? "_")%char || (c =? ".")%char || (c =? "-")%char.

(** [regexp.MustCompile(`[^A-Za-z0-9_.\-]`).ReplaceAllString(s, "_")]: the
    negated class matches one rune, so every rune outside the class, of
    whatever width, and every invalid byte becomes one underscore. *)
Fixpoint replaceUnsafeFrom (skip : nat) (s : string) : string :=
  match s with
  | EmptyString => EmptyString
  | String c r =>
      match skip with
      | S k => replaceUnsafeFrom k r
      | O =>
          if inSafeClass c then String c (replaceUnsafeFrom 0 r)
          else String "_" (replaceUnsafeFrom (Nat.pred (runeLen s)) r)
      end
  end.

Definition ReplaceUnsafe (s : string) : string := replaceUnsafeFrom 0 s.

End GoRegexp.

(* ================================================================== *)
(** ** Values of type [any] and the library interface *)
(* ================================================================== *)

(** What a cell of an [azquery.Row] (decoded JSON) can hold. *)
#[local] Unset Elimination Schemes.
Inductive any : Type :=
| ANil
| AString (s : string)
| AFloat64 (bits : Z)
| ABool (b : bool)
| AMap (fields : list (string * any))
| ASlice (items : list any).
#[local] Set Elimination Schemes.

(** The library functions the sources call whose results depend on data or
    arithmetic outside this development.  Theorems quantify over the whole
    record and state what they need of a field as a hypothesis. *)
Record GoLib : Type := mkGoLib {
  (** [unicode.ToUpper] outside ASCII, on encoded runes *)
  upperRune : string -> string;
  (** the floating-point step of [time.ParseDuration] *)
  fracNanos : Z -> nat -> Z -> Z;
  (** the rounding of [Duration.Seconds] *)
  roundsAway : Z -> bool;
  (** [time.Parse(layout, value)], [None] for an error *)
  timeParse : string -> string -> option GoTime.Instant;
  (** [t.Format(layout)] *)
  timeFormat : GoTime.Instant -> string -> string;
  (** [fmt.Sprint] *)
  Sprint : any -> string;
  (** [json.Marshal] *)
  Marshal : any -> result string;
  (** [sort.Slice(x, less)], with [less] given on elements *)
  sortSlice : forall A : Type, (A -> A -> bool) -> list A -> list A
}.

(* ================================================================== *)
(** ** pkg/utils *)
(* ================================================================== *)

Module Utils.
Import Utf8 GoStrings GoTime GoFmt GoRegexp.
Local Open Scope Z_scope.

(** [PT%dH%dM%dS] of a number of seconds. *)
Definition formatISO (secs : Z) : string :=
  let h := Z.quot secs 3600 in
  let m := Z.quot (Z.rem secs 3600) 60 in
  let secRem := Z.rem secs 60 in
  "PT" ++ dec h ++ "H" ++ dec m ++ "M" ++ dec secRem ++ "S".

(** [SafeFileName] sanitizes table names for filesystem paths. *)
Definition SafeFileName (name : string) : string :=
  let name := TrimSpace name in
  let name := ReplaceAll "." "_" name in
  let name := ReplaceAll "/" "_" name in
  let name := ReplaceUnsafe name in
  if isEmpty name then "unnamed" else name.

Section WithLib.
Variable L : GoLib.

(** [ISO8601Duration] accepts either Go durations (e.g., 2h45m) or ISO-8601
    (PT2H45M) and returns ISO-8601. *)
Definition ISO8601Duration (dur : string) : result string :=
  let dur := TrimSpace dur in
  if isEmpty dur then Err "empty duration"
  else if HasPrefix (ToUpper (upperRune L) dur) "P" then Ok dur
  else
    match ParseDuration (fracNanos L) dur with
    | None => Err "parse duration"
    | Some d =>
        let secs := SecondsInt64 (roundsAway L) d in
        let secs := if secs <? 0 then wrap64 (- secs) else secs in
        Ok (formatISO secs)
    end.

(** One of the three blocks of [ParseISO8601ToDuration]: the digits [m]
    found before a unit letter are parsed as a Go duration with [suffix];
    the error of that parse is dropped, and only a positive value is
    added. *)
Definition addComponent (total : Z) (m : option string) (suffix : string) : Z :=
  match m with
  | None => total
  | Some ds =>
      let v := match ParseDuration (fracNanos L) (ds ++ suffix) with
               | Some v => v
               | None => 0
               end in
      if 0 <? v then wrap64 (total + v) else total
  end.

(** [ParseISO8601ToDuration] parses a subset of ISO8601 durations like
    PT6H, PT30M, PT1H30M. *)
Definition ParseISO8601ToDuration (iso : string) : result Z :=
  let iso := ToUpper (upperRune L) (TrimSpace iso) in
  if negb (HasPrefix iso "P") then Err ("not iso8601: " ++ iso)
  else
    match afterFirst "T" iso with
    | None => Err ("only time components supported: " ++ iso)
    | Some part =>
        let total := 0 in
        let total := addComponent total (FindDigitsBefore isH part) "h" in
        let total := addComponent total (FindDigitsBefore isM part) "m" in
        let total := addComponent total (FindDigitsBefore isS part) "s" in
        Ok total
    end.

(** [ParseTimeRFC3339] parses RFC3339/RFC3339Nano, returns zero time on
    failure. *)
Definition ParseTimeRFC3339 (s : string) : Instant :=
  let s := TrimSpace s in
  if isEmpty s then zeroTime
  else
    match timeParse L RFC3339Nano s with
    | Some ts => ts
    | None =>
        match timeParse L RFC3339 s with
        | Some ts => ts
        | None => zeroTime
        end
    end.

End WithLib.
End Utils.

(* ================================================================== *)
(** ** pkg/mustgather: configuration and profiles *)
(* ================================================================== *)

Module MustGather.
Import Utf8 GoStrings GoTime GoFmt Utils.
Local Open Scope list_scope.

Record Config : Type := mkConfig {
  WorkspaceID : string;
  Timespan : string;
  OutputFile : string;
  TableFilter : string;
  Profiles : string;
  AllTables : bool;
  StitchLogs : bool;
  StitchIncludeEvents : bool;
  AIMode : bool;
  AIQuery : string
}.

(** The loop
    [for _, t := range lst { if _, ok := seen[t]; !ok { tables = append(tables, t); seen[t] = struct{}{} } }]
    on the pair of the slice under construction and the set [seen]. *)
Definition appendUnseen (lst : list string) (acc : list string * gset string)
  : list string * gset string :=
  fold_left
    (fun '(tables, seen) t =>
       if decide (t ∈ seen) then (tables, seen)
       else (tables ++ [t], {[t]} ∪ seen))
    lst acc.

(** The map literal of [GetDefaultProfiles]. *)
Definition podLogsTables : list string :=
  ["ContainerLogV2"; "ContainerLog"; "KubeEvents"; "KubeMonAgentEvents"; "Syslog"].
Definition inventoryTables : list string :=
  ["KubePodInventory"; "KubeNodeInventory"; "KubeServices"; "KubePVInventory";
   "ContainerInventory"; "ContainerImageInventory"; "ContainerNodeInventory";
   "KubeHealth"].
Definition metricsTables : list string := ["InsightsMetrics"; "Perf"; "Heartbeat"].
Definition auditTables : list string := ["AKSControlPlane"; "AKSAudit"; "AKSAuditAdmin"].

Definition baseProfiles : gmap string (list string) :=
  <["podLogs" := podLogsTables]>
  (<["inventory" := inventoryTables]>
  (<["metrics" := metricsTables]>
  (<["audit" := auditTables]> ∅))).

(** [GetDefaultProfiles]: the literal, and the alias
    aks-debug = podLogs + inventory + metrics built by the de-duplicating
    loop. *)
Definition GetDefaultProfiles : gmap string (list string) :=
  let profileMap := baseProfiles in
  let '(combined, _) :=
    fold_left
      (fun acc k => appendUnseen (default [] (profileMap !! k)) acc)
      ["podLogs"; "inventory"; "metrics"]
      ([], ∅) in
  <["aks-debug" := combined]> profileMap.

(** The list that overrides [tables] when a filter is set: the fields of
    the comma-separated filter, trimmed, the empty ones left out. *)
Definition explicitTables (tableFilter : string) : list string :=
  fold_left
    (fun tables p =>
       let p := TrimSpace p in
       if negb (isEmpty p) then tables ++ [p] else tables)
    (Split "," tableFilter) [].

(** The union of the table lists of the named profiles; an unknown
    profile is skipped (with a warning on [os.Stderr], which is not part of
    the result). *)
Definition unionProfiles (profileMap : gmap string (list string)) (profiles : string)
  (tables : list string) : list string :=
  fst (fold_left
         (fun '(tables, seen) p =>
            let p := TrimSpace p in
            if isEmpty p then (tables, seen)
            else match profileMap !! p with
                 | Some lst => appendUnseen lst (tables, seen)
                 | None => (tables, seen)
                 end)
         (Split "," profiles) (tables, ∅)).

(** [(g *Gatherer) resolveTables] *)
Definition resolveTables (cfg : Config) (tables : list string) : list string :=
  (* override tables with filter list *)
  let tables :=
    if negb (isEmpty (TableFilter cfg)) then explicitTables (TableFilter cfg)
    else tables in
  let profileMap := GetDefaultProfiles in
  (* If profiles provided, union their table lists *)
  let tables :=
    if (length tables =? 0)%nat && negb (isEmpty (Profiles cfg)) && negb (AllTables cfg)
    then unionProfiles profileMap (Profiles cfg) tables
    else tables in
  (* If still empty, default to union of podLogs+inventory+metrics *)
  let tables :=
    if (length tables =? 0)%nat && negb (AllTables cfg) then
      let def := default [] (profileMap !! "aks-debug") in
      fst (appendUnseen def (tables, ∅))
    else tables in
  tables.

End MustGather.

(* ================================================================== *)
(** ** pkg/mustgather: the window planner *)
(* ================================================================== *)

Module Planner.
Import GoTime.
Local Open Scope Z_scope.
Local Open Scope list_scope.

(** A window [(t0, t1)] of one query; instants are nanoseconds. *)
Definition Window : Type := (Z * Z)%type.

(** [chunk = 1h if dur>2h else 15m] *)
Definition chunkSize (dur : Z) : Z :=
  if dur <=? 2 * Hour then 15 * Minute else Hour.

(** [start := since.Add(-dur); if dur == 0 { start = since.Add(-2 * time.Hour) }] *)
Definition chunkStart (since dur : Z) : Z :=
  if dur =? 0 then since + - (2 * Hour) else since + wrap64 (- dur).

(** The loop
    [for t0 := start; t0.Before(since); t0 = t0.Add(chunk) { t1 := t0.Add(chunk); if t1.After(since) { t1 = since }; ... }]
    as the list of the pairs [(t0, t1)] it visits. *)
Fixpoint chunkLoop (fuel : nat) (t0 since chunk : Z) : list Window :=
  match fuel with
  | O => []
  | S fuel' =>
      if t0 <? since then
        let t1 := t0 + chunk in
        let t1 := if since <? t1 then since else t1 in
        (t0, t1) :: chunkLoop fuel' (t0 + chunk) since chunk
      else []
  end.

(** The number of turns after which the cursor has reached [since]. *)
Definition turns (start since chunk : Z) : nat :=
  Z.to_nat ((since - start + chunk - 1) / chunk).

(** The windows [exportTableData] queries for a lookback [dur] at the
    instant [since]. *)
Definition planWindows (since dur : Z) : list Window :=
  let start := chunkStart since dur in
  let chunk := chunkSize dur in
  chunkLoop (turns start since chunk) start since chunk.

End Planner.

(* ================================================================== *)
(** ** pkg/mustgather: the exporter and the stitcher *)
(* ================================================================== *)

(** A Go call either returns or panics (an index out of range, a nil
    pointer); nothing in the sources recovers from a panic. *)
Inductive outcome (A : Type) : Type :=
| Done (a : A)
| Panic (msg : string).
Arguments Done {A} a.
Arguments Panic {A} msg.

#[global] Instance outcome_ret : MRet outcome := fun A a => Done a.
#[global] Instance outcome_bind : MBind outcome :=
  fun A B f m => match m with Done a => f a | Panic msg => Panic msg end.

(** A loop whose body may panic. *)
Fixpoint foldOutcome {A B : Type} (f : B -> A -> outcome B) (l : list A) (b : B)
  : outcome B :=
  match l with
  | [] => Done b
  | a :: l' => match f b a with
               | Done b' => foldOutcome f l' b'
               | Panic msg => Panic msg
               end
  end.

Module Exporter.
Import Utf8 GoStrings GoTime GoFmt Utils MustGather Planner.
Local Open Scope Z_scope.
Local Open Scope list_scope.

(** [type ckey struct{ ns, pod, container string }] *)
Record ckey : Type := mkCkey { ns : string; pod : string; container : string }.

#[global] Instance ckey_eq_dec : EqDecision ckey.
Proof. solve_decision. Defined.

#[global] Instance ckey_countable : Countable ckey :=
  inj_countable' (fun k => (ns k, pod k, container k))
                 (fun t => mkCkey t.1.1 t.1.2 t.2)
                 (fun k => match k with mkCkey _ _ _ => eq_refl end).

(** An [azquery.Table]: a column name is a [*string]. *)
Record Table : Type := mkTable {
  Columns : list (option string);
  Rows : list (list any)
}.

(** What [QueryWorkspace] returns: an error, or a response that may carry
    a partial error next to its tables. *)
Inductive QueryResponse : Type :=
| QueryError (err : string)
| QueryResult (partialError : option string) (Tables : list Table).

(** The logs client: the answer to the [n]-th query of the run, for a
    workspace, a query text and a time interval. *)
Definition LogsClient : Type := nat -> string -> string -> Z -> Z -> QueryResponse.

(** The tables client, when there is one: the schema of a table, if the
    call succeeds. *)
Definition TablesClient : Type := option (string -> option any).

(** The payload of a tar entry, before its rendering as bytes. *)
Inductive Payload : Type :=
| SchemaJSON (schema : any)
| PartNDJSON (lines : list (gmap string any))
| SummaryJSON (table : string) (rows : Z) (duration : string)
| LogText (chunks : list string).

(** A call of [WriteFileToTar]: the arguments of [filepath.Join] and the
    payload. *)
Record Entry : Type := mkEntry { path : list string; payload : Payload }.

(** A [*strings.Builder] is the list of the strings written to it. *)
Record State : Type := mkState {
  tarw : list Entry;
  stitchedLogs : gmap ckey (list string);
  stitchedEvents : gmap string (list string);
  queries : nat
}.

Record v2row : Type := mkV2row {
  tm : string; v2ns : string; v2pod : string; cn : string; src : string; msg : any
}.

Record evtrow : Type := mkEvtrow {
  evtm : string; evns : string; name : string; reason : string; message : string
}.

Fixpoint idxFrom (i : Z) (colNames : list string) (n : string) : Z :=
  match colNames with
  | [] => -1
  | c :: r => if (c =? n)%string then i else idxFrom (i + 1) r n
  end.

(** The closure [idx]: the first position of a column name, or [-1]. *)
Definition idx (colNames : list string) (n : string) : Z := idxFrom 0 colNames n.

(** [colNames[i] = *c.Name] *)
Fixpoint columnNames (cols : list (option string)) : outcome (list string) :=
  match cols with
  | [] => Done []
  | Some n :: r => names ← columnNames r; Done (n :: names)
  | None :: _ => Panic "nil pointer dereference"
  end.

(** [row[i]] for [0 <= i] *)
Definition rowAt (row : list any) (i : Z) : outcome any :=
  match row !! Z.to_nat i with
  | Some v => Done v
  | None => Panic "index out of range"
  end.

(** [for i, v := range row { obj[colNames[i]] = v }] *)
Fixpoint rowObjectFrom (colNames : list string) (i : nat) (row : list any)
  (obj : gmap string any) : outcome (gmap string any) :=
  match row with
  | [] => Done obj
  | v :: r =>
      match colNames !! i with
      | Some n => rowObjectFrom colNames (S i) r (<[n := v]> obj)
      | None => Panic "index out of range"
      end
  end.

Definition rowObject (colNames : list string) (row : list any) : outcome (gmap string any) :=
  rowObjectFrom colNames 0 row ∅.

(** The column positions looked up once per chunk. *)
Record Indices : Type := mkIndices {
  timeIdx : Z;
  nsIdx : Z; podIdx : Z; cnIdx : Z; srcIdx : Z; msgIdx : Z;
  evNsIdx : Z; evNameIdx : Z; evReasonIdx : Z; evMsgIdx : Z
}.

Definition lookupIndices (colNames : list string) : Indices :=
  mkIndices (idx colNames "TimeGenerated")
            (idx colNames "PodNamespace") (idx colNames "PodName")
            (idx colNames "ContainerName") (idx colNames "LogSource")
            (idx colNames "LogMessage")
            (idx colNames "Namespace") (idx colNames "Name")
            (idx colNames "Reason") (idx colNames "Message").

(** The guards of the two stitch accumulations. *)
Definition collectsV2 (cfg : Config) (table : string) (ix : Indices) : bool :=
  StitchLogs cfg && (table =? "ContainerLogV2")%string
  && (0 <=? timeIdx ix) && (0 <=? nsIdx ix) && (0 <=? podIdx ix)
  && (0 <=? cnIdx ix) && (0 <=? srcIdx ix) && (0 <=? msgIdx ix).

Definition collectsEvents (cfg : Config) (table : string) (ix : Indices) : bool :=
  StitchLogs cfg && StitchIncludeEvents cfg && (table =? "KubeEvents")%string
  && (0 <=? timeIdx ix) && (0 <=? evNsIdx ix) && (0 <=? evNameIdx ix)
  && (0 <=? evReasonIdx ix) && (0 <=? evMsgIdx ix).

(** A container-log tuple is noise when it names no namespace, pod or
    container. *)
Definition isNoise (r : v2row) : bool :=
  isEmpty (v2ns r) && isEmpty (v2pod r) && isEmpty (cn r).

Definition keyOf (r : v2row) : ckey := mkCkey (v2ns r) (v2pod r) (cn r).

Definition carriageReturn : ascii := "013".
Definition lineFeed : ascii := "010".
Definition newline : string := String lineFeed EmptyString.

(** [%04d] *)
Definition pad4 (digits : string) : string :=
  (String.concat "" (repeat "0" (4 - String.length digits)) ++ digits)%string.

(** [getBuf(k).WriteString(line)], and the same for [getEvt]: the builder is
    created on first use. *)
Definition writeLine `{Countable K} (k : K) (line : string)
  (m : gmap K (list string)) : gmap K (list string) :=
  <[k := default [] (m !! k) ++ [line]]> m.

Section WithLib.
Variable L : GoLib.
Variable cfg : Config.

(** The closure [toStr]. *)
Definition toStr (v : any) : string :=
  match v with
  | ANil => EmptyString
  | AString t => t
  | _ => Sprint L v
  end.

(** The comparison handed to [sort.Slice]: by parsed time, and by the raw
    strings when either time is the zero time. *)
Definition tmLess (a b : string) : bool :=
  let ti := ParseTimeRFC3339 L a in
  let tj := ParseTimeRFC3339 L b in
  if IsZero ti || IsZero tj then String.ltb a b
  else Before ti tj.

Definition v2Less (a b : v2row) : bool := tmLess (tm a) (tm b).
Definition evtLess (a b : evtrow) : bool := tmLess (evtm a) (evtm b).

(** The time stamp of a stitched line. *)
Definition lineStamp (raw : string) : string :=
  let ts := timeFormat L (ParseTimeRFC3339 L raw) RFC3339Nano in
  if (ts =? "0001-01-01T00:00:00Z")%string then raw else ts.

Definition messageText (m : any) : string :=
  match m with
  | AString s => s
  | AMap _ | ASlice _ =>
      match Marshal L m with
      | Ok bb => bb
      | Err _ => Sprint L m
      end
  | _ => Sprint L m
  end.

(** [fmt.Sprintf("%s [%s] %s\n", ts, r.src, msg)] *)
Definition v2Line (r : v2row) : string :=
  let msg := messageText (msg r) in
  let msg := ReplaceAll carriageReturn "" msg in
  let msg := ReplaceAll lineFeed "\n" msg in
  (lineStamp (tm r) ++ " [" ++ src r ++ "] " ++ msg ++ newline)%string.

Definition evtNamespace (r : evtrow) : string :=
  if isEmpty (evns r) then "default" else evns r.

(** [fmt.Sprintf("%s %s/%s %s %s\n", ts, ns, r.name, r.reason, ...)] *)
Definition evtLine (r : evtrow) : string :=
  (lineStamp (evtm r) ++ " " ++ evtNamespace r ++ "/" ++ name r ++ " " ++ reason r
   ++ " " ++ ReplaceAll lineFeed " " (message r) ++ newline)%string.

(** [for _, r := range v2rows { if noise { continue }; ...; buf.WriteString(line) }] *)
Definition appendV2 (rows : list v2row) (logs : gmap ckey (list string))
  : gmap ckey (list string) :=
  fold_left
    (fun logs r => if isNoise r then logs else writeLine (keyOf r) (v2Line r) logs)
    rows logs.

(** The block "write stitched chunk into builders in time order" for the
    container logs of one chunk. *)
Definition stitchV2 (table : string) (v2rows : list v2row)
  (logs : gmap ckey (list string)) : gmap ckey (list string) :=
  if StitchLogs cfg && (table =? "ContainerLogV2")%string && (0 <? length v2rows)%nat
  then appendV2 (sortSlice L v2row v2Less v2rows) logs
  else logs.

Definition appendEvents (rows : list evtrow) (evts : gmap string (list string))
  : gmap string (list string) :=
  fold_left (fun evts r => writeLine (evtNamespace r) (evtLine r) evts) rows evts.

Definition stitchEvents (table : string) (evrows : list evtrow)
  (evts : gmap string (list string)) : gmap string (list string) :=
  if StitchLogs cfg && StitchIncludeEvents cfg && (table =? "KubeEvents")%string
     && (0 <? length evrows)%nat
  then appendEvents (sortSlice L evtrow evtLess evrows) evts
  else evts.

(** What the loop over [tab.Rows] builds. *)
Record RowAcc : Type := mkRowAcc {
  partLines : list (gmap string any);
  rowsChunk : Z;
  v2rows : list v2row;
  evrows : list evtrow
}.

(** The body of [for _, row := range tab.Rows]. *)
Definition processRow (table : string) (colNames : list string) (ix : Indices)
  (acc : RowAcc) (row : list any) : outcome RowAcc :=
  obj ← rowObject colNames row;
  let lines := partLines acc ++ [obj] in
  let n := rowsChunk acc + 1 in
  v2 ← (if collectsV2 cfg table ix then
          t ← rowAt row (timeIdx ix);
          n' ← rowAt row (nsIdx ix);
          p ← rowAt row (podIdx ix);
          c ← rowAt row (cnIdx ix);
          s ← rowAt row (srcIdx ix);
          m ← rowAt row (msgIdx ix);
          Done (v2rows acc ++ [mkV2row (toStr t) (toStr n') (toStr p) (toStr c) (toStr s) m])
        else Done (v2rows acc));
  ev ← (if collectsEvents cfg table ix then
          t ← rowAt row (timeIdx ix);
          n' ← rowAt row (evNsIdx ix);
          nm ← rowAt row (evNameIdx ix);
          r ← rowAt row (evReasonIdx ix);
          m ← rowAt row (evMsgIdx ix);
          Done (evrows acc ++ [mkEvtrow (toStr t) (toStr n') (toStr nm) (toStr r) (toStr m)])
        else Done (evrows acc));
  Done (mkRowAcc lines n v2 ev).

Definition partName (chunkIndex t0 t1 : Z) : string :=
  ("parts/" ++ pad4 (dec chunkIndex) ++ "-" ++ timeFormat L (mkInstant t0 0) RFC3339
   ++ "_" ++ timeFormat L (mkInstant t1 0) RFC3339 ++ ".ndjson")%string.

(** The counters [exportTableData] keeps next to the shared state. *)
Record Progress : Type := mkProgress {
  state : State;
  chunkIndex : Z;
  rowsTotal : Z
}.

(** What one turn of the chunk loop does with the first table of a
    response. *)
Definition exportRows (table safe : string) (w : Window) (tab : Table)
  (p : Progress) : outcome Progress :=
  colNames ← columnNames (Columns tab);
  let ix := lookupIndices colNames in
  acc ← foldOutcome (processRow table colNames ix) (Rows tab) (mkRowAcc [] 0 [] []);
  let st := state p in
  let '(tar, ci, total) :=
    if 0 <? rowsChunk acc then
      (tarw st ++ [mkEntry ["tables"; safe; partName (chunkIndex p) w.1 w.2]
                           (PartNDJSON (partLines acc))],
       chunkIndex p + 1, rowsTotal p + rowsChunk acc)
    else (tarw st, chunkIndex p, rowsTotal p) in
  Done (mkProgress
          (mkState tar
                   (stitchV2 table (v2rows acc) (stitchedLogs st))
                   (stitchEvents table (evrows acc) (stitchedEvents st))
                   (queries st))
          ci total).

(** One turn of the chunk loop: a failed query and a response without
    tables both [continue]. *)
Definition exportChunk (lcli : LogsClient) (table safe workspaceGUID : string)
  (p : Progress) (w : Window) : outcome Progress :=
  let st := state p in
  let res := lcli (queries st) workspaceGUID table w.1 w.2 in
  let p := mkProgress (mkState (tarw st) (stitchedLogs st) (stitchedEvents st)
                               (S (queries st)))
                      (chunkIndex p) (rowsTotal p) in
  match res with
  | QueryError _ => Done p
  | QueryResult _ [] => Done p
  | QueryResult _ (tab :: _) => exportRows table safe w tab p
  end.

(** [dur], from the ISO-8601 form or else from the configured timespan. *)
Definition lookback (iso : string) : Z :=
  match ParseISO8601ToDuration L iso with
  | Ok d2 => d2
  | Err _ =>
      match ParseDuration (fracNanos L) (Timespan cfg) with
      | Some d3 => d3
      | None => 0
      end
  end.

Definition summaryEntry (table safe : string) (rows : Z) (iso : string) : Entry :=
  mkEntry ["tables"; safe; "summary.json"] (SummaryJSON table rows iso).

(** [(g *Gatherer) exportTableData], at the instant [since] that
    [time.Now().UTC()] returns.  The Go function returns [nil] on every
    path that returns. *)
Definition exportTableData (lcli : LogsClient) (since : Z)
  (table safe workspaceGUID iso : string) (st : State) : outcome State :=
  let dur := lookback iso in
  p ← foldOutcome (exportChunk lcli table safe workspaceGUID)
                  (planWindows since dur) (mkProgress st 0 0);
  let st := state p in
  Done (mkState (tarw st ++ [summaryEntry table safe (rowsTotal p) iso])
                (stitchedLogs st) (stitchedEvents st) (queries st)).

(** The schema step of [exportTables]. *)
Definition writeSchema (tcli : TablesClient) (table safe : string) (st : State) : State :=
  match tcli with
  | Some get =>
      match get table with
      | Some schema =>
          mkState (tarw st ++ [mkEntry ["tables"; safe; "schema.json"] (SchemaJSON schema)])
                  (stitchedLogs st) (stitchedEvents st) (queries st)
      | None => st
      end
  | None => st
  end.

(** The body of [for _, table := range tables]; [clock] gives the instant
    read by the export of the [i]-th table. *)
Definition exportOne (lcli : LogsClient) (tcli : TablesClient) (clock : nat -> Z)
  (workspaceGUID iso : string) (acc : State * nat) (table : string)
  : outcome (State * nat) :=
  let '(st, i) := acc in
  let safe := SafeFileName table in
  let st := writeSchema tcli table safe st in
  st ← exportTableData lcli (clock i) table safe workspaceGUID iso st;
  Done (st, S i).

Definition podLogEntry (kb : ckey * list string) : Entry :=
  mkEntry ["namespaces"; SafeFileName (ns kb.1); "pods"; SafeFileName (pod kb.1);
           (SafeFileName (container kb.1) ++ ".log")%string]
          (LogText kb.2).

Definition eventsEntry (nb : string * list string) : Entry :=
  mkEntry ["namespaces"; SafeFileName nb.1; "events"; "events.log"] (LogText nb.2).

Definition nonEmptyBuilder {K} (kb : K * list string) : bool :=
  negb (isEmpty (String.concat "" kb.2)).

(** "Write stitched logs into the tar".  Go ranges over a map in an
    unspecified order; the entries are taken here in the order of
    [map_to_list]. *)
Definition flushStitched (st : State) : State :=
  if StitchLogs cfg then
    let logs := map podLogEntry (filter nonEmptyBuilder (map_to_list (stitchedLogs st))) in
    let evts :=
      if StitchIncludeEvents cfg
      then map eventsEntry (filter nonEmptyBuilder (map_to_list (stitchedEvents st)))
      else [] in
    mkState (tarw st ++ logs ++ evts) (stitchedLogs st) (stitchedEvents st) (queries st)
  else st.

(** [(g *Gatherer) exportTables], from an empty tar and fresh
    accumulators. *)
Definition exportTables (lcli : LogsClient) (tcli : TablesClient) (clock : nat -> Z)
  (tables : list string) (workspaceGUID iso : string) (tar : list Entry)
  : outcome State :=
  acc ← foldOutcome (exportOne lcli tcli clock workspaceGUID iso) tables
                    (mkState tar ∅ ∅ 0, O);
  Done (flushStitched acc.1).

End WithLib.
End Exporter.

(* ================================================================== *)
(** ** pkg/utils: resource identifiers *)
(* ================================================================== *)

Module ResourceID.
Import Utf8 GoStrings.
Local Open Scope list_scope.

Definition lowerByte (c : ascii) : ascii :=
  if between "A" "Z" c then ascii_of_N (N_of_ascii c + 32) else c.

Section ToLower.
(** [unicode.ToLower] on the runes outside ASCII, on encoded runes. *)
Variable lowerRune : string -> string.

(** [strings.ToLower]: ASCII letters are mapped byte by byte; on other
    strings [strings.Map(unicode.ToLower, s)] maps rune by rune, an invalid
    byte becoming U+FFFD. *)
Fixpoint mapLowerFrom (skip : nat) (s : string) : string :=
  match s with
  | EmptyString => EmptyString
  | String c r =>
      match skip with
      | S k => mapLowerFrom k r
      | O =>
          if isASCII c then String (lowerByte c) (mapLowerFrom 0 r)
          else match runeLen s with
               | S (S k) => (lowerRune (String.substring 0 (S (S k)) s) ++ mapLowerFrom (S k) r)%string
               | _ => String "239" (String "191" (String "189" (mapLowerFrom 0 r)))
               end
      end
  end.

Definition ToLower (s : string) : string := mapLowerFrom 0 s.

(** The named results [sub], [rg] and [workspace]. *)
Record Parts : Type := mkParts { sub : string; rg : string; workspace : string }.

(** The loop
    [for i := 0; i < len(parts)-1; i++ { switch strings.ToLower(parts[i]) { ... } }]:
    [parts[i+1]] is stored under the key that [parts[i]] names. *)
Fixpoint scanParts (parts : list string) (acc : Parts) : Parts :=
  match parts with
  | p :: ((q :: _) as rest) =>
      let key := ToLower p in
      let acc :=
        if (key =? "subscriptions")%string then mkParts q (rg acc) (workspace acc)
        else if (key =? "resourcegroups")%string then mkParts (sub acc) q (workspace acc)
        else if (key =? "workspaces")%string then mkParts (sub acc) (rg acc) q
        else acc in
      scanParts rest acc
  | _ => acc
  end.

(** [ParseResourceID] splits an Azure resource ID for workspace. *)
Definition ParseResourceID (id : string) : result Parts :=
  let id := TrimSpace id in
  if isEmpty id then Err "empty resource id"
  else
    let parts := Split "/" id in
    (* Expect: /subscriptions/<sub>/resourceGroups/<rg>/providers/
       Microsoft.OperationalInsights/workspaces/<name> *)
    if (length parts <? 9)%nat then Err ("invalid resource id: " ++ id)
    else
      let r := scanParts parts (mkParts "" "" "") in
      if isEmpty (sub r) || isEmpty (rg r) || isEmpty (workspace r)
      then Err ("failed to parse resource id: " ++ id)
      else Ok r.

End ToLower.
End ResourceID.

(* ================================================================== *)
(** ** pkg/mustgather: a helper of the tests *)
(* ================================================================== *)

Module TestHelpers.
Local Open Scope nat_scope.

(** The loop [for i := 0; i <= len(s)-len(substr); i++] of
    [stringContains], from position [i] with [n] positions left to try. *)
Fixpoint containsFrom (n i : nat) (s substr : string) : bool :=
  match n with
  | O => false
  | S n' =>
      if (String.substring i (String.length substr) s =? substr)%string then true
      else containsFrom n' (S i) s substr
  end.

(** [stringContains]: a helper function that doesn't depend on external
    packages. *)
Definition stringContains (s substr : string) : bool :=
  if String.length substr =? 0 then true
  else if String.length s <? String.length substr then false
  else containsFrom (S (String.length s - String.length substr)) 0 s substr.

End TestHelpers.

(* ================================================================== *)
(** ** pkg/mustgather: the run *)
(* ================================================================== *)

Module Gatherer.
Import Utf8 GoStrings GoTime Utils MustGather Exporter ResourceID.
Local Open Scope list_scope.

(** [armoperationalinsights.Workspace]: [Properties] and [CustomerID] are
    pointers. *)
Record WorkspaceProperties : Type := mkWorkspaceProperties { CustomerID : option string }.
Record Workspace : Type := mkWorkspace { Properties : option WorkspaceProperties }.

(** An element of [page.Value]: a [*Table], whose [Name] is a [*string]. *)
Definition TableRef : Type := option (option string).

(** What the run asks of Azure, of the file system and of the clock.  A
    constructor or a call that can fail gives its error, if any. *)
Record Azure : Type := mkAzure {
  (** [armoperationalinsights.NewWorkspacesClient(subID, cred, nil)] *)
  NewWorkspacesClient : string -> option string;
  (** [wcli.Get(ctx, rg, wsName, nil)], for the client of a subscription *)
  WorkspacesGet : string -> string -> string -> result Workspace;
  (** [armoperationalinsights.NewTablesClient(subID, cred, nil)] *)
  NewTablesClient : string -> option string;
  (** the pages of [tcli.NewListByWorkspacePager(rg, wsName, nil)] *)
  ListByWorkspace : string -> string -> string -> list (result (list TableRef));
  (** [tcli.Get(ctx, rg, wsName, table, nil)], the schema if the call succeeds *)
  TablesGet : string -> string -> string -> string -> option any;
  (** [os.Create(outFile)] *)
  Create : string -> option string;
  (** [azquery.NewLogsClient(cred, nil)] *)
  NewLogsClient : option string;
  QueryWorkspace : LogsClient;
  (** [time.Now()] in [GenerateDefaultOutputName], in the metadata, and in
      the export of the [i]-th table *)
  nameClock : Instant;
  metaClock : Instant;
  tableClock : nat -> Z
}.

(** What [WriteFileToTar] is called with, in the order of the calls. *)
Inductive Artifact : Type :=
| WorkspaceJSON (generatedAt workspaceGUID workspaceID timespan : string) (tablesCount : Z)
| AzureJSON (subscriptionId resourceGroup workspaceName : string)
| Exported (e : Entry)
| IndexJSON (tables : list string).

(** The path of an artifact in the archive. *)
Definition artifactPath (a : Artifact) : list string :=
  match a with
  | WorkspaceJSON _ _ _ _ _ => ["metadata/workspace.json"]
  | AzureJSON _ _ _ => ["metadata/azure.json"]
  | Exported e => path e
  | IndexJSON _ => ["index.json"]
  end.

(** How a run ends: the file created, if it got that far, what was written
    to it, and the error returned, if any. *)
Record RunResult : Type := mkRunResult {
  outFile : option string;
  written : list Artifact;
  err : option string
}.

Definition failed (msg : string) : outcome RunResult :=
  Done (mkRunResult None [] (Some msg)).

(** [for _, t := range page.Value { if t.Name != nil { tables = append(tables, *t.Name) } }] *)
Fixpoint appendNames (values : list TableRef) (tables : list string)
  : outcome (list string) :=
  match values with
  | [] => Done tables
  | None :: _ => Panic "nil pointer dereference"
  | Some None :: r => appendNames r tables
  | Some (Some n) :: r => appendNames r (tables ++ [n])
  end.

(** [for pager.More() { page, err := pager.NextPage(ctx); ... }] *)
Fixpoint listTables (pages : list (result (list TableRef))) (tables : list string)
  : outcome (result (list string)) :=
  match pages with
  | [] => Done (Ok tables)
  | Err e :: _ => Done (Err ("list tables: " ++ e)%string)
  | Ok values :: r =>
      match appendNames values tables with
      | Done tables => listTables r tables
      | Panic msg => Panic msg
      end
  end.

(** [w.Properties.CustomerID], the empty string when a pointer is nil. *)
Definition customerID (w : Workspace) : string :=
  match Properties w with
  | Some p => default "" (CustomerID p)
  | None => ""
  end.

Section WithLib.
Variable L : GoLib.
Variable lowerRune : string -> string.
Variable az : Azure.
Variable cfg : Config.

(** [(c *Config) GenerateDefaultOutputName] *)
Definition GenerateDefaultOutputName : string :=
  if isEmpty (OutputFile cfg)
  then ("must-gather-" ++ timeFormat L (nameClock az) "20060102-150405" ++ ".tar.gz")%string
  else OutputFile cfg.

(** "Resolve GUID and list of tables": the identifiers, the catalog and the
    GUID, or the error [Run] returns. *)
Definition resolveWorkspace : outcome (result (Parts * list string * string)) :=
  if negb (isEmpty (WorkspaceID cfg)) then
    match ParseResourceID lowerRune (WorkspaceID cfg) with
    | Err e => Done (Err ("parse workspace-id: " ++ e)%string)
    | Ok ids =>
        match NewWorkspacesClient az (sub ids) with
        | Some e => Done (Err e)
        | None =>
            match WorkspacesGet az (sub ids) (rg ids) (workspace ids) with
            | Err e => Done (Err ("get workspace: " ++ e)%string)
            | Ok w =>
                let workspaceGUID := customerID w in
                if AllTables cfg then
                  (* List tables via management plane only when explicitly requested *)
                  match NewTablesClient az (sub ids) with
                  | Some e => Done (Err e)
                  | None =>
                      match listTables (ListByWorkspace az (sub ids) (rg ids) (workspace ids)) [] with
                      | Done (Ok tables) => Done (Ok (ids, tables, workspaceGUID))
                      | Done (Err e) => Done (Err e)
                      | Panic msg => Panic msg
                      end
                  end
                else Done (Ok (ids, [], workspaceGUID))
            end
        end
    end
  else Done (Ok (mkParts "" "" "", [], "")).

(** [(g *Gatherer) Run] *)
Definition Run : outcome RunResult :=
  match ISO8601Duration L (Timespan cfg) with
  | Err e => failed ("invalid timespan: " ++ e)
  | Ok iso =>
      match resolveWorkspace with
      | Panic msg => Panic msg
      | Done (Err e) => failed e
      | Done (Ok (ids, tables, workspaceGUID)) =>
          if isEmpty workspaceGUID
          then failed "could not determine workspace GUID from workspace; check permissions or workspace-id"
          else
            let tables := resolveTables cfg tables in
            (* Prepare tar.gz writer *)
            let out := GenerateDefaultOutputName in
            match Create az out with
            | Some e => failed ("create out: " ++ e)
            | None =>
                (* Write metadata *)
                let tar :=
                  [WorkspaceJSON (timeFormat L (mkInstant (nanos (metaClock az)) 0) RFC3339Nano)
                                 workspaceGUID (WorkspaceID cfg) iso
                                 (Z.of_nat (length tables))] in
                (* If we have management-plane info, persist it *)
                let tar :=
                  if negb (isEmpty (sub ids)) && negb (isEmpty (rg ids))
                     && negb (isEmpty (workspace ids))
                  then tar ++ [AzureJSON (sub ids) (rg ids) (workspace ids)]
                  else tar in
                match NewLogsClient az with
                | Some e => Done (mkRunResult (Some out) tar (Some ("logs client: " ++ e)%string))
                | None =>
                    let schemaClient : result TablesClient :=
                      if negb (isEmpty (sub ids)) then
                        match NewTablesClient az (sub ids) with
                        | Some e => Err e
                        | None => Ok (Some (TablesGet az (sub ids) (rg ids) (workspace ids)))
                        end
                      else Ok None in
                    match schemaClient with
                    | Err e => Done (mkRunResult (Some out) tar (Some e))
                    | Ok tcli =>
                        match exportTables L cfg (QueryWorkspace az) tcli (tableClock az)
                                           tables workspaceGUID iso [] with
                        | Panic msg => Panic msg
                        | Done st =>
                            (* Index file *)
                            Done (mkRunResult (Some out)
                                    (tar ++ map Exported (tarw st) ++ [IndexJSON tables])
                                    None)
                        end
                    end
                end
            end
      end
  end.

End WithLib.
End Gatherer.

(* ================================================================== *)
(** ** A reference instance of the library interface *)
(* ================================================================== *)

(** The instance the examples below are run with.  Each field agrees with
    Go's library on the inputs named in its comment; the theorems about the
    sources hold for every instance and use this one only as an example. *)
Module RefLib.
Import Utf8 GoStrings GoTime GoFmt.
Local Open Scope Z_scope.
Local Open Scope list_scope.

(** *** [sort.Slice] on short slices

    For fewer than 12 elements [sort.Slice] runs
    [insertionSortLessFunc]: each element in turn moves left past its
    neighbour while [less(j, j-1)] holds. *)
Section Insertion.
Context {A : Type} (less : A -> A -> bool).

(** Insertion of [x] at the right end of a prefix held in reverse. *)
Fixpoint insertLeftward (x : A) (rprefix : list A) : list A :=
  match rprefix with
  | [] => [x]
  | y :: r => if less x y then y :: insertLeftward x r else x :: rprefix
  end.

Definition insertionSort (l : list A) : list A :=
  rev (fold_left (fun rprefix x => insertLeftward x rprefix) l []).
End Insertion.

(** *** [time.Parse] and [Format] on UTC time stamps

    The time stamps [YYYY-MM-DDThh:mm:ss], with up to nine fractional
    digits and the zone [Z]. *)
Definition twoDigits (s : string) : option (Z * string) :=
  match s with
  | String a (String b r) =>
      if isDigit a && isDigit b then Some (digitVal a * 10 + digitVal b, r) else None
  | _ => None
  end.

Definition expect (c : ascii) (s : string) : option string :=
  match s with
  | String d r => if (d =? c)%char then Some r else None
  | EmptyString => None
  end.

Definition isLeap (y : Z) : bool :=
  (y mod 4 =? 0) && (negb (y mod 100 =? 0) || (y mod 400 =? 0)).

Definition daysIn (y m : Z) : Z :=
  if m =? 2 then (if isLeap y then 29 else 28)
  else if (m =? 4) || (m =? 6) || (m =? 9) || (m =? 11) then 30
  else 31.

(** Days of the year before the first of month [m]. *)
Definition daysBeforeMonth (y m : Z) : Z :=
  fold_left (fun acc k => acc + daysIn y k) (map Z.of_nat (seq 1 (Z.to_nat (m - 1)))) 0.

(** Days from January 1 of year 1 to the given day. *)
Definition daysSinceYear1 (y m d : Z) : Z :=
  let y' := y - 1 in
  365 * y' + y' / 4 - y' / 100 + y' / 400 + daysBeforeMonth y m + (d - 1).

(** The fractional digits after the point, scaled to nanoseconds. *)
Fixpoint fractionNanos (k : nat) (acc : Z) (s : string) : option (Z * string) :=
  match s with
  | String c r =>
      if isDigit c then
        match k with
        | O => None
        | S k' => fractionNanos k' (acc + digitVal c * 10 ^ Z.of_nat k') r
        end
      else Some (acc, s)
  | EmptyString => Some (acc, s)
  end.

Definition parseUTC (layout value : string) : option Instant :=
  '(y1, s) ← twoDigits value;
  '(y2, s) ← twoDigits s;
  s ← expect "-" s;
  '(mo, s) ← twoDigits s;
  s ← expect "-" s;
  '(d, s) ← twoDigits s;
  s ← expect "T" s;
  '(h, s) ← twoDigits s;
  s ← expect ":" s;
  '(mi, s) ← twoDigits s;
  s ← expect ":" s;
  '(sec, s) ← twoDigits s;
  '(frac, s) ← match s with
                | String "." (String c r) =>
                    if isDigit c then fractionNanos 9 0 (String c r) else None
                | _ => Some (0, s)
                end;
  let y := y1 * 100 + y2 in
  if (s =? "Z")%string && (1 <=? mo) && (mo <=? 12) && (1 <=? d) && (d <=? daysIn y mo)
     && (h <? 24) && (mi <? 60) && (sec <? 60)
  then Some (mkInstant ((((daysSinceYear1 y mo d * 24 + h) * 60 + mi) * 60 + sec) * Second + frac) 0)
  else None.

(** The civil date of a day count, as [time.absDate] finds it. *)
Definition civil (days : Z) : Z * Z * Z :=
  let n := days / 146097 in
  let y := 400 * n in
  let d := days - 146097 * n in
  let n := d / 36524 in
  let n := n - n / 4 in
  let y := y + 100 * n in
  let d := d - 36524 * n in
  let n := d / 1461 in
  let y := y + 4 * n in
  let d := d - 1461 * n in
  let n := d / 365 in
  let n := n - n / 4 in
  let y := y + n + 1 in
  let d := d - 365 * n in
  let m := fold_left (fun m k => if daysBeforeMonth y k <=? d then k else m)
                     (map Z.of_nat (seq 1 12)) 1 in
  (y, m, d - daysBeforeMonth y m + 1).

Definition pad (width : nat) (n : Z) : string :=
  let ds := dec n in
  (String.concat "" (repeat "0" (width - String.length ds)) ++ ds)%string.

(** Nine fractional digits without the trailing zeros. *)
Fixpoint trimZeros (fuel : nat) (width : nat) (n : Z) : string :=
  match fuel with
  | O => EmptyString
  | S fuel' =>
      if n =? 0 then EmptyString
      else if n mod 10 =? 0 then trimZeros fuel' (Nat.pred width) (n / 10)
      else ("." ++ pad width n)%string
  end.

Definition formatUTC (t : Instant) (layout : string) : string :=
  let ns := nanos t in
  let secs := ns / Second in
  let '(y, m, d) := civil (secs / 86400) in
  let sod := secs mod 86400 in
  (pad 4 y ++ "-" ++ pad 2 m ++ "-" ++ pad 2 d ++ "T"
   ++ pad 2 (sod / 3600) ++ ":" ++ pad 2 (sod mod 3600 / 60) ++ ":" ++ pad 2 (sod mod 60)
   ++ (if (layout =? RFC3339Nano)%string then trimZeros 10 9 (ns mod Second) else "")
   ++ "Z")%string.

(** [fmt.Sprint] of [nil], of a string and of a boolean. *)
Definition sprint (v : any) : string :=
  match v with
  | ANil => "<nil>"
  | AString s => s
  | ABool true => "true"
  | ABool false => "false"
  | _ => "?"
  end.

(** - [upperRune]: runes outside ASCII are left alone;
    - [fracNanos], [roundsAway]: the exact quotient, for fractions and
      durations that [float64] represents exactly;
    - [timeParse], [timeFormat]: UTC time stamps;
    - [Sprint]: [nil], strings and booleans; [Marshal]: no value;
    - [sortSlice]: slices of fewer than 12 elements. *)
Definition refLib : GoLib :=
  mkGoLib (fun rune => rune)
          (fun f k unit => f * unit / 10 ^ Z.of_nat k)
          (fun _ => false)
          parseUTC
          formatUTC
          sprint
          (fun _ => Err "json: unsupported value")
          (fun A less l => insertionSort less l).

End RefLib.

(* ================================================================== *)
(** * The vocabulary of the properties *)
(* ================================================================== *)

(** ** Windows *)

Module PlannerSpec.
Import GoTime Planner.
Local Open Scope Z_scope.
Local Open Scope list_scope.

(** [ws] tiles the interval from [a] to [b]: every window is non-empty,
    starts where the one before it ends, the first starts at [a] and the
    last ends at [b]. *)
Inductive tiles : Z -> Z -> list Window -> Prop :=
| tiles_nil a : tiles a a []
| tiles_cons a m b ws : a < m -> tiles m b ws -> tiles a b ((a, m) :: ws).

(** No window is longer than [chunk]. *)
Definition bounded (chunk : Z) (ws : list Window) : Prop :=
  Forall (fun w : Window => w.2 - w.1 <= chunk) ws.

End PlannerSpec.

(** ** Target lists *)

Module ProfileSpec.
Import GoStrings MustGather.
Local Open Scope list_scope.

(** The de-duplicated union of the spec: the members in the order in which
    they are first seen, each one once. *)
Fixpoint dedupe (l : list string) : list string :=
  match l with
  | [] => []
  | x :: r => x :: List.filter (fun y => negb (String.eqb y x)) (dedupe r)
  end.

(** The invariant of the de-duplicating loops: [seen] holds exactly the
    members of [tables], and [tables] repeats none. *)
Definition tracked (acc : list string * gset string) : Prop :=
  NoDup acc.1 /\ forall t, t ∈ acc.2 <-> t ∈ acc.1.

End ProfileSpec.

(** ** Classes of bytes and strings *)

Module StringSpec.
Import Utf8 GoStrings GoTime GoFmt GoRegexp.
Local Open Scope Z_scope.

(** Every byte of [s] satisfies [P]. *)
Fixpoint allChars (P : ascii -> bool) (s : string) : bool :=
  match s with
  | EmptyString => true
  | String c r => P c && allChars P r
  end.

Fixpoint mapChars (f : ascii -> ascii) (s : string) : string :=
  match s with
  | EmptyString => EmptyString
  | String c r => String (f c) (mapChars f r)
  end.

(** The bytes of [[A-Za-z0-9_-]]. *)
Definition clean (c : ascii) : bool := inSafeClass c && negb (c =? ".")%char.

Definition notDot (c : ascii) : bool := negb (c =? ".")%char.

(** ASCII bytes that are no white space. *)
Definition plain (c : ascii) : bool := isASCII c && negb (isAsciiSpace c).

(** What the sanitization does to one ASCII byte. *)
Definition sanitizeByte (c : ascii) : ascii := if clean c then c else "_"%char.

(** ASCII bytes that [ToUpper] leaves alone. *)
Definition upperSafe (c : ascii) : bool := isASCII c && negb (between "a" "z" c).

(** The bytes a Go duration can start with. *)
Definition durationStart (c : ascii) : bool :=
  ((c =? "-") || (c =? "+") || (c =? "."))%char || isDigit c.

(** The three units [ParseISO8601ToDuration] appends. *)
Inductive unitOf : string -> Z -> Prop :=
| unit_h : unitOf "h" Hour
| unit_m : unitOf "m" Minute
| unit_s : unitOf "s" Second.

(** The string [formatISO] builds. *)
Definition isoOf (h m s : Z) : string :=
  String "P" (String "T" (dec h ++ String "H" (dec m ++ String "M" (dec s ++ String "S" EmptyString)))).

End StringSpec.

(** ** Responses, tar entries and builders *)

Module ExporterSpec.
Import Utf8 GoStrings GoTime Utils MustGather Planner Exporter.
Local Open Scope Z_scope.
Local Open Scope list_scope.

(** Every column has a name, and every row holds one cell per column. *)
Definition wfTable (tab : Table) : Prop :=
  Forall (fun c : option string => is_Some c) (Columns tab)
  /\ Forall (fun row : list any => length row = length (Columns tab)) (Rows tab).

(** The first table of every response is well formed. *)
Definition wfClient (lcli : LogsClient) : Prop :=
  forall n workspace query t0 t1 perr tab rest,
    lcli n workspace query t0 t1 = QueryResult perr (tab :: rest) -> wfTable tab.

(** The table and the path of a summary entry. *)
Definition summaryOf (e : Entry) : option (string * list string) :=
  match payload e with
  | SummaryJSON table _ _ => Some (table, path e)
  | _ => None
  end.

Definition summaries (tar : list Entry) : list (string * list string) := omap summaryOf tar.

Definition summaryPath (table : string) : string * list string :=
  (table, ["tables"; SafeFileName table; "summary.json"]).

(** The lines written so far to the builder of a key. *)
Definition linesOf `{Countable K} (m : gmap K (list string)) (k : K) : list string :=
  default [] (m !! k).

(** The number of queries a run issues for [n] tables: one per planned
    window. *)
Fixpoint attempts (clock : nat -> Z) (dur : Z) (n : nat) : nat :=
  match n with
  | O => O
  | S n' => (attempts clock dur n' + length (planWindows (clock n') dur))%nat
  end.

(** The cell at a position, [nil] when there is none. *)
Definition cell (row : list any) (i : Z) : any := default ANil (row !! Z.to_nat i).

Section WithLib.
Variable L : GoLib.

(** The tuples the row loop collects from a row. *)
Definition v2Of (ix : Indices) (row : list any) : v2row :=
  mkV2row (toStr L (cell row (timeIdx ix))) (toStr L (cell row (nsIdx ix)))
          (toStr L (cell row (podIdx ix))) (toStr L (cell row (cnIdx ix)))
          (toStr L (cell row (srcIdx ix))) (cell row (msgIdx ix)).

Definition evtOf (ix : Indices) (row : list any) : evtrow :=
  mkEvtrow (toStr L (cell row (timeIdx ix))) (toStr L (cell row (evNsIdx ix)))
           (toStr L (cell row (evNameIdx ix))) (toStr L (cell row (evReasonIdx ix)))
           (toStr L (cell row (evMsgIdx ix))).

End WithLib.

(** The rows whose line goes to the builder of [k]. *)
Definition stitchedFor (k : ckey) (r : v2row) : Prop := keyOf r = k /\ isNoise r = false.

#[global] Instance stitchedFor_dec k r : Decision (stitchedFor k r).
Proof. unfold stitchedFor. apply _. Defined.

End ExporterSpec.

(** ** The order of a stitched log *)

Module StitchSpec.
Import Utf8 GoStrings GoTime Utils MustGather Exporter ExporterSpec.
Local Open Scope list_scope.

(** What Go's documentation of [sort.Slice] and [sort.Interface] asks of
    [less] on the elements to sort: a transitive ordering, whose
    incomparability is transitive as well. *)
Definition lessContract {A : Type} (less : A -> A -> bool) (l : list A) : Prop :=
  (forall a, a ∈ l -> less a a = false)
  /\ (forall a b c, a ∈ l -> b ∈ l -> c ∈ l ->
        less a b = true -> less b c = true -> less a c = true)
  /\ (forall a b c, a ∈ l -> b ∈ l -> c ∈ l ->
        less a b = false -> less b c = false -> less a c = false).

(** What [sort.Slice] then guarantees: the elements are rearranged, and no
    element is less than one before it. *)
Definition sortsCorrectly (L : GoLib) : Prop :=
  forall (A : Type) (less : A -> A -> bool) (l : list A),
    lessContract less l ->
    sortSlice L A less l ≡ₚ l
    /\ StronglySorted (fun a b => less b a = false) (sortSlice L A less l).

Section WithLib.
Variable L : GoLib.
Variable cfg : Config.

(** [a] may stand before [b] in a log: [b] is not less than [a] in the
    comparison of the stitcher. *)
Definition notAfter (a b : v2row) : Prop := v2Less L b a = false.

#[global] Instance notAfter_dec a b : Decision (notAfter a b).
Proof. unfold notAfter. apply _. Defined.

(** The builders after the chunks [ws] of ContainerLogV2, each given by the
    tuples collected from it, in the order in which the chunks are
    processed. *)
Definition stitchWindows (ws : list (list v2row)) : gmap ckey (list string) :=
  fold_left (fun logs w => stitchV2 L cfg "ContainerLogV2" w logs) ws ∅.

(** The time stamp of a tuple parses, to a time that is not the zero
    time. *)
Definition stamped (r : v2row) : bool := negb (IsZero (ParseTimeRFC3339 L (tm r))).

(** All time stamps parse, or none does. *)
Definition uniformStamps (rows : list v2row) : Prop :=
  Forall (fun r => stamped r = true) rows \/ Forall (fun r => stamped r = false) rows.

(** No tuple of [w'] is less than a tuple of [w]. *)
Definition windowBefore (w w' : list v2row) : Prop :=
  Forall (fun a => Forall (fun b => notAfter a b) w') w.

(** The chunks arrive in chronological order. *)
Definition chronological (ws : list (list v2row)) : Prop := StronglySorted windowBefore ws.

End WithLib.
End StitchSpec.

(** ** Sample data *)

Module Samples.
Import MustGather Exporter.
Local Open Scope list_scope.

(** A client whose queries for every table but Perf fail. *)
Definition flakyClient : LogsClient :=
  fun _ _ query _ _ =>
    if (query =? "Perf")%string then
      QueryResult None
        [mkTable [Some "TimeGenerated"; Some "Computer"]
                 [[AString "2023-01-01T11:50:00Z"; AString "node-1"]]]
    else QueryError "context deadline exceeded".

(** A chunk of two rows, the second one noise. *)
Definition noisyTable : Table :=
  mkTable
    [Some "TimeGenerated"; Some "PodNamespace"; Some "PodName"; Some "ContainerName";
     Some "LogSource"; Some "LogMessage"]
    [[AString "2023-01-01T11:50:01Z"; AString "kube-system"; AString "coredns-1";
      AString "coredns"; AString "stdout"; AString "ready"];
     [AString "2023-01-01T11:50:00Z"; AString ""; AString ""; AString "";
      AString "stderr"; AString "orphan line"]].

(** Tuples of one container, and one of another. *)
Definition apiRow (stamp text : string) : v2row :=
  mkV2row stamp "prod" "api-0" "api" "stdout" (AString text).

Definition dbRow (stamp text : string) : v2row :=
  mkV2row stamp "prod" "db-0" "postgres" "stderr" (AString text).

Definition stitchingConfig : Config :=
  mkConfig "" "30m" "" "" "" false true false false "".

End Samples.

(** ** Resource identifiers *)

Module ResourceSpec.
Import Utf8 GoStrings ResourceID StringSpec.
Local Open Scope list_scope.

(** A byte of a path segment: ASCII, no white space, no slash. *)
Definition segmentByte (c : ascii) : bool := plain c && negb (c =? "/")%char.

(** A non-empty path segment. *)
Definition segment (s : string) : bool := negb (isEmpty s) && allChars segmentByte s.

(** The three keys [ParseResourceID] looks for, in lower case. *)
Definition keyword (k : string) : bool :=
  ((k =? "subscriptions") || (k =? "resourcegroups") || (k =? "workspaces"))%string.

(** [k] is the key [key] in some mix of upper and lower case. *)
Definition spells (k key : string) : bool :=
  allChars segmentByte k && (mapChars lowerByte k =? key)%string.

(** A segment that no key is spelled by. *)
Definition value (s : string) : bool := segment s && negb (keyword (mapChars lowerByte s)).

(** A workspace resource ID, with the spelling of its keys. *)
Definition resourceID (k1 subscription k2 group namespace k3 name : string) : string :=
  ("/" ++ k1 ++ "/" ++ subscription ++ "/" ++ k2 ++ "/" ++ group
   ++ "/providers/" ++ namespace ++ "/" ++ k3 ++ "/" ++ name)%string.

(** The [switch] of the scan, on the lower-case key. *)
Definition store (key q : string) (acc : Parts) : Parts :=
  if (key =? "subscriptions")%string then mkParts q (rg acc) (workspace acc)
  else if (key =? "resourcegroups")%string then mkParts (sub acc) q (workspace acc)
  else if (key =? "workspaces")%string then mkParts (sub acc) (rg acc) q
  else acc.

Section WithLower.
Variable lowerRune : string -> string.

(** [v] is the field after the last field but the final one that spells
    [key]. *)
Definition afterLast (key v : string) (parts : list string) : Prop :=
  exists i k,
    parts !! i = Some k /\ ToLower lowerRune k = key /\ parts !! S i = Some v
    /\ forall j k', (i < j)%nat -> (S j < length parts)%nat -> parts !! j = Some k' ->
                    ToLower lowerRune k' <> key.

End WithLower.
End ResourceSpec.

(** ** Comma-separated lists *)

Module ResolveSpec.
Import GoStrings MustGather ProfileSpec.
Local Open Scope list_scope.

(** The fields of a comma-separated list, trimmed, the empty ones left
    out. *)
Definition fields (csv : string) : list string :=
  filter (fun p : string => p <> EmptyString) (map TrimSpace (Split "," csv)).

(** The table lists of the fields that name a profile, in the order of the
    fields. *)
Definition named (profileMap : gmap string (list string)) (profiles : string)
  : list (list string) :=
  omap (fun p => profileMap !! p) (fields profiles).

(** The tables of podLogs, inventory and metrics, in this order. *)
Definition aksDebugTables : list string :=
  podLogsTables ++ inventoryTables ++ metricsTables.

End ResolveSpec.

(** ** The layout of the archive *)

Module ArchiveSpec.
Import Utf8 GoStrings GoTime Utils MustGather Planner Exporter ExporterSpec StringSpec.
Local Open Scope Z_scope.
Local Open Scope list_scope.

(** The number of lines of a part. *)
Definition partRows (e : Entry) : Z :=
  match payload e with
  | PartNDJSON lines => Z.of_nat (length lines)
  | _ => 0
  end.

Definition totalRows (parts : list Entry) : Z := foldr (fun e n => partRows e + n) 0 parts.

(** The [i]-th part of a table: the rows of one of the windows [ws], at
    least one, under the number [i]. *)
Definition isPart (L : GoLib) (safe : string) (ws : list Window) (i : nat) (e : Entry) : Prop :=
  exists (w : Window) lines,
    w ∈ ws /\ lines <> []
    /\ e = mkEntry ["tables"; safe; partName L (Z.of_nat i) w.1 w.2] (PartNDJSON lines).

Definition numbered (L : GoLib) (safe : string) (ws : list Window) (parts : list Entry) : Prop :=
  forall i e, parts !! i = Some e -> isPart L safe ws i e.

(** A name that can stand for a directory or a file: not empty, and made
    of the bytes of [[A-Za-z0-9_-]] only. *)
Definition cleanName (s : string) : Prop := s <> EmptyString /\ allChars clean s = true.

(** An entry below the directory of a table. *)
Definition underTables (e : Entry) : Prop :=
  exists safe file, path e = ["tables"; safe; file] /\ cleanName safe.

(** The log of a container, and the events of a namespace. *)
Definition containerLog (e : Entry) : Prop :=
  exists namespace pod container,
    path e = ["namespaces"; namespace; "pods"; pod; (container ++ ".log")%string]
    /\ cleanName namespace /\ cleanName pod /\ cleanName container.

Definition eventsLog (e : Entry) : Prop :=
  exists namespace,
    path e = ["namespaces"; namespace; "events"; "events.log"] /\ cleanName namespace.

(** A builder that has been written to. *)
Definition filled (b : list string) : Prop := String.concat "" b <> EmptyString.

Definition allFilled {K} `{Countable K} (m : gmap K (list string)) : Prop :=
  map_Forall (fun _ b => filled b) m.

(** The events filed under a namespace. *)
Definition filedUnder (namespace : string) (r : evtrow) : Prop := evtNamespace r = namespace.

#[global] Instance filedUnder_dec namespace r : Decision (filedUnder namespace r).
Proof. unfold filedUnder. apply _. Defined.

(** What the loops of the exporter keep of a state that started from the
    tar [tar0]: only entries of tables are added, every builder has been
    written to, and there is no builder that the configuration rules
    out. *)
Definition exported (cfg : Config) (tar0 : list Entry) (st : State) : Prop :=
  (exists added, tarw st = tar0 ++ added /\ Forall underTables added)
  /\ allFilled (stitchedLogs st) /\ allFilled (stitchedEvents st)
  /\ (StitchLogs cfg = false -> stitchedLogs st = ∅ /\ stitchedEvents st = ∅)
  /\ (StitchIncludeEvents cfg = false -> stitchedEvents st = ∅).

(** What the chunk loop keeps: the parts written so far are numbered from
    0 without a gap, and the two counters are their number and the number
    of their lines. *)
Definition counted (L : GoLib) (safe : string) (ws : list Window) (tar0 : list Entry)
  (p : Progress) (parts : list Entry) : Prop :=
  tarw (state p) = tar0 ++ parts
  /\ chunkIndex p = Z.of_nat (length parts)
  /\ rowsTotal p = totalRows parts
  /\ numbered L safe ws parts.

End ArchiveSpec.

(** ** The catalog *)

Module CatalogSpec.
Import Gatherer.
Local Open Scope list_scope.

(** The names a page contributes: those of its tables that have one. *)
Definition namesOf (values : list TableRef) : list string :=
  omap (fun t : TableRef => match t with Some (Some n) => Some n | _ => None end) values.

Definition pageNames (page : result (list TableRef)) : list string :=
  match page with
  | Ok values => namesOf values
  | Err _ => []
  end.

(** A page that was fetched and holds no nil table. *)
Definition fetched (page : result (list TableRef)) : Prop :=
  exists values, page = Ok values /\ Forall (fun t : TableRef => is_Some t) values.

End CatalogSpec.

(** ** A sample environment *)

Module SampleRun.
Import GoTime MustGather Exporter Gatherer.
Local Open Scope list_scope.

Definition workspaceID : string :=
  "/subscriptions/12345678-1234-1234-1234-123456789012/resourceGroups/myRG/providers/Microsoft.OperationalInsights/workspaces/myWorkspace".

(** A workspace with two pages of tables, one table without a name, and a
    logs client whose queries for every table but Perf fail. *)
Definition azure : Azure :=
  mkAzure (fun _ => None)
          (fun _ _ _ => Ok (mkWorkspace (Some (mkWorkspaceProperties (Some "guid-1")))))
          (fun _ => None)
          (fun _ _ _ => [Ok [Some (Some "Perf"); Some None]; Ok [Some (Some "Heartbeat")]])
          (fun _ _ _ _ => None)
          (fun _ => None)
          None
          Samples.flakyClient
          (mkInstant 63808171200000000000 0)
          (mkInstant 63808171200000000000 0)
          (fun _ => 63808171200000000000%Z).

Definition config : Config :=
  mkConfig workspaceID "15m" "out.tar.gz" "" "" true false false false "".

End SampleRun.

(* ================================================================== *)
(** * Properties *)
(* ================================================================== *)

(** ** The tests of the repository, on the model *)

Module RepoTests.
Import GoStrings GoTime Utils MustGather RefLib.
Local Open Scope Z_scope.
Local Open Scope list_scope.

(** [TestISO8601Duration]. *)
Example TestISO8601Duration :
  ISO8601Duration refLib "PT2H" = Ok "PT2H"
  /\ ISO8601Duration refLib "2h" = Ok "PT2H0M0S"
  /\ ISO8601Duration refLib "30m" = Ok "PT0H30M0S"
  /\ ISO8601Duration refLib "45s" = Ok "PT0H0M45S"
  /\ ISO8601Duration refLib "2h30m45s" = Ok "PT2H30M45S"
  /\ is_err (ISO8601Duration refLib "") = true
  /\ is_err (ISO8601Duration refLib "invalid") = true
  /\ ISO8601Duration refLib "  2h  " = Ok "PT2H0M0S"
  /\ ISO8601Duration refLib "pt6h" = Ok "pt6h".
Proof. vm_compute. repeat split. Qed.

(** [TestSafeFileName]. *)
Example TestSafeFileName :
  SafeFileName "normal" = "normal"
  /\ SafeFileName "file.name.txt" = "file_name_txt"
  /\ SafeFileName "path/to/file" = "path_to_file"
  /\ SafeFileName "file@#$%^&*()name" = "file_________name"
  /\ SafeFileName "file name with spaces" = "file_name_with_spaces"
  /\ SafeFileName "" = "unnamed"
  /\ SafeFileName "   " = "unnamed"
  /\ SafeFileName "valid_file-name123" = "valid_file-name123"
  /\ SafeFileName "  filename  " = "filename".
Proof. vm_compute. repeat split. Qed.

(** [TestParseISO8601ToDuration]. *)
Example TestParseISO8601ToDuration :
  ParseISO8601ToDuration refLib "PT6H" = Ok (6 * Hour)
  /\ ParseISO8601ToDuration refLib "PT30M" = Ok (30 * Minute)
  /\ ParseISO8601ToDuration refLib "PT45S" = Ok (45 * Second)
  /\ ParseISO8601ToDuration refLib "PT2H30M" = Ok (2 * Hour + 30 * Minute)
  /\ ParseISO8601ToDuration refLib "PT1H30M45S" = Ok (1 * Hour + 30 * Minute + 45 * Second)
  /\ ParseISO8601ToDuration refLib "pt2h30m" = Ok (2 * Hour + 30 * Minute)
  /\ is_err (ParseISO8601ToDuration refLib "T2H") = true
  /\ is_err (ParseISO8601ToDuration refLib "P2H") = true
  /\ is_err (ParseISO8601ToDuration refLib "") = true
  /\ ParseISO8601ToDuration refLib "  PT2H  " = Ok (2 * Hour)
  /\ ParseISO8601ToDuration refLib "PT0H0M0S" = Ok 0.
Proof. vm_compute. repeat split. Qed.

(** [TestParseTimeRFC3339]; noon of January 1, 2023 is 63808171200 seconds
    after the zero time. *)
Example TestParseTimeRFC3339 :
  let noon := 63808171200 * Second in
  nanos (ParseTimeRFC3339 refLib "2023-01-01T12:00:00Z") = noon
  /\ nanos (ParseTimeRFC3339 refLib "2023-01-01T12:00:00.123456789Z") = noon + 123456789
  /\ IsZero (ParseTimeRFC3339 refLib "") = true
  /\ IsZero (ParseTimeRFC3339 refLib "invalid-time") = true
  /\ IsZero (ParseTimeRFC3339 refLib "   ") = true
  /\ nanos (ParseTimeRFC3339 refLib "  2023-01-01T12:00:00Z  ") = noon.
Proof. vm_compute. repeat split. Qed.

(** [TestGetDefaultProfiles]. *)
Example TestGetDefaultProfiles :
  GetDefaultProfiles !! "podLogs"
  = Some ["ContainerLogV2"; "ContainerLog"; "KubeEvents"; "KubeMonAgentEvents"; "Syslog"]
  /\ GetDefaultProfiles !! "inventory"
     = Some ["KubePodInventory"; "KubeNodeInventory"; "KubeServices"; "KubePVInventory";
             "ContainerInventory"; "ContainerImageInventory"; "ContainerNodeInventory";
             "KubeHealth"]
  /\ GetDefaultProfiles !! "metrics" = Some ["InsightsMetrics"; "Perf"; "Heartbeat"]
  /\ GetDefaultProfiles !! "audit" = Some ["AKSControlPlane"; "AKSAudit"; "AKSAuditAdmin"]
  /\ (length <$> GetDefaultProfiles !! "aks-debug") = Some 16%nat.
Proof. vm_compute. repeat split. Qed.

(** [TestGathererResolveTables]; where the test checks membership only,
    the whole list is given. *)
Example TestGathererResolveTables :
  let config filter profiles all :=
    mkConfig "" "" "" filter profiles all false false false "" in
  let aksDebug := podLogsTables ++ inventoryTables ++ metricsTables in
  resolveTables (config "Table1,Table2,Table3" "" false) ["Original1"; "Original2"]
  = ["Table1"; "Table2"; "Table3"]
  /\ resolveTables (config " Table1 , Table2 , Table3 " "" false) []
     = ["Table1"; "Table2"; "Table3"]
  /\ resolveTables (config "" "podLogs" false) [] = podLogsTables
  /\ resolveTables (config "" "podLogs,metrics" false) [] = podLogsTables ++ metricsTables
  /\ resolveTables (config "" "aks-debug" false) [] = aksDebug
  /\ resolveTables (config "" "podLogs,unknown,metrics" false) []
     = podLogsTables ++ metricsTables
  /\ resolveTables (config "" "podLogs" true) ["AllTable1"; "AllTable2"; "AllTable3"]
     = ["AllTable1"; "AllTable2"; "AllTable3"]
  /\ resolveTables (config "" "" false) [] = aksDebug.
Proof. vm_compute. repeat split. Qed.

(** [TestGathererResolveTablesProfileCombinations]. *)
Example TestGathererResolveTablesProfileCombinations :
  let resolved profiles :=
    resolveTables (mkConfig "" "" "" "" profiles false false false false "") [] in
  length (resolved "podLogs") = 5%nat
  /\ length (resolved "metrics,audit") = 6%nat
  /\ length (resolved "podLogs,aks-debug") = 16%nat
  /\ Forall (fun t => t ∈ resolved "podLogs") ["ContainerLogV2"; "KubeEvents"]
  /\ Forall (fun t => t ∈ resolved "metrics,audit") ["InsightsMetrics"; "AKSControlPlane"]
  /\ Forall (fun t => t ∈ resolved "podLogs,aks-debug") ["ContainerLogV2"; "KubePodInventory"].
Proof.
  intros resolved.
  repeat split; try reflexivity;
    apply (bool_decide_unpack _); vm_compute; exact I.
Qed.

End RepoTests.

(** ** The window planner *)

Module PlannerFacts.
Import GoTime Planner PlannerSpec.
Local Open Scope Z_scope.
Local Open Scope list_scope.

Lemma wrap64_small z : - 2 ^ 63 <= z < 2 ^ 63 -> wrap64 z = z.
Proof.
  intros Hz. unfold wrap64.
  rewrite Z.mod_small by lia. lia.
Qed.

Lemma wrap64_range z : - 2 ^ 63 <= wrap64 z < 2 ^ 63.
Proof.
  unfold wrap64.
  pose proof (Z.mod_pos_bound (z + 2 ^ 63) (2 ^ 64) ltac:(lia)). lia.
Qed.

Lemma turns_last start since chunk :
  0 < chunk -> start < since -> since <= start + chunk ->
  turns start since chunk = 1%nat.
Proof.
  intros Hc Hlt Hle. unfold turns.
  replace ((since - start + chunk - 1) / chunk) with 1; [reflexivity|].
  apply Z.div_unique with (r := since - start - 1); lia.
Qed.

Lemma turns_step start since chunk :
  0 < chunk -> start + chunk < since ->
  turns start since chunk = S (turns (start + chunk) since chunk).
Proof.
  intros Hc Hlt. unfold turns.
  replace (since - start + chunk - 1) with ((since - (start + chunk) + chunk - 1) + 1 * chunk) by lia.
  rewrite Z.div_add by lia.
  rewrite Z2Nat.inj_add; [| apply Z.div_pos; lia | lia].
  change (Z.to_nat 1) with 1%nat. lia.
Qed.

(** The loop stops because the cursor has reached [since], after exactly
    [turns] turns, and its windows tile the interval. *)
Lemma chunkLoop_tiles chunk since :
  0 < chunk ->
  forall n start, start < since -> turns start since chunk = n ->
    tiles start since (chunkLoop n start since chunk)
    /\ length (chunkLoop n start since chunk) = n
    /\ bounded chunk (chunkLoop n start since chunk).
Proof.
  intros Hc. induction n as [|n IH]; intros start Hlt Hn.
  - exfalso. destruct (Z_lt_le_dec (start + chunk) since) as [Hs|Hs].
    + rewrite turns_step in Hn by lia. discriminate.
    + rewrite turns_last in Hn by lia. discriminate.
  - cbn [chunkLoop]. destruct (Z.ltb_spec start since) as [_|?]; [|lia].
    destruct (Z_lt_le_dec (start + chunk) since) as [Hs|Hs].
    + destruct (Z.ltb_spec since (start + chunk)) as [?|_]; [lia|].
      rewrite turns_step in Hn by lia. injection Hn as Hn.
      destruct (IH (start + chunk) Hs Hn) as (Ht & Hl & Hb).
      split; [|split].
      * constructor; [lia | exact Ht].
      * cbn. now rewrite Hl.
      * constructor; [cbn; lia | exact Hb].
    + rewrite turns_last in Hn by lia. injection Hn as Hn. subst n.
      cbn [chunkLoop].
      assert (Ht1 : (if since <? start + chunk then since else start + chunk) = since).
      { destruct (Z.ltb_spec since (start + chunk)); lia. }
      rewrite Ht1. split; [|split].
      * constructor; [lia | constructor].
      * reflexivity.
      * constructor; [cbn; lia | constructor].
Qed.

(** More fuel changes nothing: the loop has ended by its own test. *)
Lemma chunkLoop_fuel chunk since :
  0 < chunk ->
  forall n start extra, turns start since chunk = n ->
    chunkLoop (n + extra) start since chunk = chunkLoop n start since chunk.
Proof.
  intros Hc. induction n as [|n IH]; intros start extra Hn.
  - destruct (Z_lt_le_dec start since) as [Hlt|Hge].
    + exfalso. destruct (Z_lt_le_dec (start + chunk) since) as [Hs|Hs].
      * rewrite turns_step in Hn by lia. discriminate.
      * rewrite turns_last in Hn by lia. discriminate.
    + destruct extra; [reflexivity|]. cbn.
      destruct (Z.ltb_spec start since); [lia | reflexivity].
  - cbn [Nat.add chunkLoop]. destruct (Z.ltb_spec start since) as [Hlt|Hge]; [|reflexivity].
    f_equal. destruct (Z_lt_le_dec (start + chunk) since) as [Hs|Hs].
    + rewrite turns_step in Hn by lia. injection Hn as Hn. now apply IH.
    + rewrite turns_last in Hn by lia. injection Hn as Hn. subst n.
      destruct extra; [reflexivity|]. cbn.
      destruct (Z.ltb_spec (start + chunk) since); [lia | reflexivity].
Qed.

Lemma chunkSize_pos dur : 0 < chunkSize dur.
Proof. unfold chunkSize. destruct (dur <=? 2 * Hour); reflexivity. Qed.

Lemma chunkStart_pos since dur :
  0 < dur <= maxInt64 -> chunkStart since dur = since - dur.
Proof.
  intros Hd. unfold chunkStart, maxInt64 in *.
  destruct (Z.eqb_spec dur 0); [lia|].
  rewrite wrap64_small by lia. lia.
Qed.

(** A lookback of zero is planned as one of two hours. *)
Lemma planWindows_zero since : planWindows since 0 = planWindows since (2 * Hour).
Proof.
  unfold planWindows.
  replace (chunkStart since (2 * Hour)) with (chunkStart since 0); [reflexivity|].
  unfold chunkStart. cbn. reflexivity.
Qed.

Lemma tiles_last a b ws :
  tiles a b ws -> ws <> [] -> exists w, last ws = Some w /\ w.2 = b.
Proof.
  induction 1 as [a | a m b ws Hlt Ht IH]; intros Hne; [congruence|].
  destruct ws as [|w' ws'].
  - inversion Ht; subst. exists (a, b). split; reflexivity.
  - destruct (IH ltac:(discriminate)) as (w & Hw & Hend).
    exists w. split; [|exact Hend]. rewrite last_cons, Hw. reflexivity.
Qed.

(** What the planner produces for a positive lookback. *)
Lemma planWindows_spec since D :
  0 < D <= maxInt64 ->
  tiles (since - D) since (planWindows since D)
  /\ length (planWindows since D) = Z.to_nat ((D + chunkSize D - 1) / chunkSize D)
  /\ bounded (chunkSize D) (planWindows since D).
Proof.
  intros HD. unfold planWindows. rewrite chunkStart_pos by exact HD.
  pose proof (chunkSize_pos D) as Hc.
  assert (Hn : turns (since - D) since (chunkSize D)
               = Z.to_nat ((D + chunkSize D - 1) / chunkSize D)).
  { unfold turns. do 2 f_equal. lia. }
  destruct (chunkLoop_tiles (chunkSize D) since Hc _ (since - D) ltac:(lia) eq_refl)
    as (Ht & Hl & Hb).
  rewrite <- Hn. auto.
Qed.

End PlannerFacts.

Import GoTime Planner PlannerSpec PlannerFacts.

(** C2, as amended: for every lookback duration [D > 0] (an [int64]) the
    chunk loop of [exportTableData] produces exactly [ceil(D / chunkSize)]
    windows, where [chunkSize] is one hour when [D > 2h] and fifteen minutes
    otherwise; the windows are contiguous and non-overlapping, start at
    [since - D], and the last one ends at [since], clipped to it when [D] is
    no multiple of [chunkSize]. *)
Theorem C2_window_count_and_tiling (since D : Z) :
  (0 < D <= maxInt64)%Z ->
  let ws := planWindows since D in
  let c := chunkSize D in
  let n := Z.of_nat (length ws) in
  (c = if 2 * Hour <? D then Hour else 15 * Minute)%Z
  /\ ((n - 1) * c < D <= n * c)%Z
  /\ tiles (since - D) since ws
  /\ bounded c ws
  /\ (exists w, last ws = Some w /\ w.2 = since).
Proof.
  intros HD ws c n.
  destruct (planWindows_spec since D HD) as (Ht & Hl & Hb).
  pose proof (chunkSize_pos D) as Hc. fold c in Hc, Hl, Hb. fold ws in Ht, Hl, Hb.
  assert (Hq : (0 < (D + c - 1) / c)%Z).
  { apply Z.div_str_pos. lia. }
  assert (Hn : n = ((D + c - 1) / c)%Z).
  { unfold n. rewrite Hl. rewrite Z2Nat.id; lia. }
  split; [|split; [|split; [|split]]].
  - unfold c, chunkSize.
    destruct (Z.leb_spec D (2 * Hour)), (Z.ltb_spec (2 * Hour) D); lia || reflexivity.
  - rewrite Hn.
    pose proof (Z.div_mod (D + c - 1) c ltac:(lia)) as Hdm.
    pose proof (Z.mod_pos_bound (D + c - 1) c Hc) as Hm.
    nia.
  - exact Ht.
  - exact Hb.
  - apply (tiles_last _ _ _ Ht).
    intros Hnil. unfold n in Hn. rewrite Hnil in Hn. cbn in Hn. lia.
Qed.

(** A lookback of two and a half hours at noon of January 1, 2023: three
    windows, the last one clipped. *)
Lemma C2_witness_two_and_a_half_hours :
  let since := 63808171200000000000%Z in
  let D := (2 * Hour + 30 * Minute)%Z in
  let ws := planWindows since D in
  let c := chunkSize D in
  let n := Z.of_nat (length ws) in
  (c = if 2 * Hour <? D then Hour else 15 * Minute)%Z
  /\ ((n - 1) * c < D <= n * c)%Z
  /\ tiles (since - D) since ws
  /\ bounded c ws
  /\ (exists w, last ws = Some w /\ w.2 = since).
Proof.
  apply (C2_window_count_and_tiling 63808171200000000000 (2 * Hour + 30 * Minute)).
  vm_compute. split; [reflexivity | discriminate].
Defined.

(** C2 fails as stated at [D = 0]: [ceil(0 / chunkSize)] is zero, and the
    loop produces eight windows. *)
Lemma C2_counterexample_zero_lookback :
  let since := 63808171200000000000%Z in
  length (planWindows since 0) = 8%nat
  /\ ((0 + chunkSize 0 - 1) / chunkSize 0 = 0)%Z
  /\ Z.of_nat (length (planWindows since 0)) <> ((0 + chunkSize 0 - 1) / chunkSize 0)%Z.
Proof. vm_compute. repeat split; discriminate. Qed.

(** C4: planning with [D = 0] produces exactly the windows of [D = 2h] at
    the same instant: eight windows of fifteen minutes that tile the two
    hours before [since]; zero windows are never produced for it. *)
Theorem C4_zero_lookback_is_two_hours (since : Z) :
  planWindows since 0 = planWindows since (2 * Hour)
  /\ length (planWindows since 0) = 8%nat
  /\ tiles (since - 2 * Hour) since (planWindows since 0)
  /\ bounded (15 * Minute) (planWindows since 0).
Proof.
  rewrite planWindows_zero.
  destruct (planWindows_spec since (2 * Hour) ltac:(vm_compute; split; [reflexivity | discriminate]))
    as (Ht & Hl & Hb).
  repeat split; assumption.
Qed.

(** ** The profile resolver *)

Module ProfileFacts.
Import GoStrings MustGather ProfileSpec.
Local Open Scope list_scope.

Lemma tracked_empty : tracked ([], ∅).
Proof.
  split; [constructor|]. intros t. cbn. set_solver.
Qed.

Lemma appendUnseen_tracked lst acc : tracked acc -> tracked (appendUnseen lst acc).
Proof.
  unfold appendUnseen. revert acc.
  induction lst as [|t lst IH]; intros [tables seen] Hacc; [exact Hacc|].
  cbn [fold_left]. apply IH.
  destruct Hacc as [Hnd Hseen]. cbn in Hnd, Hseen.
  destruct (decide (t ∈ seen)) as [Hin|Hnin]; [split; assumption|].
  split; cbn.
  - apply NoDup_app. split; [exact Hnd|]. split.
    + intros x Hx Hx'. apply list_elem_of_singleton in Hx'. subst x.
      apply Hnin, Hseen, Hx.
    + apply NoDup_singleton.
  - intros x. rewrite elem_of_union, elem_of_singleton, elem_of_app, list_elem_of_singleton.
    rewrite Hseen. tauto.
Qed.

Lemma unionProfiles_NoDup profileMap profiles : NoDup (unionProfiles profileMap profiles []).
Proof.
  unfold unionProfiles.
  assert (H : forall ps acc, tracked acc ->
            tracked (fold_left
              (fun '(tables, seen) p =>
                 let p := TrimSpace p in
                 if isEmpty p then (tables, seen)
                 else match profileMap !! p with
                      | Some lst => appendUnseen lst (tables, seen)
                      | None => (tables, seen)
                      end) ps acc)).
  { induction ps as [|p ps IH]; intros [tables seen] Hacc; [exact Hacc|].
    cbn [fold_left]. apply IH.
    destruct (isEmpty (TrimSpace p)); [exact Hacc|].
    destruct (profileMap !! TrimSpace p); [|exact Hacc].
    now apply appendUnseen_tracked. }
  apply (H _ _ tracked_empty).
Qed.

(** With the flag set, only the explicit filter can replace the catalog. *)
Lemma resolveTables_all cfg catalog :
  AllTables cfg = true ->
  resolveTables cfg catalog
  = if isEmpty (TableFilter cfg) then catalog else explicitTables (TableFilter cfg).
Proof.
  intros Hall. unfold resolveTables. rewrite Hall. cbn [negb].
  rewrite !andb_false_r. destruct (isEmpty (TableFilter cfg)); reflexivity.
Qed.

End ProfileFacts.

Import GoStrings MustGather ProfileSpec ProfileFacts.

(** C3: the code departs from the claim where the export-all flag comes
    with an explicit table list.  On the arguments of the test "all-tables
    overrides everything" ([--tables CustomTable1,CustomTable2 --profiles
    aks-debug --all-tables]) and a catalog of three tables, [resolveTables]
    returns the explicit list and drops the catalog that [Run] has listed,
    whereas the help of the flag reads "Overrides profiles/tables if used".
    Without [--tables] the same arguments resolve to the catalog, as the
    claim says. *)
Theorem C3_flag_loses_to_explicit_list :
  let workspace := "/subscriptions/12345/resourceGroups/rg/providers/Microsoft.OperationalInsights/workspaces/ws" in
  let catalog := ["AllTable1"; "AllTable2"; "AllTable3"] in
  let cfg := mkConfig workspace "PT2H" "" "CustomTable1,CustomTable2" "aks-debug"
                      true true true false "" in
  let alone := mkConfig workspace "PT2H" "" "" "aks-debug" true true true false "" in
  AllTables cfg = true
  /\ resolveTables cfg catalog = ["CustomTable1"; "CustomTable2"]
  /\ resolveTables cfg catalog <> catalog
  /\ resolveTables alone catalog = catalog.
Proof.
  cbv zeta. split; [reflexivity|].
  rewrite !resolveTables_all by reflexivity.
  vm_compute. repeat split; discriminate.
Qed.


(** ** Strings *)

Module StringFacts.
Import Utf8 GoStrings GoTime GoRegexp StringSpec.

Ltac by_byte c := destruct c as [[] [] [] [] [] [] [] []].

Lemma allChars_app P s t : allChars P (s ++ t) = allChars P s && allChars P t.
Proof.
  induction s as [|c s IH]; simpl; [reflexivity|]. now rewrite IH, andb_assoc.
Qed.

Lemma allChars_impl (P Q : ascii -> bool) s :
  (forall c, P c = true -> Q c = true) -> allChars P s = true -> allChars Q s = true.
Proof.
  intros HPQ. induction s as [|c s IH]; cbn; [reflexivity|].
  intros [Hc Hs]%andb_prop. rewrite (HPQ c Hc), (IH Hs). reflexivity.
Qed.

Lemma clean_plain c : clean c = true -> plain c = true.
Proof. by_byte c; vm_compute; congruence. Qed.

Lemma plain_spaceLen c r : plain c = true -> spaceLen (String c r) = 0.
Proof. by_byte c; vm_compute; congruence. Qed.

Lemma isASCII_runeLen c r : isASCII c = true -> runeLen (String c r) = 1.
Proof. by_byte c; vm_compute; congruence. Qed.

(** Trimming leaves a string of plain bytes alone. *)
Lemma TrimRightSpace_plain s : allChars plain s = true -> TrimRightSpace s = s.
Proof.
  induction s as [|c s IH]; [reflexivity|].
  cbn [allChars]. intros [Hc Hs]%andb_prop.
  cbn [TrimRightSpace allSpaceFrom]. rewrite (plain_spaceLen c s Hc), (IH Hs). reflexivity.
Qed.

Lemma TrimLeftSpace_plain c r : plain c = true -> TrimLeftSpace (String c r) = String c r.
Proof.
  intros Hc. unfold TrimLeftSpace. cbn [trimLeftFrom].
  rewrite (plain_spaceLen c r Hc). reflexivity.
Qed.

Lemma TrimSpace_plain s : allChars plain s = true -> TrimSpace s = s.
Proof.
  intros Hs. unfold TrimSpace. destruct s as [|c r]; [reflexivity|].
  cbn [allChars] in Hs. apply andb_prop in Hs as Hs'. destruct Hs' as [Hc _].
  rewrite (TrimLeftSpace_plain c r Hc). now apply TrimRightSpace_plain.
Qed.

(** A string that starts with a plain byte keeps it when trimmed. *)
Lemma TrimSpace_head c r :
  plain c = true -> TrimSpace (String c r) = String c (TrimRightSpace r).
Proof.
  intros Hc. unfold TrimSpace. rewrite (TrimLeftSpace_plain c r Hc).
  cbn [TrimRightSpace allSpaceFrom]. rewrite (plain_spaceLen c r Hc). reflexivity.
Qed.

Lemma ReplaceAll_absent old new s :
  allChars (fun c => negb (c =? old)%char) s = true -> ReplaceAll old new s = s.
Proof.
  induction s as [|c s IH]; [reflexivity|].
  cbn [allChars]. intros [Hc Hs]%andb_prop.
  cbn [ReplaceAll]. apply negb_true_iff in Hc. rewrite Hc, (IH Hs). reflexivity.
Qed.

Lemma ReplaceAll_dot_notDot s : allChars notDot (ReplaceAll "." "_" s) = true.
Proof.
  induction s as [|c s IH]; [reflexivity|].
  cbn [ReplaceAll]. destruct (c =? ".")%char eqn:Hc.
  - cbn. exact IH.
  - cbn [allChars]. unfold notDot at 1. rewrite Hc, IH. reflexivity.
Qed.

Lemma ReplaceAll_slash_notDot s :
  allChars notDot s = true -> allChars notDot (ReplaceAll "/" "_" s) = true.
Proof.
  induction s as [|c s IH]; [reflexivity|].
  cbn [allChars]. intros [Hc Hs]%andb_prop.
  cbn [ReplaceAll]. destruct (c =? "/")%char.
  - cbn. now apply IH.
  - cbn [allChars]. rewrite Hc, (IH Hs). reflexivity.
Qed.

Lemma safe_notDot_clean c : inSafeClass c = true -> notDot c = true -> clean c = true.
Proof. unfold clean, notDot. intros -> ->. reflexivity. Qed.

(** The replacement leaves bytes of the class and underscores only. *)
Lemma replaceUnsafeFrom_clean s :
  allChars notDot s = true ->
  forall skip, allChars clean (replaceUnsafeFrom skip s) = true.
Proof.
  induction s as [|c s IH]; [reflexivity|].
  cbn [allChars]. intros [Hc Hs]%andb_prop skip.
  cbn [replaceUnsafeFrom]. destruct skip as [|k]; [|now apply IH].
  destruct (inSafeClass c) eqn:Hsafe; cbn [allChars].
  - rewrite (safe_notDot_clean c Hsafe Hc). now apply IH.
  - change (clean "_") with true. now apply IH.
Qed.

Lemma clean_facts c :
  clean c = true ->
  inSafeClass c = true /\ (c =? ".")%char = false /\ (c =? "/")%char = false.
Proof. by_byte c; vm_compute; intuition congruence. Qed.

Lemma ReplaceUnsafe_clean s : allChars clean s = true -> ReplaceUnsafe s = s.
Proof.
  unfold ReplaceUnsafe. induction s as [|c s IH]; [reflexivity|].
  cbn [allChars]. intros [Hc Hs]%andb_prop.
  cbn [replaceUnsafeFrom]. destruct (clean_facts c Hc) as (-> & _ & _).
  now rewrite (IH Hs).
Qed.

(** On ASCII strings the three replacements act byte by byte. *)
Lemma sanitize_bytewise s :
  allChars isASCII s = true ->
  ReplaceUnsafe (ReplaceAll "/" "_" (ReplaceAll "." "_" s)) = mapChars sanitizeByte s.
Proof.
  unfold ReplaceUnsafe. induction s as [|c s IH]; [reflexivity|].
  cbn [allChars]. intros [Hc Hs]%andb_prop.
  specialize (IH Hs). cbn [ReplaceAll mapChars].
  destruct (c =? ".")%char eqn:Hdot.
  - apply Ascii.eqb_eq in Hdot. subst c.
    change ("_" ++ ReplaceAll "." "_" s)%string with (String "_" (ReplaceAll "." "_" s)).
    simpl. now rewrite IH.
  - cbn [ReplaceAll]. destruct (c =? "/")%char eqn:Hslash.
    + apply Ascii.eqb_eq in Hslash. subst c.
      change ("_" ++ ReplaceAll "/" "_" (ReplaceAll "." "_" s))%string
        with (String "_" (ReplaceAll "/" "_" (ReplaceAll "." "_" s))).
      simpl. now rewrite IH.
    + cbn [replaceUnsafeFrom]. unfold sanitizeByte, clean. rewrite Hdot.
      destruct (inSafeClass c) eqn:Hsafe; cbn [andb negb].
      * now rewrite IH.
      * rewrite (isASCII_runeLen c _ Hc). cbn [Nat.pred]. now rewrite IH.
Qed.

Lemma mapChars_isEmpty f s : isEmpty (mapChars f s) = isEmpty s.
Proof. destruct s; reflexivity. Qed.

End StringFacts.

Import Utf8 GoStrings GoRegexp Utils StringSpec StringFacts.

(** What [SafeFileName] returns is made of bytes of [[A-Za-z0-9_-]] and is
    its own sanitization. *)
Lemma SafeFileName_clean x : allChars clean (SafeFileName x) = true.
Proof.
  unfold SafeFileName.
  destruct (isEmpty (ReplaceUnsafe (ReplaceAll "/" "_" (ReplaceAll "." "_" (TrimSpace x)))));
    [reflexivity|].
  apply replaceUnsafeFrom_clean, ReplaceAll_slash_notDot, ReplaceAll_dot_notDot.
Qed.

Lemma SafeFileName_fixes_clean y :
  allChars clean y = true -> y <> EmptyString -> SafeFileName y = y.
Proof.
  intros Hy Hne. unfold SafeFileName.
  rewrite (TrimSpace_plain y) by (eapply allChars_impl; [apply clean_plain | exact Hy]).
  rewrite (ReplaceAll_absent "." "_" y)
    by (eapply allChars_impl; [|exact Hy]; intros c Hc;
        destruct (clean_facts c Hc) as (_ & -> & _); reflexivity).
  rewrite (ReplaceAll_absent "/" "_" y)
    by (eapply allChars_impl; [|exact Hy]; intros c Hc;
        destruct (clean_facts c Hc) as (_ & _ & ->); reflexivity).
  rewrite (ReplaceUnsafe_clean y Hy).
  destruct y; [congruence | reflexivity].
Qed.

Lemma SafeFileName_nonempty x : SafeFileName x <> EmptyString.
Proof.
  unfold SafeFileName.
  destruct (ReplaceUnsafe (ReplaceAll "/" "_" (ReplaceAll "." "_" (TrimSpace x)))); discriminate.
Qed.

(** C8: [SafeFileName] is idempotent on every string.  Its result holds
    bytes of [[A-Za-z0-9_-]] only and is never empty, the empty string being
    mapped to the literal unnamed; on an ASCII identifier without
    surrounding white space it replaces ['.'], ['/'] and every byte outside
    [[A-Za-z0-9_.-]] by an underscore, byte by byte. *)
Theorem C8_SafeFileName_idempotent (x : string) :
  SafeFileName (SafeFileName x) = SafeFileName x
  /\ allChars clean (SafeFileName x) = true
  /\ SafeFileName x <> EmptyString
  /\ SafeFileName EmptyString = "unnamed"
  /\ (allChars plain x = true -> x <> EmptyString ->
      SafeFileName x = mapChars sanitizeByte x).
Proof.
  split; [|split; [|split; [|split]]].
  - apply SafeFileName_fixes_clean; [apply SafeFileName_clean | apply SafeFileName_nonempty].
  - apply SafeFileName_clean.
  - apply SafeFileName_nonempty.
  - reflexivity.
  - intros Hx Hne. unfold SafeFileName. rewrite (TrimSpace_plain x Hx).
    rewrite sanitize_bytewise
      by (eapply allChars_impl; [|exact Hx]; intros c [Hc _]%andb_prop; exact Hc).
    rewrite mapChars_isEmpty. destruct x; [congruence | reflexivity].
Qed.

(** The test case "with special characters". *)
Lemma C8_witness_special_characters :
  SafeFileName "file@#$%^&*()name" = "file_________name"
  /\ SafeFileName (SafeFileName "file@#$%^&*()name") = SafeFileName "file@#$%^&*()name".
Proof.
  destruct (C8_SafeFileName_idempotent "file@#$%^&*()name") as (Hidem & _ & _ & _ & Hmap).
  split; [|exact Hidem].
  rewrite Hmap; [reflexivity | reflexivity | discriminate].
Defined.

(** ** Durations *)

Module DurationFacts.
Import Utf8 GoStrings GoTime GoFmt GoRegexp Utils StringSpec StringFacts PlannerSpec PlannerFacts.
Local Open Scope Z_scope.

Lemma digitChar_digit n : isDigit (digitChar n) = true /\ digitVal (digitChar n) = n mod 10.
Proof.
  unfold digitChar.
  pose proof (Z.mod_pos_bound n 10 ltac:(lia)) as Hm.
  assert (Hcases : n mod 10 = 0 \/ n mod 10 = 1 \/ n mod 10 = 2 \/ n mod 10 = 3
                   \/ n mod 10 = 4 \/ n mod 10 = 5 \/ n mod 10 = 6 \/ n mod 10 = 7
                   \/ n mod 10 = 8 \/ n mod 10 = 9) by lia.
  repeat destruct Hcases as [-> | Hcases]; try rewrite Hcases; split; reflexivity.
Qed.

(** One step of [String.append] on a string whose head is known. *)
Ltac app_step :=
  repeat match goal with
         | |- context [(String ?c ?s ++ ?t)%string] =>
             change (String c s ++ t)%string with (String c (s ++ t)%string)
         | |- context [(EmptyString ++ ?t)%string] =>
             change (EmptyString ++ t)%string with t
         end.

Lemma append_assoc (s t u : string) : ((s ++ t) ++ u = s ++ (t ++ u))%string.
Proof. induction s as [|c s IH]; app_step; [reflexivity | now rewrite IH]. Qed.

Lemma decFrom_acc fuel : forall n acc,
  decFrom fuel n acc = (decFrom fuel n EmptyString ++ acc)%string.
Proof.
  induction fuel as [|fuel IH]; intros n acc; [reflexivity|].
  cbn [decFrom]. destruct (n <? 10); [reflexivity|].
  rewrite (IH _ (String _ acc)), (IH _ (String _ EmptyString)).
  rewrite append_assoc. reflexivity.
Qed.

Lemma decFrom_digits fuel : forall n, allChars isDigit (decFrom fuel n EmptyString) = true.
Proof.
  induction fuel as [|fuel IH]; intros n; [reflexivity|].
  cbn [decFrom]. destruct (n <? 10).
  - cbn [allChars]. now rewrite (proj1 (digitChar_digit n)).
  - rewrite decFrom_acc, allChars_app, IH. cbn [allChars].
    now rewrite (proj1 (digitChar_digit n)).
Qed.

Lemma dec_digits n : allChars isDigit (dec n) = true.
Proof. apply decFrom_digits. Qed.

Lemma decFrom_nonempty fuel n : decFrom (S fuel) n EmptyString <> EmptyString.
Proof.
  cbn [decFrom]. destruct (n <? 10); [discriminate|].
  rewrite decFrom_acc. destruct (decFrom fuel (n / 10) EmptyString); discriminate.
Qed.

Lemma dec_head n : exists c r, dec n = String c r /\ isDigit c = true.
Proof.
  pose proof (dec_digits n) as Hd.
  destruct (dec n) as [|c r] eqn:E.
  - exfalso. exact (decFrom_nonempty 19 n E).
  - exists c, r. split; [reflexivity|]. cbn [allChars] in Hd. now apply andb_prop in Hd.
Qed.

(** Reading back the digits that [%d] printed. *)
Lemma leadingInt_decFrom fuel : forall n acc,
  0 <= n < 10 ^ Z.of_nat fuel -> n <= 2 ^ 63 ->
  leadingInt 0 (decFrom fuel n acc) = leadingInt n acc.
Proof.
  induction fuel as [|fuel IH]; intros n acc Hn Hmax.
  - cbn in Hn. assert (n = 0) by lia. subst n. reflexivity.
  - cbn [decFrom]. destruct (digitChar_digit n) as [Hd Hv].
    assert (Hstep : forall x, x = n / 10 ->
              leadingInt x (String (digitChar n) acc) = leadingInt n acc).
    { intros x ->. cbn [leadingInt]. rewrite Hd, Hv.
      assert (Hq : n / 10 <= 2 ^ 63 / 10) by (apply Z.div_le_mono; lia).
      destruct (Z.ltb_spec (2 ^ 63 / 10) (n / 10)); [lia|].
      replace (n / 10 * 10 + n mod 10) with n
        by (pose proof (Z.div_mod n 10 ltac:(lia)); lia).
      destruct (Z.ltb_spec (2 ^ 63) n); [lia | reflexivity]. }
    destruct (Z.ltb_spec n 10) as [Hlt|Hge].
    + apply Hstep. symmetry. apply Z.div_small. lia.
    + rewrite IH.
      * now apply Hstep.
      * split; [apply Z.div_pos; lia|].
        apply Z.div_lt_upper_bound; [lia|].
        rewrite Nat2Z.inj_succ, Z.pow_succ_r in Hn by lia. lia.
      * transitivity n; [|exact Hmax]. apply Z.div_le_upper_bound; lia.
Qed.

Lemma leadingInt_dec n c r :
  0 <= n <= 2 ^ 63 -> isDigit c = false ->
  leadingInt 0 (dec n ++ String c r) = Some (n, String c r).
Proof.
  intros Hn Hc. unfold dec. rewrite <- decFrom_acc.
  rewrite leadingInt_decFrom by (cbn; lia).
  cbn [leadingInt]. now rewrite Hc.
Qed.

Lemma spanDigits_digits ds c r :
  allChars isDigit ds = true -> isDigit c = false ->
  spanDigits (ds ++ String c r) = (ds, String c r).
Proof.
  intros Hds Hc. induction ds as [|d ds IH]; app_step.
  - cbn [spanDigits]. now rewrite Hc.
  - cbn [allChars] in Hds. apply andb_prop in Hds as [Hd Hds].
    cbn [spanDigits]. rewrite Hd, (IH Hds). reflexivity.
Qed.

Lemma length_append (s t : string) :
  String.length (s ++ t) = (String.length s + String.length t)%nat.
Proof.
  induction s as [|c s IH]; app_step; [reflexivity|].
  cbn [String.length]. now rewrite IH.
Qed.

(** A number printed by [%d] and followed by a unit parses to that many
    units, as long as the product is an [int64]. *)
Lemma ParseDuration_dec fr n u unit :
  unitOf u unit -> 0 <= n -> n * unit <= maxInt64 ->
  ParseDuration fr (dec n ++ u) = Some (n * unit).
Proof.
  intros Hu Hn Hmax.
  assert (Hunit : exists uc, u = String uc EmptyString /\ isDigit uc = false
                  /\ (uc =? ".")%char = false /\ unitMap u = Some unit /\ 0 < unit).
  { destruct Hu; eexists; repeat split; reflexivity. }
  destruct Hunit as (uc & -> & Huc & Hdot & Hmap & Hpos).
  assert (Hn63 : n <= 2 ^ 63) by (unfold maxInt64 in Hmax; nia).
  destruct (dec_head n) as (c & r & Hdec & Hc).
  assert (Hsign : ((c =? "-") || (c =? "+"))%char = false /\ (c =? ".")%char = false)
    by (clear - Hc; by_byte c; vm_compute in Hc; try discriminate; split; reflexivity).
  destruct Hsign as [Hsign Hcdot].
  assert (Hs : (dec n ++ String uc EmptyString)%string = String c (r ++ String uc EmptyString))
    by (rewrite Hdec; reflexivity).
  assert (Hlen : String.length (dec n ++ String uc EmptyString) = S (S (String.length r))).
  { rewrite Hs. cbn [String.length]. rewrite length_append. cbn. lia. }
  unfold ParseDuration. rewrite Hs at 1. rewrite Hsign.
  assert (Hzero : ((dec n ++ String uc EmptyString) =? "0")%string = false).
  { rewrite Hs. cbn [String.eqb]. destruct (c =? "0")%char; [|reflexivity].
    destruct r; reflexivity. }
  rewrite Hzero.
  assert (Hempty : isEmpty (dec n ++ String uc EmptyString) = false) by (rewrite Hs; reflexivity).
  rewrite Hempty, Hlen.
  cbn [parseComponents]. rewrite Hs at 1. rewrite Hcdot, Hc. cbn [orb negb].
  rewrite (leadingInt_dec n uc EmptyString) by (try lia; assumption).
  rewrite Hlen. cbn [String.length Nat.eqb negb fractionPart]. rewrite Hdot.
  cbn [andb negb unitSpan]. rewrite Hdot, Huc. cbn [orb unitSpan isEmpty].
  rewrite Hmap.
  assert (Hdiv : n <= 2 ^ 63 / unit).
  { apply Z.div_le_lower_bound; [lia|]. unfold maxInt64 in Hmax. lia. }
  destruct (Z.ltb_spec (2 ^ 63 / unit) n); [lia|].
  cbn [Z.ltb Z.compare andb].
  replace ((0 + n * unit) mod 2 ^ 64) with (n * unit)
    by (unfold maxInt64 in Hmax; rewrite Z.add_0_l, Z.mod_small; nia).
  unfold maxInt64 in *.
  destruct (Z.ltb_spec (2 ^ 63) (n * unit)); [lia|].
  cbn [parseComponents].
  destruct (Z.ltb_spec (2 ^ 63 - 1) (n * unit)); [lia | reflexivity].
Qed.

(** *** The two searches of [FindDigitsBefore] *)

Lemma FindDigitsBefore_hit isUnit ds c r :
  allChars isDigit ds = true -> ds <> EmptyString -> isDigit c = false ->
  isUnit (String c r) = true ->
  FindDigitsBefore isUnit (ds ++ String c r) = Some ds.
Proof.
  intros Hds Hne Hc Hu. destruct ds as [|d ds']; [congruence|].
  pose proof (spanDigits_digits _ c r Hds Hc) as Hspan.
  revert Hspan. app_step. intros Hspan.
  cbn [FindDigitsBefore]. rewrite Hspan, Hu. reflexivity.
Qed.

Lemma FindDigitsBefore_miss isUnit ds c r :
  allChars isDigit ds = true -> isDigit c = false ->
  isUnit (String c r) = false ->
  FindDigitsBefore isUnit (ds ++ String c r) = FindDigitsBefore isUnit r.
Proof.
  intros Hds Hc Hu. induction ds as [|d ds' IH].
  - app_step. cbn [FindDigitsBefore spanDigits]. rewrite Hc. reflexivity.
  - pose proof (spanDigits_digits _ c r Hds Hc) as Hspan.
    revert Hspan. app_step. intros Hspan.
    cbn [FindDigitsBefore]. rewrite Hspan, Hu, andb_false_r.
    apply IH. cbn [allChars] in Hds. now apply andb_prop in Hds.
Qed.

(** *** [ToUpper] *)

Lemma ToUpper_upperSafe up s : allChars upperSafe s = true -> ToUpper up s = s.
Proof.
  unfold ToUpper. induction s as [|c s IH]; [reflexivity|].
  cbn [allChars]. intros [Hc Hs]%andb_prop.
  unfold upperSafe in Hc. apply andb_prop in Hc as [Hascii Hlow].
  cbn [mapUpperFrom]. rewrite Hascii, (IH Hs). unfold upperByte.
  apply negb_true_iff in Hlow. rewrite Hlow. reflexivity.
Qed.

Lemma ToUpper_head up c r :
  isASCII c = true ->
  ToUpper up (String c r) = String (upperByte c) (ToUpper up r).
Proof. intros Hc. unfold ToUpper. cbn [mapUpperFrom]. now rewrite Hc. Qed.

Lemma digit_classes c :
  isDigit c = true -> plain c = true /\ upperSafe c = true.
Proof. by_byte c; vm_compute; intuition congruence. Qed.

Lemma digits_plain ds : allChars isDigit ds = true -> allChars plain ds = true.
Proof. apply allChars_impl. intros c Hc. apply (digit_classes c Hc). Qed.

Lemma digits_upperSafe ds : allChars isDigit ds = true -> allChars upperSafe ds = true.
Proof. apply allChars_impl. intros c Hc. apply (digit_classes c Hc). Qed.

(** *** [ParseDuration]: what it accepts *)

Lemma ParseDuration_letter fr c r :
  durationStart c = false -> ParseDuration fr (String c r) = None.
Proof.
  intros Hc. unfold ParseDuration.
  assert (H : ((c =? "-") || (c =? "+"))%char = false /\ (c =? "0")%char = false
              /\ negb ((c =? ".")%char || isDigit c) = true)
    by (clear - Hc; by_byte c; vm_compute in Hc; try discriminate; repeat split; reflexivity).
  destruct H as (-> & Hzero & Hstart).
  cbn [String.eqb]. rewrite Hzero. cbn [isEmpty String.length parseComponents].
  rewrite Hstart. reflexivity.
Qed.

Lemma ParseDuration_head fr s d :
  ParseDuration fr s = Some d ->
  exists c r, s = String c r /\ durationStart c = true.
Proof.
  intros H. destruct s as [|c r]; [discriminate|].
  exists c, r. split; [reflexivity|].
  destruct (durationStart c) eqn:Hc; [reflexivity|].
  rewrite (ParseDuration_letter fr c r Hc) in H. discriminate.
Qed.

Lemma ParseDuration_max fr s d : ParseDuration fr s = Some d -> d <= maxInt64.
Proof.
  unfold ParseDuration, maxInt64.
  destruct (match s with
            | String c r =>
                if ((c =? "-") || (c =? "+"))%char then ((c =? "-")%char, r) else (false, s)
            | EmptyString => (false, s)
            end) as [neg s'].
  destruct (s' =? "0")%string; [intros [= <-]; lia|].
  destruct (isEmpty s'); [discriminate|].
  destruct (parseComponents fr (String.length s') 0 s') as [d0|]; [|discriminate].
  destruct neg.
  - intros [= <-]. pose proof (wrap64_range (- wrap64 d0)). lia.
  - destruct (Z.ltb_spec (2 ^ 63 - 1) d0); [discriminate|]. intros [= <-]. lia.
Qed.

(** *** The two conversions *)

Section Conversions.
Variable L : GoLib.

Lemma addComponent_dec total n u unit :
  unitOf u unit -> 0 <= n -> 0 <= total -> total + n * unit <= maxInt64 ->
  addComponent L total (Some (dec n)) u = total + n * unit.
Proof.
  intros Hu Hn Ht Hmax.
  assert (Hpos : 0 < unit) by (destruct Hu; reflexivity).
  unfold addComponent. rewrite (ParseDuration_dec _ n u unit Hu Hn) by nia.
  destruct (Z.ltb_spec 0 (n * unit)) as [Hv|Hv].
  - apply wrap64_small. unfold maxInt64 in Hmax. lia.
  - nia.
Qed.

Lemma isoOf_classes h m s :
  allChars plain (isoOf h m s) = true /\ allChars upperSafe (isoOf h m s) = true.
Proof.
  unfold isoOf.
  repeat (first [rewrite allChars_app | progress cbn [allChars]]).
  rewrite !(digits_plain _ (dec_digits _)), !(digits_upperSafe _ (dec_digits _)).
  split; reflexivity.
Qed.

(** Parsing the ISO form of [h] hours, [m] minutes and [s] seconds. *)
Lemma ParseISO8601ToDuration_isoOf h m s :
  0 <= h -> 0 <= m -> 0 <= s -> h * Hour + m * Minute + s * Second <= maxInt64 ->
  ParseISO8601ToDuration L (isoOf h m s) = Ok (h * Hour + m * Minute + s * Second).
Proof.
  intros Hh Hm Hs Hmax.
  destruct (isoOf_classes h m s) as [Hplain Hupper].
  unfold ParseISO8601ToDuration.
  rewrite (TrimSpace_plain _ Hplain), (ToUpper_upperSafe _ _ Hupper).
  unfold isoOf.
  assert (Hpre : forall x, HasPrefix (String "P" x) "P" = true) by (intros []; reflexivity).
  assert (Hpart : forall x, afterFirst "T" (String "P" (String "T" x)) = Some x) by reflexivity.
  rewrite Hpre, Hpart. cbn [negb].
  assert (HH : 0 <= h * Hour) by (unfold Hour, Minute, Second, Millisecond, Microsecond, Nanosecond; lia).
  assert (HM : 0 <= m * Minute) by (unfold Minute, Second, Millisecond, Microsecond, Nanosecond; lia).
  assert (HS : 0 <= s * Second) by (unfold Second, Millisecond, Microsecond, Nanosecond; lia).
  pose proof (dec_digits h) as Dh. pose proof (dec_digits m) as Dm.
  pose proof (dec_digits s) as Ds.
  assert (Nh : dec h <> EmptyString) by (destruct (dec_head h) as (? & ? & -> & _); discriminate).
  assert (Nm : dec m <> EmptyString) by (destruct (dec_head m) as (? & ? & -> & _); discriminate).
  assert (Ns : dec s <> EmptyString) by (destruct (dec_head s) as (? & ? & -> & _); discriminate).
  rewrite (FindDigitsBefore_hit isH (dec h) "H" _ Dh Nh eq_refl eq_refl).
  rewrite (FindDigitsBefore_miss isM (dec h) "H" _ Dh eq_refl eq_refl).
  rewrite (FindDigitsBefore_hit isM (dec m) "M" _ Dm Nm eq_refl eq_refl).
  rewrite (FindDigitsBefore_miss isS (dec h) "H" _ Dh eq_refl eq_refl).
  rewrite (FindDigitsBefore_miss isS (dec m) "M" _ Dm eq_refl eq_refl).
  rewrite (FindDigitsBefore_hit isS (dec s) "S" _ Ds Ns eq_refl eq_refl).
  rewrite (addComponent_dec 0 h "h" Hour unit_h Hh) by lia.
  rewrite (addComponent_dec _ m "m" Minute unit_m Hm) by lia.
  rewrite (addComponent_dec _ s "s" Second unit_s Hs) by lia.
  f_equal.
Qed.

Lemma formatISO_isoOf secs :
  0 <= secs -> formatISO secs = isoOf (secs / 3600) (secs mod 3600 / 60) (secs mod 60).
Proof.
  intros Hs. unfold formatISO, isoOf.
  rewrite !Z.rem_mod_nonneg by lia.
  rewrite !Z.quot_div_nonneg by (try apply Z.mod_pos_bound; lia).
  reflexivity.
Qed.

(** A Go duration string that denotes a whole, non-negative number of
    seconds is converted to the ISO form of that number. *)
Lemma ISO8601Duration_whole src d :
  ParseDuration (fracNanos L) (TrimSpace src) = Some d ->
  0 <= d -> d mod Second = 0 ->
  ISO8601Duration L src = Ok (formatISO (d / Second)).
Proof.
  intros Hparse Hd Hwhole. unfold ISO8601Duration.
  destruct (ParseDuration_head _ _ _ Hparse) as (c & r & Ht & Hc).
  rewrite Ht in *. cbn [isEmpty].
  assert (Hcls : isASCII c = true /\ (upperByte c =? "P")%char = false)
    by (clear - Hc; by_byte c; vm_compute in Hc; try discriminate; split; reflexivity).
  destruct Hcls as [Hascii Hup].
  rewrite (ToUpper_head _ c r Hascii).
  assert (Hpre : HasPrefix (String (upperByte c) (ToUpper (upperRune L) r)) "P" = false).
  { unfold HasPrefix. cbn [String.prefix].
    destruct (ascii_dec "P" (upperByte c)) as [E|_]; [|reflexivity].
    rewrite <- E in Hup. discriminate. }
  rewrite Hpre, Hparse.
  unfold SecondsInt64.
  rewrite Z.rem_mod_nonneg, Hwhole by (try reflexivity; lia).
  cbn [Z.eqb]. rewrite Z.quot_div_nonneg by (try reflexivity; lia).
  assert (Hq : 0 <= d / Second) by (apply Z.div_pos; [lia | reflexivity]).
  destruct (Z.ltb_spec (d / Second) 0); [lia | reflexivity].
Qed.

(** And the ISO form parses back to the duration. *)
Lemma ParseISO8601ToDuration_formatISO d :
  0 <= d <= maxInt64 -> d mod Second = 0 ->
  ParseISO8601ToDuration L (formatISO (d / Second)) = Ok d.
Proof.
  intros Hd Hwhole.
  assert (Hq : 0 <= d / Second) by (apply Z.div_pos; [lia | reflexivity]).
  rewrite (formatISO_isoOf _ Hq).
  assert (Hsum : d / Second / 3600 * Hour + d / Second mod 3600 / 60 * Minute
                 + d / Second mod 60 * Second = d).
  { pose proof (Z.div_mod d Second ltac:(discriminate)) as Hdq.
    rewrite Hwhole, Z.add_0_r in Hdq.
    set (q := d / Second) in *.
    pose proof (Z.div_mod q 3600 ltac:(lia)) as H1.
    pose proof (Z.mod_pos_bound q 3600 ltac:(lia)) as B1.
    pose proof (Z.div_mod (q mod 3600) 60 ltac:(lia)) as H2.
    pose proof (Z.mod_pos_bound (q mod 3600) 60 ltac:(lia)) as B2.
    pose proof (Z.div_mod q 60 ltac:(lia)) as H3.
    pose proof (Z.mod_pos_bound q 60 ltac:(lia)) as B3.
    assert (Hc : q mod 60 = (q mod 3600) mod 60) by lia.
    unfold Hour, Minute, Second, Millisecond, Microsecond, Nanosecond in *. lia. }
  rewrite ParseISO8601ToDuration_isoOf.
  - now rewrite Hsum.
  - apply Z.div_pos; lia.
  - apply Z.div_pos; [apply Z.mod_pos_bound|]; lia.
  - apply Z.mod_pos_bound; lia.
  - rewrite Hsum. lia.
Qed.

End Conversions.

End DurationFacts.

Import GoTime GoFmt DurationFacts.

(** C6: the simple duration 2h30m45s is converted to exactly PT2H30M45S, and
    PT2H30M45S parses to exactly 2h30m45s.  More generally, whenever a Go
    duration string denotes a whole number [d >= 0] of seconds,
    [ISO8601Duration] yields the form [PT%dH%dM%dS] of [d], and
    [ParseISO8601ToDuration] maps that form back to exactly [d]. *)
Theorem C6_duration_roundtrip (L : GoLib) :
  ISO8601Duration L "2h30m45s" = Ok "PT2H30M45S"
  /\ ParseISO8601ToDuration L "PT2H30M45S" = Ok (2 * Hour + 30 * Minute + 45 * Second)%Z
  /\ (forall src d,
        ParseDuration (fracNanos L) (TrimSpace src) = Some d ->
        (0 <= d)%Z -> (d mod Second = 0)%Z ->
        ISO8601Duration L src = Ok (formatISO (d / Second))
        /\ ParseISO8601ToDuration L (formatISO (d / Second)) = Ok d).
Proof.
  split; [|split].
  - apply (ISO8601Duration_whole L "2h30m45s" 9045000000000); reflexivity || discriminate.
  - apply (ParseISO8601ToDuration_formatISO L 9045000000000);
      [split; discriminate | reflexivity].
  - intros src d Hparse Hd Hwhole. split.
    + now apply ISO8601Duration_whole.
    + apply ParseISO8601ToDuration_formatISO; [|exact Hwhole].
      split; [exact Hd | exact (ParseDuration_max _ _ _ Hparse)].
Qed.

(** Ninety minutes, written with surrounding blanks, under the reference
    library. *)
Lemma C6_witness_ninety_minutes :
  ISO8601Duration RefLib.refLib " 90m " = Ok "PT1H30M0S"
  /\ ParseISO8601ToDuration RefLib.refLib "PT1H30M0S" = Ok 5400000000000%Z.
Proof.
  exact (proj2 (proj2 (C6_duration_roundtrip RefLib.refLib)) " 90m " 5400000000000%Z
           eq_refl ltac:(discriminate) eq_refl).
Defined.

Import Planner PlannerSpec PlannerFacts.

(** C10: a timespan that starts with P or p and that
    [ParseISO8601ToDuration] rejects (such as P5X, or P1D, which has no time
    designator) is no configuration error: [ISO8601Duration] returns it,
    trimmed and unvalidated; in [exportTableData] both the ISO parse and
    [time.ParseDuration] of the configured timespan fail, the duration stays
    0, and the windows queried are those of the default two hours. *)
Theorem C10_unparseable_P_timespan (L : GoLib) (cfg : Config) (c : ascii) (rest : string) :
  let ts := String c rest in
  let iso := TrimSpace ts in
  (c = "P" \/ c = "p")%char ->
  Timespan cfg = ts ->
  is_err (ParseISO8601ToDuration L iso) = true ->
  ISO8601Duration L ts = Ok iso
  /\ ParseDuration (fracNanos L) ts = None
  /\ Exporter.lookback L cfg iso = 0%Z
  /\ (forall since,
        planWindows since (Exporter.lookback L cfg iso) = planWindows since (2 * Hour)
        /\ length (planWindows since (Exporter.lookback L cfg iso)) = 8%nat
        /\ tiles (since - 2 * Hour) since (planWindows since (Exporter.lookback L cfg iso)))
  /\ (forall lcli since table safe workspaceGUID st,
        Exporter.exportTableData L cfg lcli since table safe workspaceGUID iso st
        = (p ← foldOutcome (Exporter.exportChunk L cfg lcli table safe workspaceGUID)
                           (planWindows since (2 * Hour)) (Exporter.mkProgress st 0 0);
           Done (Exporter.mkState
                   (Exporter.tarw (Exporter.state p)
                    ++ [Exporter.summaryEntry table safe (Exporter.rowsTotal p) iso])
                   (Exporter.stitchedLogs (Exporter.state p))
                   (Exporter.stitchedEvents (Exporter.state p))
                   (Exporter.queries (Exporter.state p))))).
Proof.
  intros ts iso Hc Hts Herr.
  assert (Hcls : plain c = true /\ isASCII c = true /\ upperByte c = "P"%char
                 /\ durationStart c = false)
    by (destruct Hc as [-> | ->]; repeat split; reflexivity).
  destruct Hcls as (Hplain & Hascii & Hup & Hstart).
  assert (Hiso : iso = String c (TrimRightSpace rest)) by (apply TrimSpace_head, Hplain).
  assert (Hnone : ParseDuration (fracNanos L) ts = None) by (apply ParseDuration_letter, Hstart).
  assert (Hlook : Exporter.lookback L cfg iso = 0%Z).
  { unfold Exporter.lookback. destruct (ParseISO8601ToDuration L iso); [discriminate|].
    rewrite Hts, Hnone. reflexivity. }
  split; [|split; [exact Hnone|split; [exact Hlook|split]]].
  - unfold ISO8601Duration. fold iso. rewrite Hiso. cbn [isEmpty].
    rewrite (ToUpper_head _ c _ Hascii), Hup.
    unfold HasPrefix. cbn [String.prefix].
    destruct (ToUpper (upperRune L) (TrimRightSpace rest)); reflexivity.
  - intros since. rewrite Hlook, planWindows_zero.
    destruct (planWindows_spec since (2 * Hour)
                ltac:(vm_compute; split; [reflexivity | discriminate])) as (Ht & Hl & _).
    repeat split; assumption.
  - intros lcli since table safe workspaceGUID st.
    unfold Exporter.exportTableData. rewrite Hlook, planWindows_zero. reflexivity.
Qed.

(** The timespan P1D, which has no time designator, under the reference
    library. *)
Lemma C10_witness_P1D :
  let cfg := mkConfig "" "P1D" "" "" "" false false false false "" in
  ISO8601Duration RefLib.refLib "P1D" = Ok "P1D"
  /\ ParseDuration (fracNanos RefLib.refLib) "P1D" = None
  /\ Exporter.lookback RefLib.refLib cfg "P1D" = 0%Z
  /\ (forall since,
        planWindows since (Exporter.lookback RefLib.refLib cfg "P1D") = planWindows since (2 * Hour)
        /\ length (planWindows since (Exporter.lookback RefLib.refLib cfg "P1D")) = 8%nat
        /\ tiles (since - 2 * Hour) since (planWindows since (Exporter.lookback RefLib.refLib cfg "P1D"))).
Proof.
  intros cfg.
  destruct (C10_unparseable_P_timespan RefLib.refLib cfg "P" "1D"
              (or_introl eq_refl) eq_refl eq_refl) as (H1 & H2 & H3 & H4 & _).
  exact (conj H1 (conj H2 (conj H3 H4))).
Defined.

(** ** The exporter *)

Module ExporterFacts.
Import Utf8 GoStrings GoTime Utils MustGather Planner Exporter ExporterSpec.
Local Open Scope Z_scope.
Local Open Scope list_scope.

(** *** Responses that cannot make the exporter panic *)

Lemma columnNames_wf cols :
  Forall (fun c : option string => is_Some c) cols ->
  exists names, columnNames cols = Done names /\ length names = length cols.
Proof.
  induction 1 as [|c cols [n ->] _ (names & Hn & Hl)].
  - exists []. split; reflexivity.
  - exists (n :: names). cbn. rewrite Hn. cbn. split; [reflexivity | now rewrite Hl].
Qed.

Lemma rowObjectFrom_ok colNames : forall row i obj,
  (i + length row <= length colNames)%nat ->
  exists obj', rowObjectFrom colNames i row obj = Done obj'.
Proof.
  induction row as [|v row IH]; intros i obj Hlen.
  - exists obj. reflexivity.
  - cbn [rowObjectFrom]. cbn [length] in Hlen.
    destruct (lookup_lt_is_Some_2 colNames i ltac:(lia)) as [n ->].
    apply IH. lia.
Qed.

Lemma idxFrom_range colNames n : forall i,
  idxFrom i colNames n = -1 \/ i <= idxFrom i colNames n < i + Z.of_nat (length colNames).
Proof.
  induction colNames as [|c r IH]; intros i; cbn [idxFrom length]; [left; reflexivity|].
  destruct (c =? n)%string; [right; lia|].
  destruct (IH (i + 1)) as [->|H]; [left; reflexivity | right; lia].
Qed.

Lemma idx_range colNames n :
  0 <= idx colNames n -> (Z.to_nat (idx colNames n) < length colNames)%nat.
Proof.
  unfold idx. destruct (idxFrom_range colNames n 0) as [->|H]; lia.
Qed.

Lemma rowAt_ok row i : (Z.to_nat i < length row)%nat -> rowAt row i = Done (cell row i).
Proof.
  intros Hi. unfold rowAt, cell.
  destruct (lookup_lt_is_Some_2 row (Z.to_nat i) Hi) as [v ->]. reflexivity.
Qed.

Section WithLib.
Variable L : GoLib.
Variable cfg : Config.

Lemma processRow_ok table colNames acc row :
  length row = length colNames ->
  exists obj,
    rowObject colNames row = Done obj
    /\ processRow L cfg table colNames (lookupIndices colNames) acc row
       = Done (mkRowAcc
                 (partLines acc ++ [obj]) (rowsChunk acc + 1)
                 (v2rows acc ++ if collectsV2 cfg table (lookupIndices colNames)
                                then [v2Of L (lookupIndices colNames) row] else [])
                 (evrows acc ++ if collectsEvents cfg table (lookupIndices colNames)
                                then [evtOf L (lookupIndices colNames) row] else [])).
Proof.
  intros Hlen.
  destruct (rowObjectFrom_ok colNames row 0%nat ∅ ltac:(lia)) as [obj Hobj].
  change (rowObject colNames row = Done obj) in Hobj.
  exists obj. split; [exact Hobj|].
  unfold processRow. rewrite Hobj. cbn [mbind outcome_bind].
  assert (Hat : forall n, 0 <= idx colNames n ->
                  rowAt row (idx colNames n) = Done (cell row (idx colNames n))).
  { intros n Hn. apply rowAt_ok. rewrite Hlen. now apply idx_range. }
  destruct (collectsV2 cfg table (lookupIndices colNames)) eqn:Hv2;
    destruct (collectsEvents cfg table (lookupIndices colNames)) eqn:Hev.
  all: unfold collectsV2, collectsEvents, lookupIndices in Hv2, Hev; cbn in Hv2, Hev.
  all: repeat match goal with
              | H : _ && _ = true |- _ => apply andb_prop in H as [? ?]
              | H : (0 <=? _) = true |- _ => apply Z.leb_le in H
              end.
  all: unfold lookupIndices; cbn [timeIdx nsIdx podIdx cnIdx srcIdx msgIdx
                                  evNsIdx evNameIdx evReasonIdx evMsgIdx].
  all: rewrite ?Hat by assumption; cbn [mbind outcome_bind].
  all: rewrite ?app_nil_r; reflexivity.
Qed.

(** The row loop over a well-formed table. *)
Lemma rowLoop_ok table colNames : forall rows acc,
  Forall (fun row : list any => length row = length colNames) rows ->
  exists objs,
    Forall2 (fun row obj => rowObject colNames row = Done obj) rows objs
    /\ foldOutcome (processRow L cfg table colNames (lookupIndices colNames)) rows acc
       = Done (mkRowAcc
                 (partLines acc ++ objs) (rowsChunk acc + Z.of_nat (length rows))
                 (v2rows acc ++ if collectsV2 cfg table (lookupIndices colNames)
                                then map (v2Of L (lookupIndices colNames)) rows else [])
                 (evrows acc ++ if collectsEvents cfg table (lookupIndices colNames)
                                then map (evtOf L (lookupIndices colNames)) rows else [])).
Proof.
  induction rows as [|row rows IH]; intros acc Hwf.
  - exists []. split; [constructor|]. cbn.
    destruct acc; cbn. rewrite !app_nil_r, Z.add_0_r.
    destruct (collectsV2 _ _ _), (collectsEvents _ _ _); rewrite ?app_nil_r; reflexivity.
  - apply Forall_cons in Hwf as [Hrow Hrows].
    destruct (processRow_ok table colNames acc row Hrow) as (obj & Hobj & Hstep).
    cbn [foldOutcome]. rewrite Hstep.
    match goal with
    | |- context [foldOutcome _ rows ?a] => destruct (IH a Hrows) as (objs & Hobjs & Hloop)
    end.
    exists (obj :: objs). split; [constructor; assumption|].
    rewrite Hloop. cbn [partLines rowsChunk v2rows evrows length].
    f_equal. f_equal.
    + now rewrite <- app_assoc.
    + lia.
    + rewrite <- app_assoc. destruct (collectsV2 _ _ _); reflexivity.
    + rewrite <- app_assoc. destruct (collectsEvents _ _ _); reflexivity.
Qed.

(** *** The stitcher *)

Lemma linesOf_writeLine `{Countable K} (k k' : K) line (m : gmap K (list string)) :
  linesOf (writeLine k line m) k'
  = if decide (k = k') then linesOf m k ++ [line] else linesOf m k'.
Proof.
  unfold linesOf, writeLine. destruct (decide (k = k')) as [<-|Hne].
  - now rewrite lookup_insert_eq.
  - now rewrite lookup_insert_ne.
Qed.

(** Appending the tuples of a chunk writes, to every builder, the lines of
    its tuples in the order given, and none for a noise tuple. *)
Lemma appendV2_lines k : forall rows logs,
  linesOf (appendV2 L rows logs) k
  = linesOf logs k ++ map (v2Line L) (filter (stitchedFor k) rows).
Proof.
  unfold appendV2.
  induction rows as [|r rows IH]; intros logs; cbn [fold_left].
  - rewrite filter_nil. cbn [map]. now rewrite app_nil_r.
  - rewrite IH. destruct (isNoise r) eqn:Hnoise.
    + rewrite filter_cons_False; [reflexivity|].
      intros [_ H]. congruence.
    + rewrite linesOf_writeLine. destruct (decide (keyOf r = k)) as [Hk|Hk].
      * rewrite filter_cons_True by (split; assumption).
        cbn [map]. rewrite Hk, <- app_assoc. reflexivity.
      * rewrite filter_cons_False; [reflexivity|]. intros [H _]. contradiction.
Qed.

(** The builder of the empty key is never written to. *)
Lemma appendV2_noise_key rows logs :
  appendV2 L rows logs !! mkCkey "" "" "" = logs !! mkCkey "" "" "".
Proof.
  unfold appendV2. revert logs.
  induction rows as [|r rows IH]; intros logs; cbn [fold_left]; [reflexivity|].
  rewrite IH. destruct (isNoise r) eqn:Hnoise; [reflexivity|].
  unfold writeLine. apply lookup_insert_ne.
  intros Hk. unfold keyOf in Hk. injection Hk as Hn Hp Hc.
  unfold isNoise in Hnoise. rewrite Hn, Hp, Hc in Hnoise. discriminate.
Qed.

(** *** One chunk *)

Lemma exportRows_ok table safe w tab p :
  wfTable tab ->
  exists colNames objs,
    columnNames (Columns tab) = Done colNames
    /\ Forall2 (fun row obj => rowObject colNames row = Done obj) (Rows tab) objs
    /\ exportRows L cfg table safe w tab p
       = Done (mkProgress
                 (mkState
                    (tarw (state p)
                     ++ if 0 <? Z.of_nat (length (Rows tab))
                        then [mkEntry ["tables"; safe; partName L (chunkIndex p) w.1 w.2]
                                      (PartNDJSON objs)]
                        else [])
                    (stitchV2 L cfg table
                       (if collectsV2 cfg table (lookupIndices colNames)
                        then map (v2Of L (lookupIndices colNames)) (Rows tab) else [])
                       (stitchedLogs (state p)))
                    (stitchEvents L cfg table
                       (if collectsEvents cfg table (lookupIndices colNames)
                        then map (evtOf L (lookupIndices colNames)) (Rows tab) else [])
                       (stitchedEvents (state p)))
                    (queries (state p)))
                 (if 0 <? Z.of_nat (length (Rows tab))
                  then chunkIndex p + 1 else chunkIndex p)
                 (rowsTotal p + Z.of_nat (length (Rows tab)))).
Proof.
  intros [Hcols Hrows].
  destruct (columnNames_wf _ Hcols) as (colNames & Hnames & Hlen).
  assert (Hrows' : Forall (fun row : list any => length row = length colNames) (Rows tab))
    by (rewrite Hlen; exact Hrows).
  destruct (rowLoop_ok table colNames (Rows tab) (mkRowAcc [] 0 [] []) Hrows')
    as (objs & Hobjs & Hloop).
  exists colNames, objs. split; [exact Hnames|]. split; [exact Hobjs|].
  unfold exportRows. rewrite Hnames. cbn [mbind outcome_bind].
  rewrite Hloop. cbn [mbind outcome_bind partLines rowsChunk v2rows evrows app].
  rewrite Z.add_0_l.
  destruct (0 <? Z.of_nat (length (Rows tab))) eqn:Hpos.
  - reflexivity.
  - apply Z.ltb_ge in Hpos. rewrite app_nil_r.
    replace (Z.of_nat (length (Rows tab))) with 0 by lia. now rewrite Z.add_0_r.
Qed.

Lemma exportChunk_ok lcli table safe workspaceGUID p w :
  wfClient lcli ->
  exists p',
    exportChunk L cfg lcli table safe workspaceGUID p w = Done p'
    /\ summaries (tarw (state p')) = summaries (tarw (state p))
    /\ queries (state p') = S (queries (state p)).
Proof.
  intros Hwf. unfold exportChunk.
  destruct (lcli (queries (state p)) workspaceGUID table w.1 w.2)
    as [err | perr [|tab rest]] eqn:Hres.
  - eexists. split; [reflexivity|]. split; reflexivity.
  - eexists. split; [reflexivity|]. split; reflexivity.
  - destruct (exportRows_ok table safe w tab
                (mkProgress (mkState (tarw (state p)) (stitchedLogs (state p))
                                     (stitchedEvents (state p)) (S (queries (state p))))
                            (chunkIndex p) (rowsTotal p))
                (Hwf _ _ _ _ _ _ _ _ Hres)) as (colNames & objs & _ & _ & ->).
    eexists. split; [reflexivity|]. cbn [state tarw queries]. split; [|reflexivity].
    unfold summaries. rewrite omap_app.
    destruct (0 <? Z.of_nat (length (Rows tab))); cbn; now rewrite app_nil_r.
Qed.

Lemma chunkLoop_ok lcli table safe workspaceGUID :
  wfClient lcli ->
  forall ws p,
  exists p',
    foldOutcome (exportChunk L cfg lcli table safe workspaceGUID) ws p = Done p'
    /\ summaries (tarw (state p')) = summaries (tarw (state p))
    /\ queries (state p') = (queries (state p) + length ws)%nat.
Proof.
  intros Hwf. induction ws as [|w ws IH]; intros p.
  - exists p. cbn. split; [reflexivity|]. split; [reflexivity | lia].
  - destruct (exportChunk_ok lcli table safe workspaceGUID p w Hwf) as (p1 & H1 & Hs1 & Hq1).
    destruct (IH p1) as (p' & H' & Hs' & Hq').
    exists p'. cbn [foldOutcome]. rewrite H1. split; [exact H'|].
    split; [congruence|]. cbn [length]. lia.
Qed.

(** *** One target, and the run *)

Lemma exportTableData_ok lcli since table safe workspaceGUID iso st :
  wfClient lcli ->
  exists st' written rows,
    exportTableData L cfg lcli since table safe workspaceGUID iso st = Done st'
    /\ tarw st' = written ++ [summaryEntry table safe rows iso]
    /\ summaries written = summaries (tarw st)
    /\ queries st' = (queries st + length (planWindows since (lookback L cfg iso)))%nat.
Proof.
  intros Hwf. unfold exportTableData.
  destruct (chunkLoop_ok lcli table safe workspaceGUID Hwf
              (planWindows since (lookback L cfg iso)) (mkProgress st 0 0))
    as (p & -> & Hs & Hq).
  cbn [mbind outcome_bind]. eexists. exists (tarw (state p)), (rowsTotal p).
  split; [reflexivity|]. cbn [tarw queries]. split; [reflexivity|].
  split; [exact Hs | exact Hq].
Qed.

Lemma writeSchema_frame tcli table safe st :
  summaries (tarw (writeSchema tcli table safe st)) = summaries (tarw st)
  /\ queries (writeSchema tcli table safe st) = queries st.
Proof.
  unfold writeSchema. destruct tcli as [get|]; [|split; reflexivity].
  destruct (get table); [|split; reflexivity].
  cbn [tarw queries]. unfold summaries. rewrite omap_app. cbn.
  now rewrite app_nil_r.
Qed.

Lemma attempts_S clock dur n :
  attempts clock dur (S n) = (attempts clock dur n + length (planWindows (clock n) dur))%nat.
Proof. reflexivity. Qed.

Lemma tableLoop_ok lcli tcli clock workspaceGUID iso :
  wfClient lcli ->
  forall tables st i,
    queries st = attempts clock (lookback L cfg iso) i ->
    exists st',
      foldOutcome (exportOne L cfg lcli tcli clock workspaceGUID iso) tables (st, i)
      = Done (st', (i + length tables)%nat)
      /\ summaries (tarw st') = summaries (tarw st) ++ map summaryPath tables
      /\ queries st' = attempts clock (lookback L cfg iso) (i + length tables).
Proof.
  intros Hwf. induction tables as [|table tables IH]; intros st i Hq.
  - exists st. cbn. rewrite Nat.add_0_r, app_nil_r. auto.
  - destruct (writeSchema_frame tcli table (SafeFileName table) st) as [Hs0 Hq0].
    destruct (exportTableData_ok lcli (clock i) table (SafeFileName table) workspaceGUID iso
                (writeSchema tcli table (SafeFileName table) st) Hwf)
      as (st1 & written & rows & Hdata & Htar & Hs1 & Hq1).
    assert (Hstep : exportOne L cfg lcli tcli clock workspaceGUID iso (st, i) table
                    = Done (st1, S i)).
    { unfold exportOne. rewrite Hdata. reflexivity. }
    cbn [foldOutcome]. rewrite Hstep.
    destruct (IH st1 (S i)) as (st' & Hloop & Hs' & Hq').
    { rewrite Hq1, Hq0, Hq. now rewrite attempts_S. }
    exists st'. rewrite Hloop. cbn [length].
    replace (i + S (length tables))%nat with (S i + length tables)%nat by lia.
    split; [reflexivity|]. split; [|exact Hq'].
    rewrite Hs', Htar. unfold summaries at 1. rewrite omap_app.
    fold (summaries written). rewrite Hs1, Hs0. cbn [omap map].
    now rewrite <- app_assoc.
Qed.

Lemma flushStitched_frame st :
  summaries (tarw (flushStitched cfg st)) = summaries (tarw st)
  /\ queries (flushStitched cfg st) = queries st.
Proof.
  unfold flushStitched. destruct (StitchLogs cfg); [|split; reflexivity].
  cbn [tarw queries]. split; [|reflexivity].
  unfold summaries. rewrite !omap_app.
  assert (Hlogs : forall l : list (ckey * list string), omap summaryOf (map podLogEntry l) = [])
    by (induction l; [reflexivity | assumption]).
  assert (Hevts : forall l : list (string * list string), omap summaryOf (map eventsEntry l) = [])
    by (induction l; [reflexivity | assumption]).
  rewrite Hlogs. destruct (StitchIncludeEvents cfg); rewrite ?Hevts; cbn; now rewrite app_nil_r.
Qed.

End WithLib.
End ExporterFacts.

Import Exporter ExporterSpec ExporterFacts Samples.
Local Open Scope list_scope.

(** C5: whatever the queries answer (errors included), the export of a
    target attempts every planned window and then writes one summary entry,
    the last entry of that export; and a run over a list of targets ends
    with exactly one summary per target, in the order of the list, having
    attempted every window of every target.  The responses are assumed well
    formed, so that no row makes the exporter panic. *)
Theorem C5_one_summary_per_target (L : GoLib) (cfg : Config) (lcli : LogsClient)
  (tcli : TablesClient) (clock : nat -> Z) (tables : list string)
  (workspaceGUID iso : string) (tar : list Entry) :
  wfClient lcli ->
  (forall since table safe st,
     exists st' written rows,
       exportTableData L cfg lcli since table safe workspaceGUID iso st = Done st'
       /\ tarw st' = written ++ [summaryEntry table safe rows iso]
       /\ summaries written = summaries (tarw st)
       /\ queries st' = (queries st + length (planWindows since (lookback L cfg iso)))%nat)
  /\ exists st,
       exportTables L cfg lcli tcli clock tables workspaceGUID iso tar = Done st
       /\ summaries (tarw st) = summaries tar ++ map summaryPath tables
       /\ queries st = attempts clock (lookback L cfg iso) (length tables).
Proof.
  intros Hwf. split.
  - intros since table safe st. now apply exportTableData_ok.
  - unfold exportTables.
    destruct (tableLoop_ok L cfg lcli tcli clock workspaceGUID iso Hwf tables
                (mkState tar ∅ ∅ 0) 0%nat eq_refl) as (st' & -> & Hs & Hq).
    cbn [mbind outcome_bind fst].
    destruct (flushStitched_frame cfg st') as [Hfs Hfq].
    eexists. split; [reflexivity|]. rewrite Hfs, Hfq. split; [exact Hs | exact Hq].
Qed.

Lemma flakyClient_wf : wfClient flakyClient.
Proof.
  intros n workspace query t0 t1 perr tab rest. unfold flakyClient.
  destruct (query =? "Perf")%string; [|discriminate].
  intros [= _ <- _]. split; repeat constructor; eauto.
Qed.

(** A broken target before Perf: both get their summary, and all four
    windows of the thirty minutes are attempted. *)
Lemma C5_witness_failure_before_Perf :
  let cfg := mkConfig "" "30m" "" "" "" false false false false "" in
  exists st,
    exportTables RefLib.refLib cfg flakyClient None (fun _ => 63808171200000000000%Z)
                 ["Broken.Table"; "Perf"] "guid" "PT0H30M0S" [] = Done st
    /\ summaries (tarw st)
       = [("Broken.Table", ["tables"; "Broken_Table"; "summary.json"]);
          ("Perf", ["tables"; "Perf"; "summary.json"])]
    /\ queries st = 4%nat.
Proof.
  intros cfg.
  destruct (C5_one_summary_per_target RefLib.refLib cfg flakyClient None
              (fun _ => 63808171200000000000%Z) ["Broken.Table"; "Perf"] "guid"
              "PT0H30M0S" [] flakyClient_wf) as [_ (st & Hrun & Hsum & Hq)].
  exists st. split; [exact Hrun|]. split; [exact Hsum | exact Hq].
Defined.

(** C9: in a chunk of ContainerLogV2 with stitching enabled, every row of
    the response, noise or not, is serialized into the part entry, one
    object per row and in the order of the rows; the lines appended to the
    builder of a key are those of the tuples with that key that are no noise
    tuples, so a tuple whose namespace, pod and container are all empty adds
    a line to no builder, and the builder of the empty key is never written
    to. *)
Theorem C9_noise_rows_raw_but_not_stitched (L : GoLib) (cfg : Config) (safe : string)
  (w : Window) (tab : Table) (p : Progress) :
  StitchLogs cfg = true ->
  wfTable tab ->
  Rows tab <> [] ->
  exists colNames objs p',
    columnNames (Columns tab) = Done colNames
    /\ exportRows L cfg "ContainerLogV2" safe w tab p = Done p'
    /\ tarw (state p')
       = tarw (state p)
         ++ [mkEntry ["tables"; safe; partName L (chunkIndex p) w.1 w.2] (PartNDJSON objs)]
    /\ Forall2 (fun row obj => rowObject colNames row = Done obj) (Rows tab) objs
    /\ (collectsV2 cfg "ContainerLogV2" (lookupIndices colNames) = true ->
        forall k,
          linesOf (stitchedLogs (state p')) k
          = linesOf (stitchedLogs (state p)) k
            ++ map (v2Line L)
                 (filter (stitchedFor k)
                    (sortSlice L v2row (v2Less L)
                       (map (v2Of L (lookupIndices colNames)) (Rows tab)))))
    /\ (forall r k, isNoise r = true -> ~ stitchedFor k r)
    /\ stitchedLogs (state p') !! mkCkey "" "" "" = stitchedLogs (state p) !! mkCkey "" "" "".
Proof.
  intros Hstitch Hwf Hrows.
  destruct (exportRows_ok L cfg "ContainerLogV2" safe w tab p Hwf)
    as (colNames & objs & Hnames & Hobjs & Hexp).
  assert (Hpos : (0 <? Z.of_nat (length (Rows tab)))%Z = true).
  { apply Z.ltb_lt. destruct (Rows tab); [congruence | cbn; lia]. }
  rewrite Hpos in Hexp.
  eexists colNames, objs, _. split; [exact Hnames|]. split; [exact Hexp|].
  cbn [state tarw stitchedLogs]. split; [reflexivity|]. split; [exact Hobjs|].
  split; [|split].
  - intros Hcollect k. rewrite Hcollect. unfold stitchV2. rewrite Hstitch.
    cbn [andb]. change (("ContainerLogV2" =? "ContainerLogV2")%string) with true.
    cbn [andb]. rewrite length_map.
    destruct (Rows tab) as [|row rows] eqn:E; [congruence|].
    cbn [length Nat.ltb Nat.leb]. apply appendV2_lines.
  - intros r k Hnoise [_ H]. congruence.
  - unfold stitchV2. destruct (_ && _); [apply appendV2_noise_key | reflexivity].
Qed.

(** A chunk of two rows, one of them without namespace, pod and container:
    two objects in the part, one line in one builder. *)
Lemma C9_witness_noisy_chunk :
  let cfg := mkConfig "" "30m" "" "" "" false true false false "" in
  let p := mkProgress (mkState [] ∅ ∅ 1) 0 0 in
  exists colNames objs p',
    columnNames (Columns noisyTable) = Done colNames
    /\ exportRows RefLib.refLib cfg "ContainerLogV2" "ContainerLogV2" (0, 1)%Z noisyTable p
       = Done p'
    /\ tarw (state p')
       = [mkEntry ["tables"; "ContainerLogV2";
                   partName RefLib.refLib 0 0 1] (PartNDJSON objs)]
    /\ length objs = 2%nat
    /\ linesOf (stitchedLogs (state p')) (mkCkey "kube-system" "coredns-1" "coredns")
       = ["2023-01-01T11:50:01Z [stdout] ready" ++ newline]%string
    /\ stitchedLogs (state p') !! mkCkey "" "" "" = None.
Proof.
  intros cfg p.
  destruct (C9_noise_rows_raw_but_not_stitched RefLib.refLib cfg "ContainerLogV2" (0, 1)%Z
              noisyTable p eq_refl
              ltac:(split; repeat constructor; eauto) ltac:(discriminate))
    as (colNames & objs & p' & Hn & Hexp & Htar & Hobjs & Hlines & _ & Hnoise).
  exists colNames, objs, p'.
  split; [exact Hn|]. split; [exact Hexp|]. split; [exact Htar|].
  split; [symmetry; exact (Forall2_length _ _ _ Hobjs)|].
  injection Hn as <-.
  split; [|exact Hnoise].
  rewrite (Hlines eq_refl). reflexivity.
Defined.

(** ** The order of a stitched log *)

Module StitchFacts.
Import Utf8 GoStrings GoTime Utils MustGather Exporter ExporterSpec ExporterFacts StitchSpec.
Local Open Scope list_scope.

(** *** The byte-wise order of strings *)

Lemma ltb_leb a b : String.ltb a b = negb (String.leb b a).
Proof.
  unfold String.ltb, String.leb. rewrite (String.compare_antisym a b).
  destruct (b ?= a)%string; reflexivity.
Qed.

Lemma ltb_irrefl a : String.ltb a a = false.
Proof.
  unfold String.ltb. pose proof (String.compare_antisym a a) as H.
  destruct (a ?= a)%string; try reflexivity; discriminate.
Qed.

Lemma leb_trans a b c : String.leb a b = true -> String.leb b c = true -> String.leb a c = true.
Proof.
  intros Hab Hbc. apply Is_true_true.
  apply Is_true_true in Hab, Hbc.
  exact (@transitivity _ String.le _ a b c Hab Hbc).
Qed.

Lemma leb_total a b : String.leb a b = true \/ String.leb b a = true.
Proof.
  destruct (String.le_total a b) as [H|H]; [left | right]; apply Is_true_true, H.
Qed.

Lemma ltb_negtrans a b c :
  String.ltb a b = false -> String.ltb b c = false -> String.ltb a c = false.
Proof.
  rewrite !ltb_leb, !negb_false_iff. intros Hba Hcb. exact (leb_trans c b a Hcb Hba).
Qed.

Lemma ltb_trans a b c :
  String.ltb a b = true -> String.ltb b c = true -> String.ltb a c = true.
Proof.
  rewrite !ltb_leb, !negb_true_iff. intros Hba Hcb.
  destruct (String.leb c a) eqn:Hca; [|reflexivity].
  destruct (leb_total a b) as [Hab|Hab]; [|congruence].
  rewrite (leb_trans c a b Hca Hab) in Hcb. discriminate.
Qed.

(** *** The comparison of the stitcher on uniform time stamps *)

Lemma v2Less_contract L rows : uniformStamps L rows -> lessContract (v2Less L) rows.
Proof.
  intros [Hall | Hnone].
  - assert (Hless : forall a b, a ∈ rows -> b ∈ rows ->
              v2Less L a b = Before (ParseTimeRFC3339 L (tm a)) (ParseTimeRFC3339 L (tm b))).
    { intros a b Ha Hb. rewrite Forall_forall in Hall.
      pose proof (Hall a Ha) as Sa. pose proof (Hall b Hb) as Sb.
      unfold stamped in Sa, Sb. apply negb_true_iff in Sa, Sb.
      unfold v2Less, tmLess. now rewrite Sa, Sb. }
    unfold Before in Hless. repeat split.
    + intros a Ha. rewrite Hless by assumption. apply Z.ltb_irrefl.
    + intros a b c Ha Hb Hc. rewrite !Hless by assumption.
      rewrite !Z.ltb_lt. lia.
    + intros a b c Ha Hb Hc. rewrite !Hless by assumption.
      rewrite !Z.ltb_ge. lia.
  - assert (Hless : forall a b, a ∈ rows -> v2Less L a b = String.ltb (tm a) (tm b)).
    { intros a b Ha. rewrite Forall_forall in Hnone.
      pose proof (Hnone a Ha) as Sa. unfold stamped in Sa. apply negb_false_iff in Sa.
      unfold v2Less, tmLess. now rewrite Sa. }
    repeat split.
    + intros a Ha. rewrite Hless by assumption. apply ltb_irrefl.
    + intros a b c Ha Hb Hc. rewrite !Hless by assumption. apply ltb_trans.
    + intros a b c Ha Hb Hc. rewrite !Hless by assumption. apply ltb_negtrans.
Qed.

Lemma StronglySorted_filter {A} (R : A -> A -> Prop) (P : A -> Prop)
  `{forall x, Decision (P x)} l :
  StronglySorted R l -> StronglySorted R (filter P l).
Proof.
  induction 1 as [|a l Hs IH Ha]; [constructor|].
  rewrite filter_cons. destruct (decide (P a)); [|exact IH].
  constructor; [exact IH|].
  rewrite Forall_forall in *. intros x [_ Hx]%list_elem_of_filter. now apply Ha.
Qed.

(** *** The builders after a sequence of chunks *)

Section Stitching.
Variable L : GoLib.
Variable cfg : Config.
Hypothesis stitching : StitchLogs cfg = true.
Hypothesis sorting : sortsCorrectly L.

Lemma stitchV2_lines w logs k :
  lessContract (v2Less L) w ->
  linesOf (stitchV2 L cfg "ContainerLogV2" w logs) k
  = linesOf logs k
    ++ map (v2Line L) (filter (stitchedFor k) (sortSlice L v2row (v2Less L) w)).
Proof.
  intros Hless. unfold stitchV2. rewrite stitching.
  change (("ContainerLogV2" =? "ContainerLogV2")%string) with true. cbn [andb].
  destruct w as [|r w].
  - cbn. destruct (sorting _ _ _ Hless) as [Hperm _].
    apply Permutation_nil_r in Hperm. rewrite Hperm, filter_nil. cbn.
    now rewrite app_nil_r.
  - cbn [length Nat.ltb Nat.leb]. apply appendV2_lines.
Qed.

Lemma stitchFold_sorted k : forall ws logs,
  uniformStamps L (concat ws) -> chronological L ws ->
  exists rs,
    linesOf (fold_left (fun logs w => stitchV2 L cfg "ContainerLogV2" w logs) ws logs) k
    = linesOf logs k ++ map (v2Line L) rs
    /\ rs ≡ₚ filter (stitchedFor k) (concat ws)
    /\ StronglySorted (notAfter L) rs.
Proof.
  induction ws as [|w ws IH]; intros logs Huni Hchron.
  - exists []. cbn. rewrite app_nil_r. repeat split; constructor.
  - cbn [concat] in Huni.
    assert (Hw : uniformStamps L w /\ uniformStamps L (concat ws)).
    { destruct Huni as [H|H]; apply Forall_app in H as [H1 H2]; split;
        ((left; assumption) || (right; assumption)). }
    destruct Hw as [Huw Huws].
    apply StronglySorted_inv in Hchron as [Hchron Hbefore].
    pose proof (v2Less_contract L w Huw) as Hless.
    destruct (sorting _ _ _ Hless) as [Hperm Hsorted].
    cbn [fold_left].
    destruct (IH (stitchV2 L cfg "ContainerLogV2" w logs) Huws Hchron)
      as (rs & Hlines & Hrs & Hsort).
    exists (filter (stitchedFor k) (sortSlice L v2row (v2Less L) w) ++ rs).
    split; [|split].
    + rewrite Hlines, (stitchV2_lines w logs k Hless), map_app. now rewrite <- app_assoc.
    + cbn [concat]. rewrite filter_app. apply Permutation_app; [|exact Hrs].
      now rewrite Hperm.
    + apply StronglySorted_app_2; [|now apply StronglySorted_filter | exact Hsort].
      intros a b Ha Hb.
      apply list_elem_of_filter in Ha as [_ Ha]. rewrite Hperm in Ha.
      rewrite Hrs in Hb. apply list_elem_of_filter in Hb as [_ Hb].
      assert (Hall : Forall (notAfter L a) (concat ws)).
      { apply Forall_concat. apply (Forall_impl _ _ _ Hbefore).
        intros w' Hww'. unfold windowBefore in Hww'.
        rewrite Forall_forall in Hww'. exact (Hww' a Ha). }
      rewrite Forall_forall in Hall. exact (Hall b Hb).
Qed.

End Stitching.

(** *** Insertion sort keeps the promise of [sort.Slice] *)

Section InsertionSort.
Context {A : Type} (less : A -> A -> bool) (l : list A).
Hypothesis contract : lessContract less l.

Let later (y z : A) : Prop := less y z = false.

Lemma less_asym a b : a ∈ l -> b ∈ l -> less a b = true -> less b a = false.
Proof.
  destruct contract as (Hirr & Htrans & _). intros Ha Hb Hab.
  destruct (less b a) eqn:Hba; [|reflexivity].
  rewrite <- (Hirr a Ha). symmetry. exact (Htrans a b a Ha Hb Ha Hab Hba).
Qed.

Lemma insertLeftward_perm x rp : RefLib.insertLeftward less x rp ≡ₚ x :: rp.
Proof.
  induction rp as [|y rp IH]; cbn; [reflexivity|].
  destruct (less x y); [|reflexivity].
  rewrite IH. apply perm_swap.
Qed.

Lemma insertLeftward_sorted x rp :
  x ∈ l -> Forall (fun y => y ∈ l) rp ->
  StronglySorted later rp -> StronglySorted later (RefLib.insertLeftward less x rp).
Proof.
  destruct contract as (_ & _ & Hneg).
  intros Hx Hin Hs. induction Hs as [|y rp Hs IH Hy]; cbn.
  - repeat constructor.
  - apply Forall_cons in Hin as [Hyl Hin].
    destruct (less x y) eqn:Hxy.
    + constructor; [now apply IH|].
      rewrite insertLeftward_perm. constructor; [|exact Hy].
      now apply less_asym.
    + constructor; [now constructor|].
      constructor; [exact Hxy|].
      rewrite Forall_forall in *. intros z Hz.
      exact (Hneg x y z Hx Hyl (Hin z Hz) Hxy (Hy z Hz)).
Qed.

Lemma insertion_fold l0 : forall rp,
  Forall (fun y => y ∈ l) l0 -> Forall (fun y => y ∈ l) rp ->
  StronglySorted later rp ->
  let out := fold_left (fun rprefix x => RefLib.insertLeftward less x rprefix) l0 rp in
  out ≡ₚ l0 ++ rp /\ StronglySorted later out.
Proof.
  induction l0 as [|x l0 IH]; intros rp Hl0 Hrp Hs; cbn [fold_left app].
  - split; [reflexivity | exact Hs].
  - apply Forall_cons in Hl0 as [Hx Hl0].
    destruct (IH (RefLib.insertLeftward less x rp) Hl0) as [Hperm Hsorted].
    + rewrite insertLeftward_perm. now constructor.
    + now apply insertLeftward_sorted.
    + split; [|exact Hsorted].
      rewrite Hperm, insertLeftward_perm. symmetry. apply Permutation_middle.
Qed.

Lemma StronglySorted_rev (R : A -> A -> Prop) (xs : list A) :
  StronglySorted R xs -> StronglySorted (flip R) (rev xs).
Proof.
  induction 1 as [|a xs Hs IH Ha]; cbn; [constructor|].
  apply StronglySorted_app_2; [|exact IH | repeat constructor].
  intros x y Hx Hy. apply list_elem_of_singleton in Hy. subst y.
  apply list_elem_of_In, in_rev, list_elem_of_In in Hx.
  rewrite Forall_forall in Ha. exact (Ha x Hx).
Qed.

Lemma insertionSort_correct :
  RefLib.insertionSort less l ≡ₚ l
  /\ StronglySorted (fun a b => less b a = false) (RefLib.insertionSort less l).
Proof.
  unfold RefLib.insertionSort.
  destruct (insertion_fold l [] ltac:(now apply Forall_forall) ltac:(constructor)
              ltac:(constructor)) as [Hperm Hsorted].
  split.
  - rewrite <- Permutation_rev. rewrite Hperm. now rewrite app_nil_r.
  - exact (StronglySorted_rev _ _ Hsorted).
Qed.

End InsertionSort.

Lemma refLib_sortsCorrectly : sortsCorrectly RefLib.refLib.
Proof. intros A less l Hless. now apply insertionSort_correct. Qed.

End StitchFacts.

Import StitchSpec StitchFacts.

(** C1, as amended: let the chunks of ContainerLogV2 arrive in
    chronological order (no tuple of a later chunk is less than a tuple of an
    earlier one), the tuples within a chunk in any order, and let the time
    stamps of the tuples either all parse or all fail to parse.  Then the
    lines in the builder of every key are those of the tuples delivered with
    that key, and no line is less than a line before it, in the order of
    the parsed times when they parse and in the byte-wise order of the raw
    time stamps when they do not.  [sort.Slice] is assumed to do what Go
    documents. *)
Theorem C1_stitched_lines_in_order (L : GoLib) (cfg : Config)
  (ws : list (list v2row)) (k : ckey) :
  StitchLogs cfg = true ->
  sortsCorrectly L ->
  uniformStamps L (concat ws) ->
  chronological L ws ->
  exists rs,
    linesOf (stitchWindows L cfg ws) k = map (v2Line L) rs
    /\ rs ≡ₚ filter (stitchedFor k) (concat ws)
    /\ StronglySorted (notAfter L) rs.
Proof.
  intros Hstitch Hsort Huni Hchron.
  destruct (stitchFold_sorted L cfg Hstitch Hsort k ws ∅ Huni Hchron)
    as (rs & Hlines & Hperm & Hsorted).
  exists rs. split; [exact Hlines|]. split; assumption.
Qed.

(** Two chunks, the first one delivered out of order. *)
Lemma C1_witness_two_chunks :
  let ws := [[apiRow "2023-01-01T11:40:02.5Z" "second";
              dbRow "2023-01-01T11:40:01Z" "checkpoint";
              apiRow "2023-01-01T11:40:00Z" "first"];
             [apiRow "2023-01-01T11:50:00Z" "third"]] in
  let k := mkCkey "prod" "api-0" "api" in
  linesOf (stitchWindows RefLib.refLib stitchingConfig ws) k
  = ["2023-01-01T11:40:00Z [stdout] first" ++ newline;
     "2023-01-01T11:40:02.5Z [stdout] second" ++ newline;
     "2023-01-01T11:50:00Z [stdout] third" ++ newline]%string
  /\ exists rs,
       linesOf (stitchWindows RefLib.refLib stitchingConfig ws) k
       = map (v2Line RefLib.refLib) rs
       /\ rs ≡ₚ filter (stitchedFor k) (concat ws)
       /\ StronglySorted (notAfter RefLib.refLib) rs.
Proof.
  intros ws k. split; [vm_compute; reflexivity|].
  apply (C1_stitched_lines_in_order RefLib.refLib stitchingConfig ws k).
  - reflexivity.
  - exact refLib_sortsCorrectly.
  - left. apply (bool_decide_unpack _). vm_compute. exact I.
  - apply (bool_decide_unpack _). vm_compute. exact I.
Defined.

(** C1 fails as stated when parsed and unparsed time stamps meet in one
    chunk.  The first two time stamps parse, and the first time is before
    the second; the third does not parse, and as a string it lies after the
    second and before the first.  Delivered in the order c, b, a, the three
    tuples are written in the order b, c, a: the line of 10:00:00.5 stands
    before the line of 10:00:00.  And whatever order the three lines are
    written in, one of them is less than a line before it. *)
Lemma C1_counterexample_mixed_stamps :
  let a := apiRow "2023-01-01T10:00:00Z" "a" in
  let b := apiRow "2023-01-01T10:00:00.5Z" "b" in
  let c := apiRow "2023-01-01T10:00:00X" "c" in
  let ws := [[c; b; a]] in
  let k := mkCkey "prod" "api-0" "api" in
  StitchLogs stitchingConfig = true
  /\ sortsCorrectly RefLib.refLib
  /\ chronological RefLib.refLib ws
  /\ linesOf (stitchWindows RefLib.refLib stitchingConfig ws) k
     = map (v2Line RefLib.refLib) [b; c; a]
  /\ v2Less RefLib.refLib a b = true
  /\ ~ (exists rs,
          linesOf (stitchWindows RefLib.refLib stitchingConfig ws) k
          = map (v2Line RefLib.refLib) rs
          /\ rs ≡ₚ filter (stitchedFor k) (concat ws)
          /\ StronglySorted (notAfter RefLib.refLib) rs).
Proof.
  intros a b c ws k.
  split; [reflexivity|]. split; [exact refLib_sortsCorrectly|].
  split; [apply (bool_decide_unpack _); vm_compute; exact I|].
  split; [vm_compute; reflexivity|]. split; [vm_compute; reflexivity|].
  intros (rs & _ & Hperm & Hsorted).
  assert (Hnone : Forall (fun rs => ~ StronglySorted (notAfter RefLib.refLib) rs)
                         (permutations (filter (stitchedFor k) (concat ws))))
    by (apply (bool_decide_unpack _); vm_compute; exact I).
  rewrite Forall_forall in Hnone.
  apply (Hnone rs); [|exact Hsorted].
  apply permutations_Permutation. symmetry. exact Hperm.
Qed.

(* ================================================================== *)
(** * Further properties *)
(* ================================================================== *)

(** ** Resource identifiers *)

Module ResourceFacts.
Import Utf8 GoStrings ResourceID StringSpec ResourceSpec StringFacts DurationFacts.
Local Open Scope list_scope.

Lemma ToLower_ascii lowerRune s :
  allChars isASCII s = true -> ToLower lowerRune s = mapChars lowerByte s.
Proof.
  unfold ToLower. induction s as [|c s IH]; cbn [allChars mapLowerFrom mapChars]; [reflexivity|].
  intros [Hc Hs]%andb_prop. rewrite Hc, (IH Hs). reflexivity.
Qed.

Lemma segmentByte_facts c :
  segmentByte c = true -> plain c = true /\ isASCII c = true /\ (c =? "/")%char = false.
Proof. by_byte c; vm_compute; intuition congruence. Qed.

Lemma segment_plain s : allChars segmentByte s = true -> allChars plain s = true.
Proof. apply allChars_impl. intros c Hc. apply (segmentByte_facts c Hc). Qed.

Lemma segment_ascii s : allChars segmentByte s = true -> allChars isASCII s = true.
Proof. apply allChars_impl. intros c Hc. apply (segmentByte_facts c Hc). Qed.

Lemma segment_slashFree s :
  allChars segmentByte s = true -> allChars (fun c => negb (c =? "/")%char) s = true.
Proof.
  apply allChars_impl. intros c Hc. destruct (segmentByte_facts c Hc) as (_ & _ & ->). reflexivity.
Qed.

(** *** [strings.Split] *)

Lemma Split_cons sep s : exists f fs, Split sep s = f :: fs.
Proof.
  induction s as [|c s (f & fs & IH)]; cbn [Split]; [eauto|].
  destruct (c =? sep)%char; [eauto|]. rewrite IH. eauto.
Qed.

Lemma Split_one sep s :
  allChars (fun c => negb (c =? sep)%char) s = true -> Split sep s = [s].
Proof.
  induction s as [|c s IH]; cbn [allChars Split]; [reflexivity|].
  intros [Hc Hs]%andb_prop. apply negb_true_iff in Hc. rewrite Hc, (IH Hs). reflexivity.
Qed.

Lemma Split_app sep s t :
  allChars (fun c => negb (c =? sep)%char) s = true ->
  Split sep (s ++ String sep t) = s :: Split sep t.
Proof.
  induction s as [|c s IH]; app_step; cbn [allChars Split].
  - intros _. now rewrite Ascii.eqb_refl.
  - intros [Hc Hs]%andb_prop. apply negb_true_iff in Hc. rewrite Hc, (IH Hs). reflexivity.
Qed.

(** No field holds the separator. *)
Lemma Split_fields sep s :
  Forall (fun f => allChars (fun c => negb (c =? sep)%char) f = true) (Split sep s).
Proof.
  induction s as [|c s IH]; cbn [Split]; [repeat constructor|].
  destruct (c =? sep)%char eqn:Hc; [constructor; [reflexivity | exact IH]|].
  destruct (Split sep s) as [|f fs]; [repeat constructor; cbn; now rewrite Hc|].
  inversion IH as [|? ? Hf Hfs]; subst. constructor; [|exact Hfs].
  cbn [allChars]. now rewrite Hc, Hf.
Qed.

(** *** The scan *)

Section Scan.
Variable lowerRune : string -> string.

Lemma scanParts_step p q rest acc :
  scanParts lowerRune (p :: q :: rest) acc
  = scanParts lowerRune (q :: rest) (store (ToLower lowerRune p) q acc).
Proof. reflexivity. Qed.

Lemma store_other key q acc : keyword key = false -> store key q acc = acc.
Proof.
  unfold keyword, store. intros [[-> ->]%orb_false_elim ->]%orb_false_elim. reflexivity.
Qed.

(** One component of the result: what the scan found after the last field
    spelling its key, or what it started with. *)
Lemma scanParts_afterLast (get : Parts -> string) key :
  (forall k q acc, get (store k q acc) = if (k =? key)%string then q else get acc) ->
  forall parts acc,
    (get (scanParts lowerRune parts acc) = get acc
     /\ forall i k, parts !! i = Some k -> (S i < length parts)%nat ->
                    ToLower lowerRune k <> key)
    \/ afterLast lowerRune key (get (scanParts lowerRune parts acc)) parts.
Proof.
  intros Hget parts. induction parts as [|p parts IH]; intros acc.
  { left. split; [reflexivity|]. intros i k Hi. now rewrite lookup_nil in Hi. }
  destruct parts as [|q rest].
  { left. split; [reflexivity|]. intros i k _ Hlen. cbn in Hlen. lia. }
  rewrite scanParts_step.
  destruct (IH (store (ToLower lowerRune p) q acc)) as [[Heq Hno] | (i & k & Hi & Hk & Hv & Hlast)].
  - rewrite Heq, Hget. destruct (ToLower lowerRune p =? key)%string eqn:Hp.
    + right. exists 0%nat, p. apply String.eqb_eq in Hp.
      repeat split; [exact Hp|].
      intros [|j] k' Hj Hlen Hk'; [lia|]. apply (Hno j k' Hk'). cbn in Hlen |- *. lia.
    + left. split; [reflexivity|]. apply String.eqb_neq in Hp.
      intros [|j] k' Hk' Hlen.
      * cbn in Hk'. now injection Hk' as <-.
      * apply (Hno j k' Hk'). cbn in Hlen |- *. lia.
  - right. exists (S i), k. repeat split; [exact Hi | exact Hk | exact Hv|].
    intros [|j] k' Hj Hlen Hk'; [lia|]. apply (Hlast j k'); [lia | cbn in Hlen |- *; lia | exact Hk'].
Qed.

Lemma store_subscriptions q acc :
  store "subscriptions" q acc = mkParts q (rg acc) (workspace acc).
Proof. reflexivity. Qed.

Lemma store_resourcegroups q acc :
  store "resourcegroups" q acc = mkParts (sub acc) q (workspace acc).
Proof. reflexivity. Qed.

Lemma store_workspaces q acc :
  store "workspaces" q acc = mkParts (sub acc) (rg acc) q.
Proof. reflexivity. Qed.

Lemma store_sub k q acc :
  sub (store k q acc) = if (k =? "subscriptions")%string then q else sub acc.
Proof.
  unfold store. destruct (k =? "subscriptions")%string; [reflexivity|].
  destruct (k =? "resourcegroups")%string; [reflexivity|].
  destruct (k =? "workspaces")%string; reflexivity.
Qed.

Lemma store_rg k q acc :
  rg (store k q acc) = if (k =? "resourcegroups")%string then q else rg acc.
Proof.
  unfold store. destruct (k =? "subscriptions")%string eqn:H1.
  - apply String.eqb_eq in H1. subst k. reflexivity.
  - destruct (k =? "resourcegroups")%string; [reflexivity|].
    destruct (k =? "workspaces")%string; reflexivity.
Qed.

Lemma store_workspace k q acc :
  workspace (store k q acc) = if (k =? "workspaces")%string then q else workspace acc.
Proof.
  unfold store. destruct (k =? "subscriptions")%string eqn:H1.
  - apply String.eqb_eq in H1. subst k. reflexivity.
  - destruct (k =? "resourcegroups")%string eqn:H2.
    + apply String.eqb_eq in H2. subst k. reflexivity.
    + destruct (k =? "workspaces")%string; reflexivity.
Qed.

(** What a successful parse went through. *)
Lemma ParseResourceID_Ok id r :
  ParseResourceID lowerRune id = Ok r ->
  TrimSpace id <> EmptyString
  /\ (9 <= length (Split "/" (TrimSpace id)))%nat
  /\ r = scanParts lowerRune (Split "/" (TrimSpace id)) (mkParts "" "" "")
  /\ sub r <> EmptyString /\ rg r <> EmptyString /\ workspace r <> EmptyString.
Proof.
  unfold ParseResourceID.
  destruct (TrimSpace id) as [|c t] eqn:Htrim; [discriminate|]. cbn [isEmpty].
  destruct (length (Split "/" (String c t)) <? 9)%nat eqn:Hlen; [discriminate|].
  apply Nat.ltb_ge in Hlen.
  destruct (scanParts lowerRune (Split "/" (String c t)) (mkParts "" "" "")) as [s g w] eqn:Hscan.
  cbn [sub rg workspace].
  destruct s, g, w; cbn [isEmpty orb]; try discriminate.
  intros [= <-]. cbn [sub rg workspace]. repeat split; try exact Hlen; discriminate.
Qed.

End Scan.
End ResourceFacts.

Import Utf8 GoStrings ResourceID StringSpec ResourceSpec StringFacts DurationFacts ResourceFacts.

(** X1: a workspace resource ID
    [/subscriptions/<sub>/resourceGroups/<rg>/providers/<namespace>/workspaces/<name>],
    its three keys spelled in any mix of upper and lower case, is split into
    [<sub>], [<rg>] and [<name>], provided the segments are non-empty, hold
    ASCII bytes other than white space and the slash, and none of [<sub>],
    [<rg>] and [<namespace>] spells a key itself. *)
Theorem X1_ParseResourceID_accepts (lowerRune : string -> string)
  (k1 subscription k2 group namespace k3 name : string) :
  spells k1 "subscriptions" = true ->
  spells k2 "resourcegroups" = true ->
  spells k3 "workspaces" = true ->
  value subscription = true -> value group = true -> value namespace = true ->
  segment name = true ->
  ParseResourceID lowerRune (resourceID k1 subscription k2 group namespace k3 name)
  = Ok (mkParts subscription group name).
Proof.
  unfold spells, value, segment.
  intros [Hk1 E1%String.eqb_eq]%andb_prop [Hk2 E2%String.eqb_eq]%andb_prop
         [Hk3 E3%String.eqb_eq]%andb_prop
         [[Hs0 Hs]%andb_prop Ks%negb_true_iff]%andb_prop
         [[Hg0 Hg]%andb_prop Kg%negb_true_iff]%andb_prop
         [[Hn0 Hn]%andb_prop Kn%negb_true_iff]%andb_prop [Hw0 Hw]%andb_prop.
  set (id := resourceID k1 subscription k2 group namespace k3 name).
  assert (Hshape : id = (EmptyString ++ String "/" (k1 ++ String "/" (subscription ++ String "/"
            (k2 ++ String "/" (group ++ String "/" ("providers" ++ String "/" (namespace
            ++ String "/" (k3 ++ String "/" name))))))))%string) by reflexivity.
  assert (Hplain : allChars plain id = true).
  { unfold id, resourceID. rewrite !allChars_app.
    rewrite (segment_plain _ Hk1), (segment_plain _ Hs), (segment_plain _ Hk2),
      (segment_plain _ Hg), (segment_plain _ Hn), (segment_plain _ Hk3), (segment_plain _ Hw).
    reflexivity. }
  unfold ParseResourceID. rewrite (TrimSpace_plain id Hplain).
  rewrite Hshape at 1. cbn [isEmpty].
  rewrite Hshape.
  rewrite (Split_app "/" EmptyString) by reflexivity.
  rewrite (Split_app "/" k1) by now apply segment_slashFree.
  rewrite (Split_app "/" subscription) by now apply segment_slashFree.
  rewrite (Split_app "/" k2) by now apply segment_slashFree.
  rewrite (Split_app "/" group) by now apply segment_slashFree.
  rewrite (Split_app "/" "providers") by reflexivity.
  rewrite (Split_app "/" namespace) by now apply segment_slashFree.
  rewrite (Split_app "/" k3) by now apply segment_slashFree.
  rewrite (Split_one "/" name) by now apply segment_slashFree.
  cbn [length Nat.ltb Nat.leb].
  rewrite !scanParts_step. cbn [scanParts].
  rewrite (ToLower_ascii lowerRune EmptyString), (store_other EmptyString) by reflexivity.
  rewrite (ToLower_ascii lowerRune k1), E1, store_subscriptions by now apply segment_ascii.
  rewrite (ToLower_ascii lowerRune subscription), (store_other _ _ _ Ks) by now apply segment_ascii.
  rewrite (ToLower_ascii lowerRune k2), E2, store_resourcegroups by now apply segment_ascii.
  rewrite (ToLower_ascii lowerRune group), (store_other _ _ _ Kg) by now apply segment_ascii.
  rewrite (ToLower_ascii lowerRune "providers"), (store_other (mapChars lowerByte "providers"))
    by reflexivity.
  rewrite (ToLower_ascii lowerRune namespace), (store_other _ _ _ Kn) by now apply segment_ascii.
  rewrite (ToLower_ascii lowerRune k3), E3, store_workspaces by now apply segment_ascii.
  cbn [sub rg workspace].
  destruct subscription; [discriminate|]. destruct group; [discriminate|].
  destruct name; [discriminate|]. reflexivity.
Qed.

(** The resource ID of the tests, and one with its keys in lower case. *)
Lemma X1_witness_lower_case_keys :
  ParseResourceID (fun rune => rune)
    (resourceID "subscriptions" "12345678-1234-1234-1234-123456789012" "resourcegroups" "myRG"
                "Microsoft.OperationalInsights" "Workspaces" "myWorkspace")
  = Ok (mkParts "12345678-1234-1234-1234-123456789012" "myRG" "myWorkspace").
Proof.
  apply (X1_ParseResourceID_accepts (fun rune => rune)); reflexivity.
Defined.

(** X2: whenever [ParseResourceID] succeeds, the identifier has at least
    nine fields between slashes once trimmed, and each of the three results
    is non-empty, holds no slash, and is the field that follows the last
    field (the final one apart) spelling subscriptions, resourcegroups,
    respectively workspaces, in whatever case. *)
Theorem X2_ParseResourceID_sound (lowerRune : string -> string) (id : string) (r : Parts) :
  ParseResourceID lowerRune id = Ok r ->
  let parts := Split "/" (TrimSpace id) in
  (9 <= length parts)%nat
  /\ afterLast lowerRune "subscriptions" (sub r) parts
  /\ afterLast lowerRune "resourcegroups" (rg r) parts
  /\ afterLast lowerRune "workspaces" (workspace r) parts
  /\ Forall (fun v => v <> EmptyString /\ allChars (fun c => negb (c =? "/")%char) v = true)
            [sub r; rg r; workspace r].
Proof.
  intros (_ & Hlen & Hr & Hs & Hg & Hw)%ParseResourceID_Ok parts.
  fold parts in Hlen, Hr.
  assert (Hfound : forall get key,
             (forall k q acc, get (store k q acc) = if (k =? key)%string then q else get acc) ->
             get (mkParts "" "" "") = EmptyString -> get r <> EmptyString ->
             afterLast lowerRune key (get r) parts).
  { intros get key Hget Hinit Hne.
    destruct (scanParts_afterLast lowerRune get key Hget parts (mkParts "" "" ""))
      as [[Heq _] | Hafter]; rewrite <- Hr in *; [congruence | exact Hafter]. }
  assert (Hs' := Hfound sub _ store_sub eq_refl Hs).
  assert (Hg' := Hfound rg _ store_rg eq_refl Hg).
  assert (Hw' := Hfound workspace _ store_workspace eq_refl Hw).
  assert (Hfield : forall key v, afterLast lowerRune key v parts ->
                     allChars (fun c => negb (c =? "/")%char) v = true).
  { intros key v (i & k & _ & _ & Hv & _).
    pose proof (Split_fields "/" (TrimSpace id)) as Hall.
    rewrite Forall_forall in Hall. apply Hall.
    eapply list_elem_of_lookup_2. exact Hv. }
  repeat split; try assumption.
  repeat constructor; eauto.
Qed.

(** The resource ID of the tests, with white space around it. *)
Lemma X2_witness_resource_group :
  let parts := Split "/" (TrimSpace "  /subscriptions/12345678-1234-1234-1234-123456789012/resourceGroups/myRG/providers/Microsoft.OperationalInsights/workspaces/myWorkspace  ") in
  (9 <= length parts)%nat
  /\ afterLast (fun rune => rune) "subscriptions" "12345678-1234-1234-1234-123456789012" parts
  /\ afterLast (fun rune => rune) "resourcegroups" "myRG" parts
  /\ afterLast (fun rune => rune) "workspaces" "myWorkspace" parts
  /\ Forall (fun v => v <> EmptyString /\ allChars (fun c => negb (c =? "/")%char) v = true)
            ["12345678-1234-1234-1234-123456789012"; "myRG"; "myWorkspace"].
Proof.
  exact (X2_ParseResourceID_sound (fun rune => rune)
           "  /subscriptions/12345678-1234-1234-1234-123456789012/resourceGroups/myRG/providers/Microsoft.OperationalInsights/workspaces/myWorkspace  "
           (mkParts "12345678-1234-1234-1234-123456789012" "myRG" "myWorkspace") eq_refl).
Defined.

(** ** The substring test of the test suite *)

Module ContainsFacts.
Import TestHelpers.
Local Open Scope string_scope.
Local Open Scope nat_scope.

Lemma append_cons c (s t : string) : (String c s ++ t = String c (s ++ t))%string.
Proof. reflexivity. Qed.

Lemma append_nil_l (t : string) : (EmptyString ++ t = t)%string.
Proof. reflexivity. Qed.

Lemma append_nil_r (t : string) : (t ++ EmptyString = t)%string.
Proof. induction t as [|c t IH]; [reflexivity|]. now rewrite append_cons, IH. Qed.

Lemma length_concat (s t : string) :
  String.length (s ++ t) = String.length s + String.length t.
Proof. induction s as [|c s IH]; [reflexivity|]. rewrite append_cons. cbn. now rewrite IH. Qed.

(** The bytes at the front of [s]. *)
Lemma substring_prefix t : forall s,
  String.substring 0 (String.length t) s = t -> exists b, s = (t ++ b)%string.
Proof.
  induction t as [|c t IH]; intros s; cbn [String.length].
  - intros _. exists s. reflexivity.
  - destruct s as [|d s]; cbn [String.substring]; [discriminate|].
    intros [= -> H]. destruct (IH s H) as [b ->]. exists b. reflexivity.
Qed.

Lemma substring_split i : forall s t,
  String.substring i (String.length t) s = t -> exists a b, s = (a ++ t ++ b)%string.
Proof.
  induction i as [|i IH]; intros s t H.
  - destruct (substring_prefix t s H) as [b ->]. exists EmptyString, b. reflexivity.
  - destruct s as [|c s].
    + destruct t; cbn in H; [|discriminate]. exists EmptyString, EmptyString. reflexivity.
    + cbn [String.substring] in H. destruct (IH s t H) as (a & b & ->).
      exists (String c a), b. reflexivity.
Qed.

Lemma substring_at a : forall t b,
  String.substring (String.length a) (String.length t) (a ++ t ++ b) = t.
Proof.
  induction a as [|c a IH]; intros t b.
  - rewrite append_nil_l. cbn [String.length]. revert b.
    induction t as [|d t IHt]; intros b; cbn [String.length].
    + destruct b; reflexivity.
    + rewrite append_cons. cbn [String.substring]. now rewrite IHt.
  - rewrite append_cons. cbn [String.length String.substring]. apply IH.
Qed.

(** The loop finds a position iff there is one among those it tries. *)
Lemma containsFrom_spec s t : forall n i,
  containsFrom n i s t = true
  <-> exists j, i <= j < i + n /\ String.substring j (String.length t) s = t.
Proof.
  induction n as [|n IH]; intros i; cbn [containsFrom].
  - split; [discriminate | intros (j & Hj & _); lia].
  - destruct (String.substring i (String.length t) s =? t)%string eqn:E.
    + apply String.eqb_eq in E. split; [|reflexivity]. intros _. exists i. split; [lia | exact E].
    + apply String.eqb_neq in E. rewrite IH. split.
      * intros (j & Hj & H). exists j. split; [lia | exact H].
      * intros (j & Hj & H). exists j. split; [|exact H].
        destruct (Nat.eq_dec j i) as [-> | Hne]; [contradiction | lia].
Qed.

End ContainsFacts.

Import TestHelpers ContainsFacts.

(** X3: [stringContains s substr] holds exactly when [substr] occurs in
    [s], that is when [s] is [substr] with some bytes before and some bytes
    after it; the empty string occurs in every string. *)
Theorem X3_stringContains_correct (s substr : string) :
  stringContains s substr = true <-> exists a b, s = (a ++ substr ++ b)%string.
Proof.
  unfold stringContains.
  destruct (String.length substr =? 0)%nat eqn:E0.
  { apply Nat.eqb_eq in E0. destruct substr; [|discriminate].
    split; [|reflexivity]. intros _. exists EmptyString, s. reflexivity. }
  apply Nat.eqb_neq in E0.
  destruct (String.length s <? String.length substr)%nat eqn:Elt.
  { apply Nat.ltb_lt in Elt. split; [discriminate|].
    intros (a & b & ->). rewrite !length_concat in Elt. lia. }
  apply Nat.ltb_ge in Elt. rewrite containsFrom_spec. split.
  - intros (j & _ & H). exact (substring_split j s substr H).
  - intros (a & b & ->). exists (String.length a). split.
    + rewrite !length_concat. lia.
    + apply substring_at.
Qed.

(** ** The resolution of the table list *)

Module ResolveFacts.
Import GoStrings MustGather ProfileSpec ResolveSpec ProfileFacts.
Local Open Scope list_scope.

(** *** First occurrences *)

Lemma filter_all {A} (P : A -> Prop) `{forall x, Decision (P x)} (l : list A) :
  (forall y, P y) -> filter P l = l.
Proof.
  intros HP. induction l as [|y l IH]; [reflexivity|].
  rewrite filter_cons. destruct (decide (P y)) as [_ | Hn]; [now rewrite IH|].
  destruct (Hn (HP y)).
Qed.

Lemma dedupe_cons x r : dedupe (x :: r) = x :: filter (fun y => y <> x) (dedupe r).
Proof.
  cbn [dedupe]. f_equal. induction (dedupe r) as [|y l IH]; [reflexivity|].
  cbn [List.filter]. rewrite filter_cons.
  destruct (String.eqb_spec y x) as [-> | Hne]; cbn [negb].
  - destruct (decide (x <> x)); [congruence | exact IH].
  - destruct (decide (y <> x)); [now rewrite IH | contradiction].
Qed.

Lemma elem_of_dedupe y l : y ∈ dedupe l <-> y ∈ l.
Proof.
  induction l as [|x r IH]; [reflexivity|].
  rewrite dedupe_cons, !elem_of_cons, list_elem_of_filter, IH.
  destruct (decide (y = x)); intuition congruence.
Qed.

Lemma dedupe_app a : forall b,
  dedupe (a ++ b) = dedupe a ++ filter (fun y => y ∉ a) (dedupe b).
Proof.
  induction a as [|x a IH]; intros b.
  - cbn [app dedupe]. symmetry. apply filter_all. intros y. apply not_elem_of_nil.
  - change ((x :: a) ++ b) with (x :: (a ++ b)).
    rewrite !dedupe_cons, IH, filter_app, list_filter_filter. cbn [app]. do 2 f_equal.
    apply list_filter_iff. intros y. rewrite not_elem_of_cons. tauto.
Qed.

Lemma elem_of_concat {A} (t : A) (ls : list (list A)) :
  t ∈ concat ls <-> exists l, l ∈ ls /\ t ∈ l.
Proof.
  induction ls as [|l ls IH]; cbn [concat].
  - split; [intros H; inversion H | intros (l & H & _); inversion H].
  - rewrite elem_of_app, IH. split.
    + intros [H | (l' & H & Ht)]; [exists l | exists l']; split; auto using list_elem_of_here, list_elem_of_further.
    + intros (l' & [-> | H]%elem_of_cons & Ht); [left | right]; eauto.
Qed.

(** *** The de-duplicating loops *)

(** What the loop over one list appends: the members that are new, once
    each, in the order in which they are first seen. *)
Lemma appendUnseen_fst lst : forall tables seen,
  tracked (tables, seen) ->
  (appendUnseen lst (tables, seen)).1
  = tables ++ filter (fun y => y ∉ tables) (dedupe lst).
Proof.
  induction lst as [|t lst IH]; intros tables seen Hacc.
  { cbn. now rewrite app_nil_r. }
  pose proof (appendUnseen_tracked [t] _ Hacc) as Hacc'.
  unfold appendUnseen in *. cbn [fold_left] in *.
  destruct Hacc as [Hnd Hseen]. cbn [fst snd] in Hnd, Hseen.
  rewrite dedupe_cons, filter_cons, list_filter_filter.
  destruct (decide (t ∈ seen)) as [Hin | Hnin].
  - rewrite (IH _ _ Hacc'). apply Hseen in Hin.
    destruct (decide (t ∉ tables)); [contradiction|]. f_equal.
    apply list_filter_iff. intros y. split; [|tauto].
    intros Hy. split; [exact Hy | congruence].
  - rewrite (IH _ _ Hacc').
    assert (Hnin' : t ∉ tables) by (now rewrite <- Hseen).
    destruct (decide (t ∉ tables)); [|contradiction].
    rewrite <- app_assoc. cbn [app]. do 2 f_equal.
    apply list_filter_iff. intros y. rewrite not_elem_of_app, list_elem_of_singleton. tauto.
Qed.

(** The loop over a sequence of lists. *)
Lemma appendAll_fst lsts : forall tables seen,
  tracked (tables, seen) ->
  (fold_left (fun acc lst => appendUnseen lst acc) lsts (tables, seen)).1
  = tables ++ filter (fun y => y ∉ tables) (dedupe (concat lsts)).
Proof.
  induction lsts as [|lst lsts IH]; intros tables seen Hacc.
  { cbn. now rewrite app_nil_r. }
  cbn [fold_left concat].
  pose proof (appendUnseen_tracked lst _ Hacc) as Hacc'.
  pose proof (appendUnseen_fst lst _ _ Hacc) as Hfst.
  destruct (appendUnseen lst (tables, seen)) as [tables' seen'].
  cbn [fst] in Hfst. rewrite (IH _ _ Hacc'), Hfst.
  rewrite dedupe_app, filter_app, list_filter_filter, <- app_assoc. do 2 f_equal.
  apply list_filter_iff. intros y.
  rewrite not_elem_of_app, list_elem_of_filter, elem_of_dedupe. tauto.
Qed.

(** *** The two comma-separated lists *)

Lemma explicitTables_fields tableFilter : explicitTables tableFilter = fields tableFilter.
Proof.
  unfold explicitTables, fields.
  assert (H : forall ps acc,
            fold_left (fun tables p =>
                         let p := TrimSpace p in
                         if negb (isEmpty p) then tables ++ [p] else tables) ps acc
            = acc ++ filter (fun p : string => p <> EmptyString) (map TrimSpace ps)).
  { induction ps as [|p ps IH]; intros acc; cbn [fold_left map].
    - now rewrite app_nil_r.
    - rewrite IH. destruct (TrimSpace p) as [|c r]; cbn [isEmpty negb].
      + rewrite filter_cons_False by (intros H; now apply H). reflexivity.
      + rewrite filter_cons_True by discriminate. now rewrite <- app_assoc. }
  apply (H _ []).
Qed.

Lemma unionProfiles_named profileMap profiles : forall tables seen,
  fold_left
    (fun '(tables, seen) p =>
       let p := TrimSpace p in
       if isEmpty p then (tables, seen)
       else match profileMap !! p with
            | Some lst => appendUnseen lst (tables, seen)
            | None => (tables, seen)
            end)
    (Split "," profiles) (tables, seen)
  = fold_left (fun acc lst => appendUnseen lst acc) (named profileMap profiles) (tables, seen).
Proof.
  unfold named, fields. induction (Split "," profiles) as [|p ps IH]; intros tables seen.
  { reflexivity. }
  cbn [fold_left map].
  destruct (TrimSpace p) as [|c r] eqn:Hp; cbn [isEmpty].
  - rewrite filter_cons_False by (intros H; now apply H). apply IH.
  - rewrite filter_cons_True by discriminate.
    cbn [omap list_omap]. destruct (profileMap !! String c r) as [lst|].
    + cbn [fold_left]. destruct (appendUnseen lst (tables, seen)). apply IH.
    + apply IH.
Qed.

Lemma unionProfiles_dedupe profileMap profiles :
  unionProfiles profileMap profiles [] = dedupe (concat (named profileMap profiles)).
Proof.
  unfold unionProfiles. rewrite unionProfiles_named, (appendAll_fst _ _ _ tracked_empty).
  cbn [app]. apply filter_all. intros y. apply not_elem_of_nil.
Qed.

End ResolveFacts.

Import GoStrings MustGather ProfileSpec ResolveSpec ProfileFacts ResolveFacts.

(** The default of [resolveTables]. *)
Lemma resolveTables_default :
  (appendUnseen (default [] (GetDefaultProfiles !! "aks-debug")) ([], ∅)).1 = aksDebugTables.
Proof. vm_compute. reflexivity. Qed.

(** [resolveTables] by cases, on the explicit list and the union of the
    named profiles. *)
Lemma resolveTables_cases cfg catalog :
  resolveTables cfg catalog
  = let tables := if isEmpty (TableFilter cfg) then catalog else fields (TableFilter cfg) in
    match tables with
    | _ :: _ => tables
    | [] =>
        if AllTables cfg then []
        else match dedupe (concat (named GetDefaultProfiles (Profiles cfg))) with
             | [] => aksDebugTables
             | union => union
             end
    end.
Proof.
  unfold resolveTables. rewrite explicitTables_fields. cbn zeta.
  replace (if negb (isEmpty (TableFilter cfg)) then fields (TableFilter cfg) else catalog)
    with (if isEmpty (TableFilter cfg) then catalog else fields (TableFilter cfg))
    by (destruct (isEmpty (TableFilter cfg)); reflexivity).
  destruct (if isEmpty (TableFilter cfg) then catalog else fields (TableFilter cfg)) as [|t0 ts];
    [|reflexivity].
  cbn [length Nat.eqb andb]. destruct (AllTables cfg); cbn [negb andb].
  { rewrite !andb_false_r. reflexivity. }
  rewrite !andb_true_r.
  destruct (Profiles cfg) as [|c r] eqn:Hp; cbn [isEmpty negb].
  { cbn [length Nat.eqb]. rewrite resolveTables_default. reflexivity. }
  rewrite unionProfiles_dedupe.
  destruct (dedupe _) as [|u us]; cbn [length Nat.eqb];
    [rewrite resolveTables_default|]; reflexivity.
Qed.

(** X4: without an explicit table list, a catalog or the export-all flag,
    a profile list of which some field names a non-empty profile resolves to
    the tables of the named profiles, in the order of the fields, each table
    once, where it is first seen; fields are trimmed, and fields that are
    empty or name no profile are skipped. *)
Theorem X4_profiles_first_seen_union (cfg : Config) :
  TableFilter cfg = EmptyString -> AllTables cfg = false ->
  concat (named GetDefaultProfiles (Profiles cfg)) <> [] ->
  resolveTables cfg [] = dedupe (concat (named GetDefaultProfiles (Profiles cfg)))
  /\ NoDup (resolveTables cfg [])
  /\ forall t, t ∈ resolveTables cfg [] <->
               exists lst, lst ∈ named GetDefaultProfiles (Profiles cfg) /\ t ∈ lst.
Proof.
  intros Hf Hall Hne.
  assert (Hres : resolveTables cfg []
                 = dedupe (concat (named GetDefaultProfiles (Profiles cfg)))).
  { rewrite resolveTables_cases, Hf, Hall. cbn [isEmpty].
    destruct (concat _) as [|t ts]; [congruence|]. rewrite dedupe_cons. reflexivity. }
  split; [exact Hres|]. split.
  - rewrite Hres, <- unionProfiles_dedupe. apply unionProfiles_NoDup.
  - intros t. rewrite Hres, elem_of_dedupe. apply elem_of_concat.
Qed.

(** Metrics before podLogs, a typo skipped, metrics named twice. *)
Lemma X4_witness_metrics_then_logs :
  let cfg := mkConfig "" "" "" "" " metrics , podlogs, podLogs,,metrics" false false false false "" in
  resolveTables cfg [] = metricsTables ++ podLogsTables.
Proof.
  intros cfg.
  destruct (X4_profiles_first_seen_union cfg eq_refl eq_refl ltac:(vm_compute; discriminate))
    as [Hres _].
  rewrite Hres. vm_compute. reflexivity.
Defined.

(** X5: without the export-all flag the resolved list is never empty; when
    no explicit table, no catalog entry and no known profile is given (the
    profile list is empty, or each of its fields is empty or misspelled), it
    is the union of podLogs, inventory and metrics. *)
Theorem X5_never_empty_without_flag (cfg : Config) (catalog : list string) :
  AllTables cfg = false ->
  resolveTables cfg catalog <> []
  /\ (fields (TableFilter cfg) = [] ->
      (TableFilter cfg = EmptyString -> catalog = []) ->
      (forall p, p ∈ fields (Profiles cfg) -> GetDefaultProfiles !! p = None) ->
      resolveTables cfg catalog = aksDebugTables).
Proof.
  intros Hall. rewrite resolveTables_cases, Hall. cbn zeta. split.
  - destruct (if isEmpty (TableFilter cfg) then catalog else fields (TableFilter cfg));
      [|discriminate].
    destruct (dedupe _); discriminate.
  - intros Hfields Hcat Hunknown.
    assert (Hnamed : named GetDefaultProfiles (Profiles cfg) = []).
    { unfold named. induction (fields (Profiles cfg)) as [|p ps IH]; [reflexivity|].
      cbn [omap list_omap]. rewrite (Hunknown p) by apply list_elem_of_here.
      apply IH. intros q Hq. apply Hunknown. now apply list_elem_of_further. }
    rewrite Hnamed, Hfields. cbn [concat dedupe].
    destruct (TableFilter cfg); cbn [isEmpty]; [rewrite Hcat|]; reflexivity.
Qed.

(** A profile written in lower case names no profile: the default is
    exported. *)
Lemma X5_witness_misspelled_profile :
  let cfg := mkConfig "" "" "" "" "podlogs" false false false false "" in
  resolveTables cfg [] <> []
  /\ resolveTables cfg [] = aksDebugTables.
Proof.
  intros cfg. destruct (X5_never_empty_without_flag cfg [] eq_refl) as [Hne Hdef].
  split; [exact Hne|]. apply Hdef; [reflexivity | reflexivity |].
  intros p Hp. vm_compute in Hp. apply list_elem_of_singleton in Hp. subst p.
  vm_compute. reflexivity.
Defined.

(** X6: an explicit table list with at least one non-empty field is the
    resolved list, whatever the profiles, the flag and the catalog are: its
    fields, trimmed, in their order, duplicates kept.  A table list that is
    not empty but has no non-empty field, given with the export-all flag,
    resolves to no table at all: the catalog is dropped. *)
Theorem X6_explicit_list (cfg : Config) (catalog : list string) :
  (fields (TableFilter cfg) <> [] -> resolveTables cfg catalog = fields (TableFilter cfg))
  /\ (TableFilter cfg <> EmptyString -> fields (TableFilter cfg) = [] ->
      AllTables cfg = true -> resolveTables cfg catalog = []).
Proof.
  rewrite resolveTables_cases. cbn zeta. split.
  - intros Hne. destruct (TableFilter cfg) as [|c r]; [now destruct Hne|]. cbn [isEmpty].
    destruct (fields (String c r)); [congruence | reflexivity].
  - intros Hne Hnil Hall. destruct (TableFilter cfg) as [|c r]; [congruence|]. cbn [isEmpty].
    rewrite Hnil, Hall. reflexivity.
Qed.

(** A list with a repeated table, and a list of separators only. *)
Lemma X6_witness_repeated_and_blank :
  resolveTables (mkConfig "" "" "" " Perf ,Syslog,, Perf" "audit" true false false false "")
                ["AllTable1"]
  = ["Perf"; "Syslog"; "Perf"]
  /\ resolveTables (mkConfig "" "" "" " , " "" true false false false "") ["AllTable1"] = [].
Proof.
  split.
  - rewrite (proj1 (X6_explicit_list _ _)); [reflexivity | vm_compute; discriminate].
  - apply (proj2 (X6_explicit_list _ _)); [discriminate | reflexivity | reflexivity].
Defined.

(** ** Time spans *)

Module TimespanFacts.
Import Utf8 GoStrings GoTime GoFmt GoRegexp Utils MustGather Planner Exporter.
Import StringSpec PlannerSpec PlannerFacts StringFacts DurationFacts.
Local Open Scope Z_scope.

Lemma ParseDuration_min fr s d : ParseDuration fr s = Some d -> - 2 ^ 63 <= d.
Proof.
  unfold ParseDuration.
  destruct (match s with
            | String c r => if ((c =? "-") || (c =? "+"))%char then ((c =? "-")%char, r) else (false, s)
            | EmptyString => (false, s)
            end) as [neg s'].
  destruct (s' =? "0")%string; [intros [= <-]; lia|].
  destruct (isEmpty s'); [discriminate|].
  destruct (parseComponents fr (String.length s') 0 s') as [v|] eqn:Hv; [|discriminate].
  destruct neg.
  - intros [= <-]. apply wrap64_range.
  - destruct (maxInt64 <? v) eqn:Hmax; [discriminate|]. intros [= <-].
    assert (Hnn : forall fuel x t v', 0 <= x -> parseComponents fr fuel x t = Some v' -> 0 <= v').
    { induction fuel as [|fuel IH]; intros x t v' Hx; destruct t as [|c t]; cbn [parseComponents];
        try (intros [= <-]; exact Hx); try discriminate.
      destruct (negb _); [discriminate|].
      destruct (leadingInt 0 (String c t)) as [[n s1]|]; [|discriminate].
      destruct (fractionPart s1) as [[[f k] s2] post].
      destruct (negb _ && negb post); [discriminate|].
      destruct (unitSpan s2) as [u s3]. destruct (isEmpty u); [discriminate|].
      destruct (unitMap u) as [unit|]; [|discriminate].
      destruct (2 ^ 63 / unit <? n); [discriminate|].
      destruct ((0 <? f) && _); [discriminate|].
      destruct (2 ^ 63 <? _); [discriminate|].
      apply IH. apply Z.mod_pos_bound. lia. }
    apply Hnn in Hv; lia.
Qed.

Section Timespans.
Variable L : GoLib.

(** The seconds [ISO8601Duration] formats. *)
Lemma seconds_abs d :
  - 2 ^ 63 <= d <= maxInt64 ->
  d mod Second = 0 \/ roundsAway L d = false ->
  (let secs := SecondsInt64 (roundsAway L) d in
   if secs <? 0 then wrap64 (- secs) else secs) = Z.abs d / Second.
Proof.
  intros Hd Hexact. cbn zeta.
  assert (Hsec : SecondsInt64 (roundsAway L) d = Z.quot d Second).
  { unfold SecondsInt64. destruct (Z.eqb_spec (Z.rem d Second) 0) as [_|Hrem]; [reflexivity|].
    destruct Hexact as [Hmod | ->]; [|reflexivity].
    exfalso. apply Hrem. apply Z.rem_divide; [discriminate|].
    apply Z.mod_divide in Hmod; [exact Hmod | discriminate]. }
  rewrite Hsec. unfold maxInt64 in Hd.
  assert (HS : Second = 1000000000) by reflexivity.
  destruct (Z.le_gt_cases 0 d) as [Hpos | Hneg].
  - rewrite Z.quot_div_nonneg, Z.abs_eq by lia.
    assert (0 <= d / Second) by (apply Z.div_pos; lia).
    destruct (Z.ltb_spec (d / Second) 0); [lia | reflexivity].
  - assert (Hquot : Z.quot d Second = - (- d / Second)).
    { rewrite <- (Z.opp_involutive d) at 1. rewrite Z.quot_opp_l by lia.
      now rewrite Z.quot_div_nonneg by lia. }
    rewrite Hquot, Z.abs_neq by lia.
    assert (Hq : 0 <= - d / Second < 2 ^ 63).
    { split; [apply Z.div_pos; lia|]. apply Z.div_lt_upper_bound; lia. }
    set (q := - d / Second) in *.
    destruct (Z.ltb_spec (- q) 0) as [_ | Hz].
    + rewrite Z.opp_involutive. apply wrap64_small. lia.
    + lia.
Qed.

(** A Go duration is converted to the ISO form of its absolute value in
    whole seconds. *)
Lemma ISO8601Duration_abs src d :
  ParseDuration (fracNanos L) (TrimSpace src) = Some d ->
  d mod Second = 0 \/ roundsAway L d = false ->
  ISO8601Duration L src = Ok (formatISO (Z.abs d / Second)).
Proof.
  intros Hparse Hexact. unfold ISO8601Duration.
  destruct (ParseDuration_head _ _ _ Hparse) as (c & r & Ht & Hc).
  rewrite Ht in *. cbn [isEmpty].
  assert (Hcls : isASCII c = true /\ (upperByte c =? "P")%char = false)
    by (clear - Hc; by_byte c; vm_compute in Hc; try discriminate; split; reflexivity).
  destruct Hcls as [Hascii Hup].
  rewrite (ToUpper_head _ c r Hascii).
  assert (Hpre : HasPrefix (String (upperByte c) (ToUpper (upperRune L) r)) "P" = false).
  { unfold HasPrefix. cbn [String.prefix].
    destruct (ascii_dec "P" (upperByte c)) as [E|_]; [|reflexivity].
    rewrite <- E in Hup. discriminate. }
  rewrite Hpre, Hparse. f_equal. f_equal.
  apply seconds_abs; [|exact Hexact].
  split; [exact (ParseDuration_min _ _ _ Hparse) | exact (ParseDuration_max _ _ _ Hparse)].
Qed.

(** The ISO form of a number of seconds parses to that number of
    seconds. *)
Lemma ParseISO8601ToDuration_seconds secs :
  0 <= secs -> secs * Second <= maxInt64 ->
  ParseISO8601ToDuration L (formatISO secs) = Ok (secs * Second).
Proof.
  intros Hs Hmax.
  rewrite <- (Z.div_mul secs Second) at 1 by discriminate.
  apply ParseISO8601ToDuration_formatISO.
  - split; [|exact Hmax]. apply Z.mul_nonneg_nonneg; [exact Hs | discriminate].
  - apply Z.mod_mul. discriminate.
Qed.

(** The ISO form [ISO8601Duration] builds is never rejected by
    [ParseISO8601ToDuration]. *)
Lemma ParseISO8601ToDuration_formatISO_ok secs :
  0 <= secs -> is_err (ParseISO8601ToDuration L (formatISO secs)) = false.
Proof.
  intros Hs. rewrite (formatISO_isoOf _ Hs).
  destruct (isoOf_classes (secs / 3600) (secs mod 3600 / 60) (secs mod 60)) as [Hplain Hupper].
  unfold ParseISO8601ToDuration.
  rewrite (TrimSpace_plain _ Hplain), (ToUpper_upperSafe _ _ Hupper).
  unfold isoOf.
  assert (Hpre : forall x, HasPrefix (String "P" x) "P" = true) by (intros []; reflexivity).
  assert (Hpart : forall x, afterFirst "T" (String "P" (String "T" x)) = Some x) by reflexivity.
  rewrite Hpre, Hpart. reflexivity.
Qed.

(** What [ISO8601Duration] accepts: a string it hands on as it is, which
    [time.ParseDuration] rejects, or a Go duration, whose ISO form
    [ParseISO8601ToDuration] accepts. *)
Lemma ISO8601Duration_Ok src iso :
  ISO8601Duration L src = Ok iso ->
  (iso = TrimSpace src /\ ParseDuration (fracNanos L) src = None)
  \/ is_err (ParseISO8601ToDuration L iso) = false.
Proof.
  unfold ISO8601Duration.
  destruct (isEmpty (TrimSpace src)) eqn:Hempty; [discriminate|].
  destruct (HasPrefix (ToUpper (upperRune L) (TrimSpace src)) "P") eqn:Hpre.
  - intros [= <-]. left. split; [reflexivity|].
    destruct (ParseDuration (fracNanos L) src) as [d|] eqn:Hparse; [|reflexivity].
    exfalso. destruct (ParseDuration_head _ _ _ Hparse) as (c & r & -> & Hc).
    assert (Hcls : plain c = true /\ isASCII c = true /\ (upperByte c =? "P")%char = false)
      by (clear - Hc; by_byte c; vm_compute in Hc; try discriminate; repeat split; reflexivity).
    destruct Hcls as (Hplain & Hascii & Hup).
    rewrite (TrimSpace_head c r Hplain), (ToUpper_head _ c _ Hascii) in Hpre.
    unfold HasPrefix in Hpre. cbn [String.prefix] in Hpre.
    destruct (ascii_dec "P" (upperByte c)) as [E|_]; [|discriminate].
    rewrite <- E in Hup. discriminate.
  - destruct (ParseDuration (fracNanos L) (TrimSpace src)) as [d|] eqn:Hparse; [|discriminate].
    intros [= <-]. right. apply ParseISO8601ToDuration_formatISO_ok.
    set (secs := SecondsInt64 (roundsAway L) d).
    destruct (Z.ltb_spec secs 0) as [Hneg | Hpos]; [|exact Hpos].
    assert (Hsecs : - 2 ^ 63 < secs).
    { pose proof (ParseDuration_min _ _ _ Hparse) as Hmin.
      pose proof (ParseDuration_max _ _ _ Hparse) as Hmax. unfold maxInt64 in Hmax.
      assert (HS : Second = 1000000000) by reflexivity.
      assert (Hq : - 2 ^ 62 < Z.quot d Second).
      { destruct (Z.le_gt_cases 0 d) as [Hd | Hd].
        - pose proof (Z.quot_pos d Second Hd ltac:(lia)). lia.
        - rewrite <- (Z.opp_involutive d), Z.quot_opp_l by lia.
          rewrite Z.quot_div_nonneg by lia.
          assert (- d / Second < 2 ^ 62) by (apply Z.div_lt_upper_bound; lia). lia. }
      unfold secs, SecondsInt64.
      destruct (Z.rem d Second =? 0); [lia|].
      destruct (roundsAway L d); [|lia].
      destruct d; cbn [Z.sgn]; lia. }
    rewrite wrap64_small by lia. lia.
Qed.

End Timespans.
End TimespanFacts.

Import Utf8 GoStrings GoTime GoFmt GoRegexp Utils MustGather Planner Exporter.
Import StringSpec PlannerSpec PlannerFacts StringFacts DurationFacts TimespanFacts.

Section Timespans.
Local Open Scope Z_scope.

(** X7: of a timespan given as a Go duration [d], [ISO8601Duration] keeps
    the absolute value in whole seconds: the sign and the part below one
    second are dropped, and the lookback [exportTableData] plans from the
    ISO form is that number of seconds.  (The conversion
    [int64(d.Seconds())] goes through [float64]; it is assumed not to round
    up, which holds of every whole number of seconds.) *)
Theorem X7_timespan_sign_and_fraction_dropped (L : GoLib) (cfg : Config) (ts : string) (d : Z) :
  ParseDuration (fracNanos L) (TrimSpace ts) = Some d ->
  d mod Second = 0 \/ roundsAway L d = false ->
  let secs := Z.abs d / Second in
  ISO8601Duration L ts = Ok (formatISO secs)
  /\ lookback L cfg (formatISO secs) = secs * Second
  /\ secs * Second <= Z.abs d < secs * Second + Second.
Proof.
  intros Hparse Hexact secs.
  pose proof (ParseDuration_min _ _ _ Hparse) as Hmin.
  pose proof (ParseDuration_max _ _ _ Hparse) as Hmax. unfold maxInt64 in Hmax.
  assert (HS : Second = 1000000000) by reflexivity.
  assert (Hsecs : 0 <= secs) by (apply Z.div_pos; lia).
  assert (Hbound : secs * Second <= Z.abs d < secs * Second + Second).
  { pose proof (Z.div_mod (Z.abs d) Second ltac:(lia)) as Hdm.
    pose proof (Z.mod_pos_bound (Z.abs d) Second ltac:(lia)) as Hm.
    fold secs in Hdm. lia. }
  split; [now apply ISO8601Duration_abs|]. split; [|exact Hbound].
  unfold lookback. rewrite ParseISO8601ToDuration_seconds; [reflexivity | exact Hsecs|].
  unfold maxInt64. lia.
Qed.

(** Minus ninety and a half minutes. *)
Lemma X7_witness_negative_timespan :
  let cfg := mkConfig "" "-1h30m30.5s" "" "" "" false false false false "" in
  ISO8601Duration RefLib.refLib "-1h30m30.5s" = Ok "PT1H30M30S"
  /\ lookback RefLib.refLib cfg "PT1H30M30S" = 5430 * Second.
Proof.
  intros cfg.
  destruct (X7_timespan_sign_and_fraction_dropped RefLib.refLib cfg "-1h30m30.5s"
              (-5430500000000) eq_refl (or_intror eq_refl)) as (Hiso & Hlook & _).
  split; [exact Hiso | exact Hlook].
Defined.

(** X8: a timespan given as a Go duration of less than one second in
    absolute value (0, or 500ms) is sent as PT0H0M0S, and the export covers
    the default two hours before the instant of the export, in eight windows
    of fifteen minutes. *)
Theorem X8_subsecond_timespan_exports_two_hours (L : GoLib) (cfg : Config) (ts : string) (d : Z) :
  ParseDuration (fracNanos L) (TrimSpace ts) = Some d ->
  Z.abs d < Second ->
  d = 0 \/ roundsAway L d = false ->
  ISO8601Duration L ts = Ok "PT0H0M0S"
  /\ lookback L cfg "PT0H0M0S" = 0
  /\ forall since,
       planWindows since (lookback L cfg "PT0H0M0S") = planWindows since (2 * Hour)
       /\ length (planWindows since (lookback L cfg "PT0H0M0S")) = 8%nat
       /\ tiles (since - 2 * Hour) since (planWindows since (lookback L cfg "PT0H0M0S")).
Proof.
  intros Hparse Hsmall Hexact.
  assert (Hsecs : Z.abs d / Second = 0) by (apply Z.div_small; lia).
  assert (Hexact' : d mod Second = 0 \/ roundsAway L d = false)
    by (destruct Hexact as [-> | H]; [left; reflexivity | right; exact H]).
  assert (Hiso : ISO8601Duration L ts = Ok "PT0H0M0S").
  { rewrite (ISO8601Duration_abs L ts d Hparse Hexact'), Hsecs. reflexivity. }
  assert (Hlook : lookback L cfg "PT0H0M0S" = 0).
  { unfold lookback.
    change "PT0H0M0S"%string with (formatISO 0).
    rewrite (ParseISO8601ToDuration_seconds L 0) by (vm_compute; congruence). reflexivity. }
  split; [exact Hiso|]. split; [exact Hlook|].
  intros since. rewrite Hlook, planWindows_zero.
  destruct (planWindows_spec since (2 * Hour)
              ltac:(vm_compute; split; [reflexivity | discriminate])) as (Ht & Hl & _).
  repeat split; assumption.
Qed.

(** Half a second. *)
Lemma X8_witness_half_a_second :
  let cfg := mkConfig "" "500ms" "" "" "" false false false false "" in
  ISO8601Duration RefLib.refLib "500ms" = Ok "PT0H0M0S"
  /\ length (planWindows 63808171200000000000 (lookback RefLib.refLib cfg "PT0H0M0S")) = 8%nat.
Proof.
  intros cfg.
  destruct (X8_subsecond_timespan_exports_two_hours RefLib.refLib cfg "500ms" 500000000
              eq_refl eq_refl (or_intror eq_refl)) as (Hiso & _ & Hplan).
  split; [exact Hiso | exact (proj1 (proj2 (Hplan _)))].
Defined.

(** X9: for every timespan that [ISO8601Duration] accepts, the lookback of
    [exportTableData] is what [ParseISO8601ToDuration] makes of the ISO
    form, and 0 when it rejects it: the second attempt, [time.ParseDuration]
    on the configured timespan, never succeeds where the first one
    fails. *)
Theorem X9_second_parse_never_succeeds (L : GoLib) (cfg : Config) (iso : string) :
  ISO8601Duration L (Timespan cfg) = Ok iso ->
  lookback L cfg iso
  = match ParseISO8601ToDuration L iso with
    | Ok d => d
    | Err _ => 0
    end.
Proof.
  intros Hiso. unfold lookback.
  destruct (ISO8601Duration_Ok L _ _ Hiso) as [[_ Hnone] | Hok].
  - rewrite Hnone. reflexivity.
  - destruct (ParseISO8601ToDuration L iso); [reflexivity | discriminate].
Qed.

(** A date without a time part, written with white space before it. *)
Lemma X9_witness_blank_before_P1D :
  let cfg := mkConfig "" "  P1D" "" "" "" false false false false "" in
  lookback RefLib.refLib cfg "P1D" = 0.
Proof.
  intros cfg. exact (X9_second_parse_never_succeeds RefLib.refLib cfg "P1D" eq_refl).
Defined.

End Timespans.

Module IsoFacts.
Import Utf8 GoStrings GoTime GoFmt GoRegexp Utils.
Import StringSpec StringFacts DurationFacts.

Lemma ToUpper_ascii up s :
  allChars isASCII s = true -> ToUpper up s = mapChars upperByte s.
Proof.
  unfold ToUpper. induction s as [|c s IH]; cbn [allChars mapUpperFrom mapChars]; [reflexivity|].
  intros [Hc Hs]%andb_prop. rewrite Hc, (IH Hs). reflexivity.
Qed.

Lemma mapChars_app f (s t : string) :
  mapChars f (s ++ t) = (mapChars f s ++ mapChars f t)%string.
Proof.
  induction s as [|c s IH]; app_step; [reflexivity|].
  cbn [mapChars]. app_step. now rewrite IH.
Qed.

Lemma afterFirst_app x (a b : string) :
  allChars (fun c => negb (c =? x)%char) a = true ->
  afterFirst x (a ++ String x b) = Some b.
Proof.
  induction a as [|c a IH]; app_step; cbn [allChars afterFirst].
  - intros _. now rewrite Ascii.eqb_refl.
  - intros [Hc Ha]%andb_prop. apply negb_true_iff in Hc. rewrite Hc. apply IH, Ha.
Qed.

Lemma plain_ascii s : allChars plain s = true -> allChars isASCII s = true.
Proof. apply allChars_impl. intros c [Hc _]%andb_prop. exact Hc. Qed.

Lemma allChars_mapChars P f s : allChars P (mapChars f s) = allChars (fun c => P (f c)) s.
Proof. induction s as [|c s IH]; cbn [mapChars allChars]; [reflexivity | now rewrite IH]. Qed.

End IsoFacts.

Import Utf8 GoStrings GoTime GoFmt GoRegexp Utils StringSpec StringFacts DurationFacts IsoFacts.

(** X10: [ParseISO8601ToDuration] reads the time part only.  Whatever
    stands between the P and the first T (or t) of an ISO-8601 duration, a
    number of days for instance, is ignored and not rejected: the duration
    is that of the time part. *)
Theorem X10_date_part_ignored (L : GoLib) (date time : string) :
  allChars plain date = true ->
  allChars (fun c => negb (upperByte c =? "T")%char) date = true ->
  allChars plain time = true ->
  ParseISO8601ToDuration L ("P" ++ date ++ "T" ++ time)
  = ParseISO8601ToDuration L ("PT" ++ time).
Proof.
  intros Hdate HnoT Htime.
  assert (Hl : allChars plain ("P" ++ date ++ "T" ++ time) = true).
  { rewrite !allChars_app, Hdate, Htime. reflexivity. }
  assert (Hr : allChars plain ("PT" ++ time) = true).
  { rewrite !allChars_app, Htime. reflexivity. }
  unfold ParseISO8601ToDuration.
  rewrite (TrimSpace_plain _ Hl), (TrimSpace_plain _ Hr).
  rewrite (ToUpper_ascii _ _ (plain_ascii _ Hl)), (ToUpper_ascii _ _ (plain_ascii _ Hr)).
  rewrite !mapChars_app.
  change (mapChars upperByte "P") with "P"%string.
  change (mapChars upperByte "T") with "T"%string.
  change (mapChars upperByte "PT") with "PT"%string.
  app_step.
  assert (Hpre : forall x, HasPrefix (String "P" x) "P" = true) by (intros []; reflexivity).
  rewrite !Hpre. cbn [negb].
  assert (Hleft : afterFirst "T" (String "P" (mapChars upperByte date
                                              ++ String "T" (mapChars upperByte time)))
                  = Some (mapChars upperByte time)).
  { change (afterFirst "T" (String "P" ?x)) with (afterFirst "T" x).
    apply afterFirst_app. now rewrite allChars_mapChars. }
  assert (Hright : afterFirst "T" (String "P" (String "T" (mapChars upperByte time)))
                   = Some (mapChars upperByte time)) by reflexivity.
  rewrite Hleft, Hright. reflexivity.
Qed.

(** One day and two hours is two hours. *)
Lemma X10_witness_one_day_two_hours :
  ParseISO8601ToDuration RefLib.refLib "P1DT2H" = Ok (2 * GoTime.Hour)%Z.
Proof.
  exact (eq_trans (X10_date_part_ignored RefLib.refLib "1D" "2H" eq_refl eq_refl eq_refl)
                  eq_refl).
Defined.

(** ** Rows and columns *)

Module RowFacts.
Import Utf8 GoStrings GoTime Utils MustGather Planner Exporter ExporterSpec ExporterFacts.
Local Open Scope list_scope.

(** The object built from a row: the last cell under a name, or what the
    object held before. *)
Lemma rowObjectFrom_lookup colNames n : forall row i obj obj',
  rowObjectFrom colNames i row obj = Done obj' ->
  (forall j v, row !! j = Some v -> colNames !! (i + j)%nat = Some n ->
               (forall j', (j < j')%nat -> (j' < length row)%nat ->
                           colNames !! (i + j')%nat <> Some n) ->
               obj' !! n = Some v)
  /\ ((forall j, (j < length row)%nat -> colNames !! (i + j)%nat <> Some n) ->
      obj' !! n = obj !! n).
Proof.
  induction row as [|v row IH]; intros i obj obj'; cbn [rowObjectFrom].
  - intros [= <-]. split; [|reflexivity]. intros j v Hv. now rewrite lookup_nil in Hv.
  - destruct (colNames !! i) as [m|] eqn:Hm; [|discriminate].
    intros Hrec. destruct (IH _ _ _ Hrec) as [IHA IHB].
    assert (Hshift : forall j, (S i + j)%nat = (i + S j)%nat) by (intros; lia).
    assert (Hlater : (forall j, (j < length row)%nat -> colNames !! (i + S j)%nat <> Some n) ->
                     obj' !! n = <[m := v]> obj !! n).
    { intros H. apply IHB. intros j Hj. rewrite Hshift. now apply H. }
    split.
    + intros [|j] w Hw Hn Hlast.
      * cbn in Hw. injection Hw as <-. rewrite Nat.add_0_r in Hn.
        assert (m = n) by congruence. subst m.
        rewrite Hlater; [apply lookup_insert_eq|].
        intros j Hj. apply Hlast; cbn [length]; lia.
      * cbn in Hw. apply (IHA j w Hw); [now rewrite Hshift|].
        intros j' Hj' Hlen. rewrite Hshift. apply Hlast; cbn [length]; lia.
    + intros Hnone. rewrite Hlater.
      * apply lookup_insert_ne. intros ->.
        apply (Hnone 0%nat); [cbn [length]; lia|]. now rewrite Nat.add_0_r.
      * intros j Hj. apply Hnone. cbn [length]. lia.
Qed.

Lemma rowObjectFrom_panic colNames : forall row i obj,
  (i <= length colNames)%nat -> (length colNames < i + length row)%nat ->
  rowObjectFrom colNames i row obj = Panic "index out of range".
Proof.
  induction row as [|v row IH]; intros i obj Hi Hlen; cbn [length] in Hlen; [lia|].
  cbn [rowObjectFrom]. destruct (colNames !! i) as [m|] eqn:Hm; [|reflexivity].
  apply lookup_lt_Some in Hm. apply IH; lia.
Qed.

(** The position [idx] returns is the first one. *)
Lemma idxFrom_first colNames n : forall i,
  (idxFrom i colNames n = (-1)%Z /\ n ∉ colNames)
  \/ exists k, idxFrom i colNames n = (i + Z.of_nat k)%Z
               /\ colNames !! k = Some n
               /\ forall j, (j < k)%nat -> colNames !! j <> Some n.
Proof.
  induction colNames as [|c r IH]; intros i; cbn [idxFrom].
  { left. split; [reflexivity | apply not_elem_of_nil]. }
  destruct (String.eqb_spec c n) as [-> | Hne].
  - right. exists 0%nat. split; [lia|]. split; [reflexivity|]. intros j Hj. lia.
  - destruct (IH (i + 1)%Z) as [[-> Hnot] | (k & -> & Hk & Hfirst)].
    + left. split; [reflexivity|]. rewrite not_elem_of_cons. split; [congruence | exact Hnot].
    + right. exists (S k). split; [lia|]. split; [exact Hk|].
      intros [|j] Hj; cbn; [congruence|]. apply Hfirst. lia.
Qed.

Section WithLib.
Variable L : GoLib.
Variable cfg : Config.

(** Every panic of the row loop is an index out of range. *)
Lemma rowObjectFrom_message colNames : forall row i obj msg,
  rowObjectFrom colNames i row obj = Panic msg -> msg = "index out of range".
Proof.
  induction row as [|v row IH]; intros i obj msg; cbn [rowObjectFrom]; [discriminate|].
  destruct (colNames !! i); [apply IH | now intros [= <-]].
Qed.

Lemma rowAt_message row i (k : any -> outcome RowAcc) msg :
  (forall v msg, k v = Panic msg -> msg = "index out of range") ->
  (rowAt row i ≫= k) = Panic msg -> msg = "index out of range".
Proof.
  intros Hk. unfold rowAt. destruct (row !! Z.to_nat i) as [v|]; cbn [mbind outcome_bind].
  - apply Hk.
  - now intros [= <-].
Qed.

Lemma processRow_message table colNames ix acc row msg :
  processRow L cfg table colNames ix acc row = Panic msg -> msg = "index out of range".
Proof.
  unfold processRow, rowObject.
  destruct (rowObjectFrom colNames 0 row ∅) as [obj|m] eqn:Hobj; cbn [mbind outcome_bind].
  2: { intros [= <-]. eapply rowObjectFrom_message, Hobj. }
  destruct (collectsV2 cfg table ix); destruct (collectsEvents cfg table ix).
  all: unfold rowAt;
    repeat match goal with
           | |- context [?r !! ?i] =>
               destruct (r !! i); cbn [mbind outcome_bind]; [|now intros [= <-]]
           end;
    discriminate.
Qed.

Lemma rowLoop_message table colNames ix : forall rows acc msg,
  foldOutcome (processRow L cfg table colNames ix) rows acc = Panic msg ->
  msg = "index out of range".
Proof.
  induction rows as [|row rows IH]; intros acc msg; cbn [foldOutcome]; [discriminate|].
  destruct (processRow L cfg table colNames ix acc row) as [acc'|m] eqn:Hrow.
  - apply IH.
  - intros [= <-]. eapply processRow_message, Hrow.
Qed.

(** A row with more cells than there are columns stops the loop. *)
Lemma rowLoop_panic table colNames ix : forall rows acc,
  Exists (fun row : list any => (length colNames < length row)%nat) rows ->
  foldOutcome (processRow L cfg table colNames ix) rows acc = Panic "index out of range".
Proof.
  induction rows as [|row rows IH]; intros acc Hex; [inversion Hex|].
  cbn [foldOutcome].
  destruct (processRow L cfg table colNames ix acc row) as [acc'|m] eqn:Hrow.
  - apply Exists_cons in Hex as [Hlong | Hex]; [|now apply IH].
    exfalso. unfold processRow, rowObject in Hrow.
    rewrite (rowObjectFrom_panic colNames row 0 ∅) in Hrow by lia. discriminate.
  - f_equal. eapply processRow_message, Hrow.
Qed.

Lemma columnNames_nil cols :
  Exists (fun c : option string => c = None) cols ->
  columnNames cols = Panic "nil pointer dereference".
Proof.
  induction cols as [|c cols IH]; intros Hex; [inversion Hex|].
  cbn [columnNames]. destruct c as [n|]; [|reflexivity].
  apply Exists_cons in Hex as [Hc | Hex]; [discriminate|].
  rewrite (IH Hex). reflexivity.
Qed.

End WithLib.
End RowFacts.

Import Utf8 GoStrings GoTime Utils MustGather Planner Exporter ExporterSpec ExporterFacts RowFacts.

(** X11: the object written for a row holds, under every column name, the
    cell of the row at the last column with that name, and nothing under any
    other name; a row may be shorter than the list of columns, and a row
    with more cells than there are columns makes [rowObject] panic with an
    index out of range. *)
Theorem X11_rowObject_lookup (colNames : list string) (row : list any) :
  ((length row <= length colNames)%nat ->
   exists obj,
     rowObject colNames row = Done obj
     /\ (forall j n v,
           row !! j = Some v -> colNames !! j = Some n ->
           (forall j', (j < j')%nat -> (j' < length row)%nat -> colNames !! j' <> Some n) ->
           obj !! n = Some v)
     /\ (forall n, (forall j, (j < length row)%nat -> colNames !! j <> Some n) ->
                   obj !! n = None))
  /\ ((length colNames < length row)%nat ->
      rowObject colNames row = Panic "index out of range").
Proof.
  split.
  - intros Hlen.
    destruct (rowObjectFrom_ok colNames row 0%nat ∅ ltac:(lia)) as [obj Hobj].
    exists obj. split; [exact Hobj|]. split.
    + intros j n v Hv Hn Hlast.
      destruct (rowObjectFrom_lookup colNames n _ _ _ _ Hobj) as [HA _].
      apply (HA j v Hv Hn Hlast).
    + intros n Hnone.
      destruct (rowObjectFrom_lookup colNames n _ _ _ _ Hobj) as [_ HB].
      rewrite (HB Hnone). apply lookup_empty.
  - intros Hlen. apply rowObjectFrom_panic; lia.
Qed.

(** A row of two cells under three columns, two of them of one name. *)
Lemma X11_witness_repeated_column :
  exists obj,
    rowObject ["Name"; "Name"; "Reason"] [AString "first"; AString "second"] = Done obj
    /\ obj !! "Name" = Some (AString "second")
    /\ obj !! "Reason" = None
    /\ rowObject ["Name"] [AString "first"; AString "second"] = Panic "index out of range".
Proof.
  destruct (X11_rowObject_lookup ["Name"; "Name"; "Reason"] [AString "first"; AString "second"])
    as [Hok _].
  destruct (Hok ltac:(cbn; lia)) as (obj & Hobj & Hlast & Hnone).
  exists obj. split; [exact Hobj|]. split; [|split].
  - apply (Hlast 1%nat); [reflexivity | reflexivity|].
    intros j' Hj Hlen. cbn in Hlen. lia.
  - apply Hnone. intros [|[|j]] Hj; cbn in Hj |- *; try discriminate. lia.
  - apply (proj2 (X11_rowObject_lookup ["Name"] [AString "first"; AString "second"])).
    cbn. lia.
Defined.

(** X12: the closure [idx] returns the first position at which the list of
    column names holds the name, counted from 0, and [-1] exactly when the
    list does not hold it. *)
Theorem X12_idx_first_position (colNames : list string) (n : string) :
  (idx colNames n = (-1)%Z <-> n ∉ colNames)
  /\ forall k, idx colNames n = Z.of_nat k <->
               colNames !! k = Some n /\ forall j, (j < k)%nat -> colNames !! j <> Some n.
Proof.
  unfold idx. destruct (idxFrom_first colNames n 0%Z) as [[Hidx Hnot] | (k & Hidx & Hk & Hfirst)].
  - rewrite Hidx. split; [tauto|]. intros k. split; [lia|].
    intros [Hk _]. exfalso. apply Hnot. eapply list_elem_of_lookup_2, Hk.
  - rewrite Hidx. split.
    + split; [lia|]. intros Hnot. exfalso. apply Hnot. eapply list_elem_of_lookup_2, Hk.
    + intros k'. split.
      * intros Heq. assert (k' = k) by lia. subst k'. split; assumption.
      * intros [Hk' Hfirst']. f_equal.
        destruct (Nat.lt_trichotomy k k') as [Hlt | [-> | Hgt]]; [|reflexivity|].
        -- destruct (Hfirst' k Hlt Hk).
        -- destruct (Hfirst k' Hgt Hk').
Qed.

(** X13: a response whose first table has a row with more cells than
    columns, or a column without a name, makes [exportTableData] panic (an
    index out of range, respectively a nil pointer dereference) in the turn
    of the chunk loop that receives it; unlike a failed query it is not
    skipped, and nothing recovers from it. *)
Theorem X13_malformed_table_panics (L : GoLib) (cfg : Config) (lcli : LogsClient)
  (table safe workspaceGUID : string) (p : Progress) (w : Window)
  (perr : option string) (tab : Table) (rest : list Table) :
  lcli (queries (state p)) workspaceGUID table w.1 w.2 = QueryResult perr (tab :: rest) ->
  (Exists (fun c : option string => c = None) (Columns tab) ->
   exportChunk L cfg lcli table safe workspaceGUID p w = Panic "nil pointer dereference")
  /\ (Forall (fun c : option string => is_Some c) (Columns tab) ->
      Exists (fun row : list any => (length (Columns tab) < length row)%nat) (Rows tab) ->
      exportChunk L cfg lcli table safe workspaceGUID p w = Panic "index out of range"
      /\ forall ws, foldOutcome (exportChunk L cfg lcli table safe workspaceGUID) (w :: ws) p
                    = Panic "index out of range").
Proof.
  intros Hres. split.
  - intros Hnil. unfold exportChunk. rewrite Hres. unfold exportRows.
    rewrite (columnNames_nil _ Hnil). reflexivity.
  - intros Hcols Hlong.
    assert (Hchunk : exportChunk L cfg lcli table safe workspaceGUID p w
                     = Panic "index out of range").
    { unfold exportChunk. rewrite Hres. unfold exportRows.
      destruct (columnNames_wf _ Hcols) as (colNames & -> & Hlen).
      cbn [mbind outcome_bind]. rewrite <- Hlen in Hlong.
      rewrite (rowLoop_panic L cfg table colNames _ _ _ Hlong). reflexivity. }
    split; [exact Hchunk|].
    intros ws. cbn [foldOutcome]. rewrite Hchunk. reflexivity.
Qed.

(** A row of three cells under two columns. *)
Lemma X13_witness_long_row :
  let lcli : LogsClient := fun n _ _ _ _ =>
    QueryResult None [mkTable [Some "TimeGenerated"; Some "Computer"]
                              [[AString "2023-01-01T11:50:00Z"; AString "node-1"];
                               [AString "2023-01-01T11:51:00Z"; AString "node-2"; ANil]]] in
  let cfg := mkConfig "" "30m" "" "" "" false true true false "" in
  foldOutcome (exportChunk RefLib.refLib cfg lcli "Perf" "Perf" "guid") [(0, 1)%Z; (1, 2)%Z]
              (mkProgress (mkState [] ∅ ∅ 0) 0 0)
  = Panic "index out of range".
Proof.
  intros lcli cfg.
  refine (proj2 (proj2 (X13_malformed_table_panics RefLib.refLib cfg lcli "Perf" "Perf" "guid"
                          (mkProgress (mkState [] ∅ ∅ 0) 0 0) (0, 1)%Z None _ [] eq_refl)
                       _ _) [(1, 2)%Z]).
  - repeat constructor; eauto.
  - apply Exists_cons_tl, Exists_cons_hd. cbn. lia.
Defined.

(** ** The layout of the archive *)

Module ArchiveFacts.
Import Utf8 GoStrings GoTime Utils MustGather Planner Exporter ExporterSpec ExporterFacts.
Import StringSpec ArchiveSpec DurationFacts.
Local Open Scope list_scope.

(** *** Builders *)

Lemma concat_snoc_length line : forall l,
  (String.length line <= String.length (String.concat "" (l ++ [line])))%nat.
Proof.
  induction l as [|x l IH]; [cbn; lia|].
  change ((x :: l) ++ [line]) with (x :: (l ++ [line])).
  destruct (l ++ [line]) as [|y r] eqn:E.
  - destruct l; discriminate.
  - change (String.concat "" (x :: y :: r))
      with (x ++ "" ++ String.concat "" (y :: r))%string.
    rewrite !length_append. cbn [String.length]. lia.
Qed.

Lemma snoc_written l line : line <> EmptyString -> filled (l ++ [line]).
Proof.
  intros Hline Hempty. pose proof (concat_snoc_length line l) as Hlen.
  rewrite Hempty in Hlen. destruct line; [congruence | cbn in Hlen; lia].
Qed.

Lemma writeLine_written `{Countable K} (k : K) line (m : gmap K (list string)) :
  line <> EmptyString -> allFilled m -> allFilled (writeLine k line m).
Proof.
  intros Hline Hm. unfold writeLine. apply map_Forall_insert_2; [|exact Hm].
  now apply snoc_written.
Qed.

Lemma ends_with_newline_nonempty (s : string) : (s ++ newline)%string <> EmptyString.
Proof. destruct s; discriminate. Qed.

Lemma append_nonempty_r (s t : string) : t <> EmptyString -> (s ++ t)%string <> EmptyString.
Proof. destruct s; [trivial | discriminate]. Qed.

Section WithLib.
Variable L : GoLib.
Variable cfg : Config.

Lemma v2Line_nonempty r : v2Line L r <> EmptyString.
Proof.
  unfold v2Line. cbn zeta. repeat apply append_nonempty_r. discriminate.
Qed.

Lemma evtLine_nonempty r : evtLine L r <> EmptyString.
Proof.
  unfold evtLine. repeat apply append_nonempty_r. discriminate.
Qed.

Lemma appendV2_written : forall rows logs,
  allFilled logs -> allFilled (appendV2 L rows logs).
Proof.
  unfold appendV2. induction rows as [|r rows IH]; intros logs Hlogs; [exact Hlogs|].
  cbn [fold_left]. apply IH. destruct (isNoise r); [exact Hlogs|].
  apply writeLine_written; [apply v2Line_nonempty | exact Hlogs].
Qed.

Lemma appendEvents_written : forall rows evts,
  allFilled evts -> allFilled (appendEvents L rows evts).
Proof.
  unfold appendEvents. induction rows as [|r rows IH]; intros evts Hevts; [exact Hevts|].
  cbn [fold_left]. apply IH.
  apply writeLine_written; [apply evtLine_nonempty | exact Hevts].
Qed.

Lemma stitchV2_written table rows logs :
  allFilled logs -> allFilled (stitchV2 L cfg table rows logs).
Proof.
  intros Hlogs. unfold stitchV2. destruct (_ && _); [|exact Hlogs].
  now apply appendV2_written.
Qed.

Lemma stitchEvents_written table rows evts :
  allFilled evts -> allFilled (stitchEvents L cfg table rows evts).
Proof.
  intros Hevts. unfold stitchEvents. destruct (_ && _); [|exact Hevts].
  now apply appendEvents_written.
Qed.

Lemma stitchV2_off table rows logs :
  StitchLogs cfg = false -> stitchV2 L cfg table rows logs = logs.
Proof. intros H. unfold stitchV2. rewrite H. reflexivity. Qed.

Lemma stitchEvents_off table rows evts :
  StitchLogs cfg = false \/ StitchIncludeEvents cfg = false ->
  stitchEvents L cfg table rows evts = evts.
Proof.
  intros [H | H]; unfold stitchEvents; rewrite H; [reflexivity|].
  now rewrite andb_false_r.
Qed.

(** *** What the loops keep *)

Lemma exported_step tar0 st tar' logs' evts' q' extra :
  exported cfg tar0 st ->
  tar' = tarw st ++ extra -> Forall underTables extra ->
  (exists table rows, logs' = stitchV2 L cfg table rows (stitchedLogs st)) ->
  (exists table rows, evts' = stitchEvents L cfg table rows (stitchedEvents st)) ->
  exported cfg tar0 (mkState tar' logs' evts' q').
Proof.
  intros ((added & Htar & Hadded) & Hlogs & Hevts & Hoff & Hnoev) -> Hextra
         (t1 & r1 & ->) (t2 & r2 & ->).
  split; [|split; [|split; [|split]]]; cbn [tarw stitchedLogs stitchedEvents].
  - exists (added ++ extra). rewrite Htar, <- app_assoc. split; [reflexivity|].
    apply Forall_app. split; assumption.
  - now apply stitchV2_written.
  - now apply stitchEvents_written.
  - intros H. rewrite (stitchV2_off _ _ _ H), (stitchEvents_off _ _ _ (or_introl H)).
    now apply Hoff.
  - intros H. rewrite (stitchEvents_off _ _ _ (or_intror H)). now apply Hnoev.
Qed.

Lemma exported_queries tar0 st q' :
  exported cfg tar0 st ->
  exported cfg tar0 (mkState (tarw st) (stitchedLogs st) (stitchedEvents st) q').
Proof. intros H. exact H. Qed.

Lemma stitchV2_nil table logs : stitchV2 L cfg table [] logs = logs.
Proof. unfold stitchV2. cbn [length Nat.ltb Nat.leb]. now rewrite andb_false_r. Qed.

Lemma stitchEvents_nil table evts : stitchEvents L cfg table [] evts = evts.
Proof. unfold stitchEvents. cbn [length Nat.ltb Nat.leb]. now rewrite andb_false_r. Qed.

Lemma exportChunk_exported lcli table safe workspaceGUID tar0 p w :
  wfClient lcli -> cleanName safe -> exported cfg tar0 (state p) ->
  exists p',
    exportChunk L cfg lcli table safe workspaceGUID p w = Done p'
    /\ exported cfg tar0 (state p').
Proof.
  intros Hwf Hsafe Hp. unfold exportChunk.
  destruct (lcli (queries (state p)) workspaceGUID table w.1 w.2)
    as [e | perr [|tab rest]] eqn:Hres.
  - eexists. split; [reflexivity | exact Hp].
  - eexists. split; [reflexivity | exact Hp].
  - destruct (exportRows_ok L cfg table safe w tab
                (mkProgress (mkState (tarw (state p)) (stitchedLogs (state p))
                                     (stitchedEvents (state p)) (S (queries (state p))))
                            (chunkIndex p) (rowsTotal p))
                (Hwf _ _ _ _ _ _ _ _ Hres)) as (colNames & objs & _ & _ & ->).
    eexists. split; [reflexivity|]. cbn [state tarw stitchedLogs stitchedEvents queries].
    eapply exported_step; [exact Hp | reflexivity | | eauto | eauto].
    destruct (_ <? _)%Z; repeat constructor. eexists _, _. split; [reflexivity | exact Hsafe].
Qed.

Lemma chunkLoop_exported lcli table safe workspaceGUID tar0 :
  wfClient lcli -> cleanName safe ->
  forall ws p, exported cfg tar0 (state p) ->
  exists p',
    foldOutcome (exportChunk L cfg lcli table safe workspaceGUID) ws p = Done p'
    /\ exported cfg tar0 (state p').
Proof.
  intros Hwf Hsafe. induction ws as [|w ws IH]; intros p Hp.
  - exists p. split; [reflexivity | exact Hp].
  - destruct (exportChunk_exported lcli table safe workspaceGUID tar0 p w Hwf Hsafe Hp)
      as (p1 & H1 & Hp1).
    destruct (IH p1 Hp1) as (p' & H' & Hp').
    exists p'. cbn [foldOutcome]. rewrite H1. split; assumption.
Qed.

Lemma exported_entry tar0 st e :
  exported cfg tar0 st -> underTables e ->
  exported cfg tar0 (mkState (tarw st ++ [e]) (stitchedLogs st) (stitchedEvents st) (queries st)).
Proof.
  intros ((added & Htar & Hadded) & Hrest) He. split; [|exact Hrest].
  exists (added ++ [e]). cbn [tarw]. rewrite Htar, <- app_assoc. split; [reflexivity|].
  apply Forall_app. split; [exact Hadded | repeat constructor; exact He].
Qed.

Lemma exportTableData_exported lcli since table safe workspaceGUID iso tar0 st :
  wfClient lcli -> cleanName safe -> exported cfg tar0 st ->
  exists st',
    exportTableData L cfg lcli since table safe workspaceGUID iso st = Done st'
    /\ exported cfg tar0 st'.
Proof.
  intros Hwf Hsafe Hst. unfold exportTableData.
  destruct (chunkLoop_exported lcli table safe workspaceGUID tar0 Hwf Hsafe
              (planWindows since (lookback L cfg iso)) (mkProgress st 0 0) Hst)
    as (p & -> & Hp).
  cbn [mbind outcome_bind]. eexists. split; [reflexivity|].
  apply exported_entry; [exact Hp|]. eexists _, _. split; [reflexivity | exact Hsafe].
Qed.

Lemma writeSchema_exported tcli table safe tar0 st :
  cleanName safe -> exported cfg tar0 st -> exported cfg tar0 (writeSchema tcli table safe st).
Proof.
  intros Hsafe Hst. unfold writeSchema. destruct tcli as [get|]; [|exact Hst].
  destruct (get table); [|exact Hst].
  apply exported_entry; [exact Hst|]. eexists _, _. split; [reflexivity | exact Hsafe].
Qed.

Lemma SafeFileName_cleanName x : cleanName (SafeFileName x).
Proof. split; [apply SafeFileName_nonempty | apply SafeFileName_clean]. Qed.

Lemma tableLoop_exported lcli tcli clock workspaceGUID iso tar0 :
  wfClient lcli ->
  forall tables st i, exported cfg tar0 st ->
  exists st',
    foldOutcome (exportOne L cfg lcli tcli clock workspaceGUID iso) tables (st, i)
    = Done (st', (i + length tables)%nat)
    /\ exported cfg tar0 st'.
Proof.
  intros Hwf. induction tables as [|table tables IH]; intros st i Hst.
  - exists st. cbn. rewrite Nat.add_0_r. split; [reflexivity | exact Hst].
  - destruct (exportTableData_exported lcli (clock i) table (SafeFileName table)
                workspaceGUID iso tar0 _ Hwf (SafeFileName_cleanName table)
                (writeSchema_exported tcli table (SafeFileName table) tar0 st
                   (SafeFileName_cleanName table) Hst))
      as (st1 & Hdata & Hst1).
    assert (Hstep : exportOne L cfg lcli tcli clock workspaceGUID iso (st, i) table
                    = Done (st1, S i)).
    { unfold exportOne. rewrite Hdata. reflexivity. }
    cbn [foldOutcome]. rewrite Hstep.
    destruct (IH st1 (S i) Hst1) as (st' & Hloop & Hst').
    exists st'. rewrite Hloop. cbn [length].
    replace (i + S (length tables))%nat with (S i + length tables)%nat by lia.
    split; [reflexivity | exact Hst'].
Qed.

Lemma exported_initial tar : exported cfg tar (mkState tar ∅ ∅ 0).
Proof.
  split; [exists []; split; [now rewrite app_nil_r | constructor]|].
  split; [apply map_Forall_empty|]. split; [apply map_Forall_empty|].
  split; [intros _; split; reflexivity | intros _; reflexivity].
Qed.

(** Every builder has been written to: none is skipped when the logs are
    written to the tar. *)
Lemma written_kept {K} `{Countable K} (m : gmap K (list string)) :
  allFilled m -> filter nonEmptyBuilder (map_to_list m) = map_to_list m.
Proof.
  intros Hm.
  assert (Hall : Forall (fun kb => nonEmptyBuilder kb) (map_to_list m)).
  { apply Forall_forall. intros [k b] Hkb. apply elem_of_map_to_list in Hkb.
    specialize (Hm k b Hkb). unfold filled in Hm. unfold nonEmptyBuilder. cbn [snd].
    destruct (String.concat "" b); [congruence | exact I]. }
  induction Hall as [|kb l Hkb _ IH]; [reflexivity|].
  rewrite filter_cons_True by exact Hkb. now rewrite IH.
Qed.

(** The run of [exportTables]. *)
Lemma exportTables_exported lcli tcli clock tables workspaceGUID iso tar :
  wfClient lcli ->
  exists st0,
    exportTables L cfg lcli tcli clock tables workspaceGUID iso tar
    = Done (flushStitched cfg st0)
    /\ exported cfg tar st0.
Proof.
  intros Hwf. unfold exportTables.
  destruct (tableLoop_exported lcli tcli clock workspaceGUID iso tar Hwf tables
              (mkState tar ∅ ∅ 0) 0%nat (exported_initial tar)) as (st0 & -> & Hst0).
  exists st0. split; [reflexivity | exact Hst0].
Qed.

End WithLib.
End ArchiveFacts.

Import Utf8 GoStrings GoTime Utils MustGather Planner Exporter ExporterSpec ExporterFacts.
Import ArchiveSpec ArchiveFacts.

(** X14: with stitching enabled and well-formed responses, [exportTables]
    writes the entries of the tables first, then one log for every builder
    of container logs, then, if events are included, one log for every
    builder of events.  Every builder holds at least one byte, so the test
    that skips an empty builder never skips one: there are as many logs as
    there are keys (namespace, pod, container), respectively namespaces. *)
Theorem X14_one_log_per_builder (L : GoLib) (cfg : Config) (lcli : LogsClient)
  (tcli : TablesClient) (clock : nat -> Z) (tables : list string)
  (workspaceGUID iso : string) (tar : list Entry) :
  wfClient lcli -> StitchLogs cfg = true ->
  exists st added,
    exportTables L cfg lcli tcli clock tables workspaceGUID iso tar = Done st
    /\ Forall underTables added
    /\ tarw st
       = tar ++ added
         ++ map podLogEntry (map_to_list (stitchedLogs st))
         ++ (if StitchIncludeEvents cfg
             then map eventsEntry (map_to_list (stitchedEvents st)) else [])
    /\ allFilled (stitchedLogs st) /\ allFilled (stitchedEvents st)
    /\ (StitchIncludeEvents cfg = false -> stitchedEvents st = ∅).
Proof.
  intros Hwf Hstitch.
  destruct (exportTables_exported L cfg lcli tcli clock tables workspaceGUID iso tar Hwf)
    as (st0 & Hrun & (added & Htar & Hadded) & Hlogs & Hevts & _ & Hnoev).
  exists (flushStitched cfg st0), added. split; [exact Hrun|]. split; [exact Hadded|].
  unfold flushStitched. rewrite Hstitch.
  cbn [tarw stitchedLogs stitchedEvents].
  rewrite (written_kept _ Hlogs), (written_kept _ Hevts), Htar, <- app_assoc.
  repeat split; assumption.
Qed.

(** Two rows of one container and one of another, in the table
    ContainerLogV2: two logs. *)
Lemma X14_witness_two_containers :
  let lcli : LogsClient := fun n _ query _ _ =>
    if (query =? "ContainerLogV2")%string && (n =? 0)%nat then
      QueryResult None
        [mkTable [Some "TimeGenerated"; Some "PodNamespace"; Some "PodName";
                  Some "ContainerName"; Some "LogSource"; Some "LogMessage"]
           [[AString "2023-01-01T11:50:01Z"; AString "prod"; AString "api-0"; AString "api";
             AString "stdout"; AString "ready"];
            [AString "2023-01-01T11:50:00Z"; AString "prod"; AString "db-0";
             AString "postgres"; AString "stderr"; AString "starting"];
            [AString "2023-01-01T11:50:02Z"; AString "prod"; AString "api-0"; AString "api";
             AString "stdout"; AString "serving"]]]
    else QueryResult None [] in
  let cfg := mkConfig "" "15m" "" "" "" false true false false "" in
  exists st (added : list Entry),
    exportTables RefLib.refLib cfg lcli None (fun _ => 63808171200000000000%Z)
                 ["ContainerLogV2"] "guid" "PT0H15M0S" [] = Done st
    /\ length added = 2%nat
    /\ length (map_to_list (stitchedLogs st)) = 2%nat
    /\ stitchedEvents st = ∅.
Proof.
  intros lcli cfg.
  assert (Hwf : wfClient lcli).
  { intros n workspace query t0 t1 perr tab rest. unfold lcli.
    destruct (_ && _); [|discriminate]. intros [= _ <- _].
    split; repeat constructor; eauto. }
  destruct (X14_one_log_per_builder RefLib.refLib cfg lcli None
              (fun _ => 63808171200000000000%Z) ["ContainerLogV2"] "guid" "PT0H15M0S" []
              Hwf eq_refl) as (st & added & Hrun & _ & Htar & _ & _ & Hnoev).
  exists st, added. split; [exact Hrun|].
  assert (Hst : exists st', exportTables RefLib.refLib cfg lcli None
                              (fun _ => 63808171200000000000%Z)
                              ["ContainerLogV2"] "guid" "PT0H15M0S" [] = Done st'
                            /\ length (tarw st') = 4%nat
                            /\ length (map_to_list (stitchedLogs st')) = 2%nat).
  { eexists. split; [vm_compute; reflexivity|]. split; vm_compute; reflexivity. }
  destruct Hst as (st' & Hrun' & Hlen & Hkeys).
  rewrite Hrun in Hrun'. injection Hrun' as <-.
  split; [|split; [exact Hkeys | exact (Hnoev eq_refl)]].
  rewrite Htar in Hlen. cbn [app] in Hlen.
  rewrite length_app, length_app, length_map, Hkeys in Hlen. cbn in Hlen. lia.
Defined.

(** X15: with stitching disabled and well-formed responses, [exportTables]
    writes entries of tables only (schemas, parts and summaries), whatever
    rows the responses hold and whether or not events are to be included:
    no builder is created and no log is written. *)
Theorem X15_stitching_disabled (L : GoLib) (cfg : Config) (lcli : LogsClient)
  (tcli : TablesClient) (clock : nat -> Z) (tables : list string)
  (workspaceGUID iso : string) (tar : list Entry) :
  wfClient lcli -> StitchLogs cfg = false ->
  exists st added,
    exportTables L cfg lcli tcli clock tables workspaceGUID iso tar = Done st
    /\ tarw st = tar ++ added /\ Forall underTables added
    /\ stitchedLogs st = ∅ /\ stitchedEvents st = ∅.
Proof.
  intros Hwf Hoff.
  destruct (exportTables_exported L cfg lcli tcli clock tables workspaceGUID iso tar Hwf)
    as (st0 & Hrun & (added & Htar & Hadded) & _ & _ & Hempty & _).
  exists st0, added. unfold flushStitched in Hrun. rewrite Hoff in Hrun.
  destruct (Hempty Hoff) as [Hlogs Hevts]. repeat split; assumption.
Qed.

(** The noisy chunk of container logs, with stitching disabled. *)
Lemma X15_witness_container_logs_unstitched :
  let lcli : LogsClient := fun n _ _ _ _ =>
    if (n =? 0)%nat then QueryResult None [Samples.noisyTable] else QueryError "timeout" in
  let cfg := mkConfig "" "15m" "" "" "" false false true false "" in
  exists st added,
    exportTables RefLib.refLib cfg lcli None (fun _ => 63808171200000000000%Z)
                 ["ContainerLogV2"] "guid" "PT0H15M0S" [] = Done st
    /\ tarw st = added /\ Forall underTables added
    /\ stitchedLogs st = ∅ /\ stitchedEvents st = ∅.
Proof.
  intros lcli cfg.
  assert (Hwf : wfClient lcli).
  { intros n workspace query t0 t1 perr tab rest. unfold lcli.
    destruct (n =? 0)%nat; [|discriminate]. intros [= _ <- _].
    split; repeat constructor; eauto. }
  exact (X15_stitching_disabled RefLib.refLib cfg lcli None
           (fun _ => 63808171200000000000%Z) ["ContainerLogV2"] "guid" "PT0H15M0S" []
           Hwf eq_refl).
Defined.

(** ** The parts of a table *)

Module PartFacts.
Import Utf8 GoStrings GoTime Utils MustGather Planner Exporter ExporterSpec ExporterFacts.
Import ArchiveSpec.
Local Open Scope Z_scope.
Local Open Scope list_scope.

Lemma totalRows_snoc parts e : totalRows (parts ++ [e]) = totalRows parts + partRows e.
Proof.
  unfold totalRows. induction parts as [|x parts IH]; cbn [app foldr]; [lia|].
  rewrite IH. lia.
Qed.

Lemma numbered_snoc L safe ws parts e :
  numbered L safe ws parts -> isPart L safe ws (length parts) e ->
  numbered L safe ws (parts ++ [e]).
Proof.
  intros Hparts He i x Hi.
  destruct (lookup_app_Some parts [e] i x) as [[H | [Hge H]] _]; [exact Hi | now apply Hparts|].
  apply list_lookup_singleton_Some in H as [Hi0 <-].
  replace i with (length parts) by lia. exact He.
Qed.

Section WithLib.
Variable L : GoLib.
Variable cfg : Config.

Lemma exportChunk_counted lcli table safe workspaceGUID all tar0 p parts w :
  wfClient lcli -> w ∈ all -> counted L safe all tar0 p parts ->
  exists p' parts',
    exportChunk L cfg lcli table safe workspaceGUID p w = Done p'
    /\ counted L safe all tar0 p' parts'.
Proof.
  intros Hwf Hw (Htar & Hidx & Hrows & Hnum). unfold exportChunk.
  destruct (lcli (queries (state p)) workspaceGUID table w.1 w.2)
    as [e | perr [|tab rest]] eqn:Hres.
  - eexists _, parts. split; [reflexivity|]. repeat split; assumption.
  - eexists _, parts. split; [reflexivity|]. repeat split; assumption.
  - destruct (exportRows_ok L cfg table safe w tab
                (mkProgress (mkState (tarw (state p)) (stitchedLogs (state p))
                                     (stitchedEvents (state p)) (S (queries (state p))))
                            (chunkIndex p) (rowsTotal p))
                (Hwf _ _ _ _ _ _ _ _ Hres)) as (colNames & objs & _ & Hobjs & ->).
    cbn [state tarw chunkIndex rowsTotal].
    apply Forall2_length in Hobjs.
    destruct (0 <? Z.of_nat (length (Rows tab))) eqn:Hpos.
    + apply Z.ltb_lt in Hpos.
      eexists _, (parts ++ [_]). split; [reflexivity|].
      split; [|split; [|split]]; cbn [state tarw chunkIndex rowsTotal].
      * now rewrite Htar, <- app_assoc.
      * rewrite length_app, Hidx. cbn [length]. lia.
      * rewrite totalRows_snoc, Hrows. unfold partRows. cbn [payload]. now rewrite Hobjs.
      * apply numbered_snoc; [exact Hnum|]. exists w, objs. split; [exact Hw|].
        split; [destruct objs; [cbn in Hobjs; lia | discriminate]|].
        now rewrite Hidx.
    + apply Z.ltb_ge in Hpos.
      eexists _, parts. split; [reflexivity|].
      split; [|split; [|split]]; cbn [state tarw chunkIndex rowsTotal].
      * now rewrite app_nil_r.
      * exact Hidx.
      * lia.
      * exact Hnum.
Qed.

Lemma chunkLoop_counted lcli table safe workspaceGUID all tar0 :
  wfClient lcli ->
  forall ws p parts,
    (forall w, w ∈ ws -> w ∈ all) -> counted L safe all tar0 p parts ->
    exists p' parts',
      foldOutcome (exportChunk L cfg lcli table safe workspaceGUID) ws p = Done p'
      /\ counted L safe all tar0 p' parts'.
Proof.
  intros Hwf. induction ws as [|w ws IH]; intros p parts Hall Hp.
  - exists p, parts. split; [reflexivity | exact Hp].
  - destruct (exportChunk_counted lcli table safe workspaceGUID all tar0 p parts w Hwf
                (Hall w (list_elem_of_here _ _)) Hp) as (p1 & parts1 & H1 & Hp1).
    destruct (IH p1 parts1) as (p' & parts' & H' & Hp'); [|exact Hp1|].
    { intros w' Hw'. apply Hall. now apply list_elem_of_further. }
    exists p', parts'. cbn [foldOutcome]. rewrite H1. split; assumption.
Qed.

End WithLib.
End PartFacts.

Import Utf8 GoStrings GoTime Utils MustGather Planner Exporter ExporterSpec ExporterFacts.
Import ArchiveSpec PartFacts.

(** X16: for well-formed responses, [exportTableData] adds to the tar the
    parts of the table and then its summary.  The parts are numbered from 0
    in the order in which they are written, without a gap whatever windows
    failed or came back empty; each holds the rows of one planned window, at
    least one; and the row count of the summary is the number of lines of
    the parts. *)
Theorem X16_parts_numbered_rows_counted (L : GoLib) (cfg : Config) (lcli : LogsClient)
  (since : Z) (table safe workspaceGUID iso : string) (st : State) :
  wfClient lcli ->
  exists st' parts,
    exportTableData L cfg lcli since table safe workspaceGUID iso st = Done st'
    /\ tarw st' = tarw st ++ parts ++ [summaryEntry table safe (totalRows parts) iso]
    /\ numbered L safe (planWindows since (lookback L cfg iso)) parts.
Proof.
  intros Hwf. unfold exportTableData.
  destruct (chunkLoop_counted L cfg lcli table safe workspaceGUID
              (planWindows since (lookback L cfg iso)) (tarw st) Hwf
              (planWindows since (lookback L cfg iso)) (mkProgress st 0 0) [])
    as (p & parts & -> & Htar & _ & Hrows & Hnum).
  { auto. }
  { split; [now rewrite app_nil_r|]. split; [reflexivity|]. split; [reflexivity|].
    intros i e Hi. now rewrite lookup_nil in Hi. }
  cbn [mbind outcome_bind]. eexists _, parts. split; [reflexivity|].
  cbn [tarw]. rewrite Htar, Hrows, <- app_assoc. split; [reflexivity | exact Hnum].
Qed.

(** Thirty minutes of Perf from the client whose other queries fail: two
    windows, each with one row. *)
Lemma X16_witness_two_parts :
  let cfg := mkConfig "" "30m" "" "" "" false false false false "" in
  exists st' parts,
    exportTableData RefLib.refLib cfg Samples.flakyClient 63808171200000000000%Z
                    "Perf" "Perf" "guid" "PT0H30M0S" (mkState [] ∅ ∅ 0) = Done st'
    /\ tarw st' = parts ++ [summaryEntry "Perf" "Perf" (totalRows parts) "PT0H30M0S"]
    /\ numbered RefLib.refLib "Perf"
                (planWindows 63808171200000000000%Z (lookback RefLib.refLib cfg "PT0H30M0S"))
                parts.
Proof.
  intros cfg.
  assert (Hwf : wfClient Samples.flakyClient).
  { intros n workspace query t0 t1 perr tab rest. unfold Samples.flakyClient.
    destruct (query =? "Perf")%string; [|discriminate].
    intros [= _ <- _]. split; repeat constructor; eauto. }
  exact (X16_parts_numbered_rows_counted RefLib.refLib cfg Samples.flakyClient
           63808171200000000000%Z "Perf" "Perf" "guid" "PT0H30M0S" (mkState [] ∅ ∅ 0) Hwf).
Defined.

(** ** Events *)

Module EventFacts.
Import Utf8 GoStrings GoTime Utils MustGather Planner Exporter ExporterSpec ExporterFacts.
Import ArchiveSpec.
Local Open Scope list_scope.

Section WithLib.
Variable L : GoLib.
Variable cfg : Config.

(** Appending the events of a chunk writes, to the builder of every
    namespace, the lines of the events filed under it, in the order
    given. *)
Lemma appendEvents_lines namespace : forall rows evts,
  linesOf (appendEvents L rows evts) namespace
  = linesOf evts namespace ++ map (evtLine L) (filter (filedUnder namespace) rows).
Proof.
  unfold appendEvents.
  induction rows as [|r rows IH]; intros evts; cbn [fold_left].
  - rewrite filter_nil. cbn [map]. now rewrite app_nil_r.
  - rewrite IH, linesOf_writeLine.
    destruct (decide (evtNamespace r = namespace)) as [Hk|Hk].
    + rewrite filter_cons_True by exact Hk. cbn [map]. rewrite Hk, <- app_assoc. reflexivity.
    + rewrite filter_cons_False by exact Hk. reflexivity.
Qed.

Lemma evtNamespace_nonempty r : evtNamespace r <> EmptyString.
Proof. unfold evtNamespace. destruct (evns r); discriminate. Qed.

(** No event is filed under the empty namespace. *)
Lemma appendEvents_empty_key rows evts :
  appendEvents L rows evts !! EmptyString = evts !! EmptyString.
Proof.
  unfold appendEvents. revert evts.
  induction rows as [|r rows IH]; intros evts; cbn [fold_left]; [reflexivity|].
  rewrite IH. unfold writeLine. apply lookup_insert_ne. apply evtNamespace_nonempty.
Qed.

Lemma stitchV2_other table rows logs :
  table <> "ContainerLogV2" -> stitchV2 L cfg table rows logs = logs.
Proof.
  intros Hne. unfold stitchV2. apply String.eqb_neq in Hne. rewrite Hne.
  now rewrite andb_false_r.
Qed.

End WithLib.
End EventFacts.

Import Utf8 GoStrings GoTime Utils MustGather Planner Exporter ExporterSpec ExporterFacts.
Import ArchiveSpec EventFacts.

(** X17: in a chunk of KubeEvents, with stitching and the events enabled,
    the line of every event is appended to the builder of its namespace, in
    the order [sort.Slice] leaves the events in; an event without a
    namespace is filed under the namespace default, so the builder of the
    empty namespace is never written to; and the builders of the container
    logs are left alone. *)
Theorem X17_events_filed_by_namespace (L : GoLib) (cfg : Config) (safe : string)
  (w : Window) (tab : Table) (p : Progress) :
  StitchLogs cfg = true -> StitchIncludeEvents cfg = true ->
  wfTable tab -> Rows tab <> [] ->
  exists colNames p',
    columnNames (Columns tab) = Done colNames
    /\ exportRows L cfg "KubeEvents" safe w tab p = Done p'
    /\ (collectsEvents cfg "KubeEvents" (lookupIndices colNames) = true ->
        forall namespace,
          linesOf (stitchedEvents (state p')) namespace
          = linesOf (stitchedEvents (state p)) namespace
            ++ map (evtLine L)
                 (filter (filedUnder namespace)
                    (sortSlice L evtrow (evtLess L)
                       (map (evtOf L (lookupIndices colNames)) (Rows tab)))))
    /\ (forall r, evns r = EmptyString -> filedUnder "default" r)
    /\ stitchedEvents (state p') !! EmptyString = stitchedEvents (state p) !! EmptyString
    /\ stitchedLogs (state p') = stitchedLogs (state p).
Proof.
  intros Hstitch Hevents Hwf Hrows.
  destruct (exportRows_ok L cfg "KubeEvents" safe w tab p Hwf)
    as (colNames & objs & Hnames & _ & Hexp).
  eexists colNames, _. split; [exact Hnames|]. split; [exact Hexp|].
  cbn [state stitchedEvents stitchedLogs]. split; [|split; [|split]].
  - intros Hcollect namespace. rewrite Hcollect. unfold stitchEvents.
    rewrite Hstitch, Hevents. cbn [andb].
    change (("KubeEvents" =? "KubeEvents")%string) with true. cbn [andb].
    rewrite length_map.
    destruct (Rows tab) as [|row rows] eqn:E; [congruence|].
    cbn [length Nat.ltb Nat.leb]. apply appendEvents_lines.
  - intros r Hr. unfold filedUnder, evtNamespace. rewrite Hr. reflexivity.
  - unfold stitchEvents. destruct (_ && _); [apply appendEvents_empty_key | reflexivity].
  - apply stitchV2_other. discriminate.
Qed.

(** Two events, the second one without a namespace. *)
Lemma X17_witness_event_without_namespace :
  let cfg := mkConfig "" "30m" "" "" "" false true true false "" in
  let tab := mkTable [Some "TimeGenerated"; Some "Namespace"; Some "Name"; Some "Reason";
                      Some "Message"]
                     [[AString "2023-01-01T11:50:01Z"; AString "prod"; AString "api-0";
                       AString "BackOff"; AString "restarting"];
                      [AString "2023-01-01T11:50:00Z"; AString ""; AString "node-1";
                       AString "NodeReady"; AString "ready"]] in
  let p := mkProgress (mkState [] ∅ ∅ 1) 0 0 in
  exists p',
    exportRows RefLib.refLib cfg "KubeEvents" "KubeEvents" (0, 1)%Z tab p = Done p'
    /\ linesOf (stitchedEvents (state p')) "default"
       = ["2023-01-01T11:50:00Z default/node-1 NodeReady ready" ++ newline]%string
    /\ stitchedEvents (state p') !! EmptyString = None
    /\ stitchedLogs (state p') = ∅.
Proof.
  intros cfg tab p.
  destruct (X17_events_filed_by_namespace RefLib.refLib cfg "KubeEvents" (0, 1)%Z tab p
              eq_refl eq_refl ltac:(split; repeat constructor; eauto) ltac:(discriminate))
    as (colNames & p' & Hn & Hexp & Hlines & _ & Hempty & Hlogs).
  exists p'. split; [exact Hexp|].
  injection Hn as <-.
  split; [|split; [exact Hempty | exact Hlogs]].
  rewrite (Hlines eq_refl). reflexivity.
Defined.

(** ** The run *)

Module RunFacts.
Import Utf8 GoStrings GoTime Utils MustGather Planner Exporter ExporterSpec ExporterFacts.
Import ResourceID Gatherer ResourceFacts.
Local Open Scope list_scope.

Lemma isEmpty_false (s : string) : s <> EmptyString -> isEmpty s = false.
Proof. destruct s; [congruence | reflexivity]. Qed.

Lemma isEmpty_true (s : string) : isEmpty s = true -> s = EmptyString.
Proof. destruct s; [reflexivity | discriminate]. Qed.

Section WithLib.
Variable L : GoLib.
Variable lowerRune : string -> string.
Variable az : Azure.
Variable cfg : Config.

(** What the resolution of the workspace went through when it ends with a
    GUID. *)
Lemma resolveWorkspace_Ok ids tables workspaceGUID :
  resolveWorkspace lowerRune az cfg = Done (Ok (ids, tables, workspaceGUID)) ->
  workspaceGUID <> EmptyString ->
  exists w,
    ParseResourceID lowerRune (WorkspaceID cfg) = Ok ids
    /\ NewWorkspacesClient az (sub ids) = None
    /\ WorkspacesGet az (sub ids) (rg ids) (workspace ids) = Ok w
    /\ workspaceGUID = customerID w
    /\ (if AllTables cfg
        then NewTablesClient az (sub ids) = None
             /\ listTables (ListByWorkspace az (sub ids) (rg ids) (workspace ids)) []
                = Done (Ok tables)
        else tables = []).
Proof.
  unfold resolveWorkspace.
  destruct (isEmpty (WorkspaceID cfg)); cbn [negb].
  { intros [= _ _ <-] Hne. congruence. }
  destruct (ParseResourceID lowerRune (WorkspaceID cfg)) as [ids'|e]; [|discriminate].
  destruct (NewWorkspacesClient az (sub ids')) eqn:Hcli; [discriminate|].
  destruct (WorkspacesGet az (sub ids') (rg ids') (workspace ids')) as [w|e] eqn:Hget;
    [|discriminate].
  destruct (AllTables cfg).
  - destruct (NewTablesClient az (sub ids')) eqn:Htcli; [discriminate|].
    destruct (listTables _ []) as [[tables'|e]|msg] eqn:Hlist; try discriminate.
    intros [= <- <- <-] _. exists w. repeat split; assumption.
  - intros [= <- <- <-] _. exists w. repeat split; assumption.
Qed.

End WithLib.
End RunFacts.

Import Utf8 GoStrings GoTime Utils MustGather Planner Exporter ExporterSpec ExporterFacts.
Import ResourceID Gatherer ResourceFacts RunFacts.

(** X18: [Run] creates the output file only after the timespan has been
    accepted, the workspace ID has been split, and the workspace has been
    fetched and carries a non-empty GUID.  What it then writes starts with
    metadata/workspace.json, which records the number of resolved tables,
    followed by metadata/azure.json: the three identifiers are never empty
    there, so the test that guards this entry always holds.  When [Run]
    returns no error, the entries of [exportTables] follow, and index.json,
    listing the resolved tables, is last. *)
Theorem X18_Run_output (L : GoLib) (lowerRune : string -> string) (az : Azure)
  (cfg : Config) (r : RunResult) (file : string) :
  Run L lowerRune az cfg = Done r -> outFile r = Some file ->
  exists iso ids w catalog rest,
    ISO8601Duration L (Timespan cfg) = Ok iso
    /\ ParseResourceID lowerRune (WorkspaceID cfg) = Ok ids
    /\ WorkspacesGet az (sub ids) (rg ids) (workspace ids) = Ok w
    /\ customerID w <> EmptyString
    /\ (AllTables cfg = false -> catalog = [])
    /\ file = GenerateDefaultOutputName L az cfg
    /\ Create az file = None
    /\ written r
       = WorkspaceJSON (timeFormat L (mkInstant (nanos (metaClock az)) 0) RFC3339Nano)
                       (customerID w) (WorkspaceID cfg) iso
                       (Z.of_nat (length (resolveTables cfg catalog)))
         :: AzureJSON (sub ids) (rg ids) (workspace ids) :: rest
    /\ (err r = None ->
        exists st,
          exportTables L cfg (QueryWorkspace az)
                       (Some (TablesGet az (sub ids) (rg ids) (workspace ids)))
                       (tableClock az) (resolveTables cfg catalog) (customerID w) iso []
          = Done st
          /\ rest = map Exported (tarw st) ++ [IndexJSON (resolveTables cfg catalog)]).
Proof.
  unfold Run. intros Hrun Hfile.
  destruct (ISO8601Duration L (Timespan cfg)) as [iso|e] eqn:Hiso;
    [|injection Hrun as <-; discriminate].
  destruct (resolveWorkspace lowerRune az cfg) as [[[[ids catalog] guid]|e]|msg] eqn:Hres;
    [| injection Hrun as <-; discriminate | discriminate].
  destruct (isEmpty guid) eqn:Hguid; [injection Hrun as <-; discriminate|].
  assert (Hne : guid <> EmptyString) by (intros ->; discriminate).
  destruct (resolveWorkspace_Ok lowerRune az cfg _ _ _ Hres Hne)
    as (w & Hparse & _ & Hget & -> & Hcat).
  destruct (ParseResourceID_Ok lowerRune _ _ Hparse) as (_ & _ & _ & Hs & Hg & Hw).
  rewrite (isEmpty_false _ Hs), (isEmpty_false _ Hg), (isEmpty_false _ Hw) in Hrun.
  cbn [negb andb app] in Hrun.
  destruct (Create az (GenerateDefaultOutputName L az cfg)) eqn:Hcreate;
    [injection Hrun as <-; discriminate|].
  assert (Hcatalog : AllTables cfg = false -> catalog = [])
    by (intros Hall; now rewrite Hall in Hcat).
  destruct (NewLogsClient az).
  { injection Hrun as <-. cbn [outFile] in Hfile. injection Hfile as <-.
    exists iso, ids, w, catalog, []. repeat split; try assumption. discriminate. }
  destruct (NewTablesClient az (sub ids)).
  { injection Hrun as <-. cbn [outFile] in Hfile. injection Hfile as <-.
    exists iso, ids, w, catalog, []. repeat split; try assumption. discriminate. }
  destruct (exportTables L cfg (QueryWorkspace az) _ (tableClock az) _ (customerID w) iso [])
    as [st|msg] eqn:Hexp; [|discriminate].
  injection Hrun as <-. cbn [outFile] in Hfile. injection Hfile as <-.
  exists iso, ids, w, catalog, (map Exported (tarw st) ++ [IndexJSON (resolveTables cfg catalog)]).
  repeat split; try assumption.
  intros _. exists st. split; [exact Hexp | reflexivity].
Qed.

Import Utf8 GoStrings GoTime Utils MustGather Planner Exporter ExporterSpec ExporterFacts.
Import ResourceID Gatherer ResourceFacts RunFacts.

(** The workspace of the sample environment, all tables. *)
Lemma X18_witness_sample_run :
  exists r,
    Run RefLib.refLib (fun rune => rune) SampleRun.azure SampleRun.config = Done r
    /\ exists iso ids w catalog rest,
         ISO8601Duration RefLib.refLib (Timespan SampleRun.config) = Ok iso
         /\ ParseResourceID (fun rune => rune) (WorkspaceID SampleRun.config) = Ok ids
         /\ WorkspacesGet SampleRun.azure (sub ids) (rg ids) (workspace ids) = Ok w
         /\ customerID w <> EmptyString
         /\ (AllTables SampleRun.config = false -> catalog = [])
         /\ "out.tar.gz" = GenerateDefaultOutputName RefLib.refLib SampleRun.azure SampleRun.config
         /\ Create SampleRun.azure "out.tar.gz" = None
         /\ written r
            = WorkspaceJSON (timeFormat RefLib.refLib
                               (mkInstant (nanos (metaClock SampleRun.azure)) 0) RFC3339Nano)
                            (customerID w) (WorkspaceID SampleRun.config) iso
                            (Z.of_nat (length (resolveTables SampleRun.config catalog)))
              :: AzureJSON (sub ids) (rg ids) (workspace ids) :: rest
         /\ (err r = None ->
             exists st,
               exportTables RefLib.refLib SampleRun.config (QueryWorkspace SampleRun.azure)
                            (Some (TablesGet SampleRun.azure (sub ids) (rg ids) (workspace ids)))
                            (tableClock SampleRun.azure)
                            (resolveTables SampleRun.config catalog) (customerID w) iso []
               = Done st
               /\ rest = map Exported (tarw st)
                         ++ [IndexJSON (resolveTables SampleRun.config catalog)]).
Proof.
  assert (Hrun : exists r,
             Run RefLib.refLib (fun rune => rune) SampleRun.azure SampleRun.config = Done r
             /\ outFile r = Some "out.tar.gz")
    by (eexists; split; vm_compute; reflexivity).
  destruct Hrun as (r & Hrun & Hfile).
  exists r. split; [exact Hrun|].
  exact (X18_Run_output RefLib.refLib (fun rune => rune) SampleRun.azure SampleRun.config
           r "out.tar.gz" Hrun Hfile).
Defined.

(** X19: when the timespan is accepted, the workspace ID is split, the
    clients are created, the workspace carries a GUID, the catalog is listed
    if all tables are asked for, the output file is created and the
    responses are well formed, [Run] returns no error and the archive is
    complete: the two metadata entries, the entries of [exportTables] for
    the resolved tables, queried with the GUID and the ISO form of the
    timespan, and the index. *)
Theorem X19_Run_succeeds (L : GoLib) (lowerRune : string -> string) (az : Azure)
  (cfg : Config) (iso : string) (ids : Parts) (w : Workspace) (catalog : list string) :
  ISO8601Duration L (Timespan cfg) = Ok iso ->
  ParseResourceID lowerRune (WorkspaceID cfg) = Ok ids ->
  NewWorkspacesClient az (sub ids) = None ->
  WorkspacesGet az (sub ids) (rg ids) (workspace ids) = Ok w ->
  customerID w <> EmptyString ->
  NewTablesClient az (sub ids) = None ->
  (if AllTables cfg
   then listTables (ListByWorkspace az (sub ids) (rg ids) (workspace ids)) [] = Done (Ok catalog)
   else catalog = []) ->
  Create az (GenerateDefaultOutputName L az cfg) = None ->
  NewLogsClient az = None ->
  wfClient (QueryWorkspace az) ->
  let tables := resolveTables cfg catalog in
  exists st,
    exportTables L cfg (QueryWorkspace az)
                 (Some (TablesGet az (sub ids) (rg ids) (workspace ids)))
                 (tableClock az) tables (customerID w) iso [] = Done st
    /\ Run L lowerRune az cfg
       = Done (mkRunResult
                 (Some (GenerateDefaultOutputName L az cfg))
                 (WorkspaceJSON (timeFormat L (mkInstant (nanos (metaClock az)) 0) RFC3339Nano)
                                (customerID w) (WorkspaceID cfg) iso (Z.of_nat (length tables))
                  :: AzureJSON (sub ids) (rg ids) (workspace ids)
                  :: map Exported (tarw st) ++ [IndexJSON tables])
                 None).
Proof.
  intros Hiso Hparse Hwcli Hget Hguid Htcli Hcat Hcreate Hlcli Hwf tables.
  destruct (ParseResourceID_Ok lowerRune _ _ Hparse) as (Htrim & _ & _ & Hs & Hg & Hw).
  assert (Hid : isEmpty (WorkspaceID cfg) = false).
  { destruct (WorkspaceID cfg); [|reflexivity]. now destruct Htrim. }
  assert (Hres : resolveWorkspace lowerRune az cfg = Done (Ok (ids, catalog, customerID w))).
  { unfold resolveWorkspace. rewrite Hid, Hparse, Hwcli, Hget. cbn [negb].
    destruct (AllTables cfg); [now rewrite Htcli, Hcat | now rewrite Hcat]. }
  destruct (tableLoop_ok L cfg (QueryWorkspace az)
              (Some (TablesGet az (sub ids) (rg ids) (workspace ids))) (tableClock az)
              (customerID w) iso Hwf tables (mkState [] ∅ ∅ 0) 0%nat eq_refl)
    as (st0 & Hloop & _).
  exists (flushStitched cfg st0).
  assert (Hexp : exportTables L cfg (QueryWorkspace az)
                   (Some (TablesGet az (sub ids) (rg ids) (workspace ids)))
                   (tableClock az) tables (customerID w) iso [] = Done (flushStitched cfg st0)).
  { unfold exportTables. rewrite Hloop. reflexivity. }
  split; [exact Hexp|].
  unfold Run. rewrite Hiso, Hres, (isEmpty_false _ Hguid), Hcreate, Hlcli.
  rewrite (isEmpty_false _ Hs), (isEmpty_false _ Hg), (isEmpty_false _ Hw), Htcli.
  cbn [negb andb]. fold tables. rewrite Hexp. reflexivity.
Qed.

(** The sample environment: the catalog of two pages, a table without a
    name skipped. *)
Lemma X19_witness_sample_run :
  exists st,
    exportTables RefLib.refLib SampleRun.config Samples.flakyClient
                 (Some (fun _ => None)) (fun _ => 63808171200000000000%Z)
                 ["Perf"; "Heartbeat"] "guid-1" "PT0H15M0S" [] = Done st
    /\ Run RefLib.refLib (fun rune => rune) SampleRun.azure SampleRun.config
       = Done (mkRunResult
                 (Some "out.tar.gz")
                 (WorkspaceJSON "2023-01-01T12:00:00Z" "guid-1" SampleRun.workspaceID
                                "PT0H15M0S" 2
                  :: AzureJSON "12345678-1234-1234-1234-123456789012" "myRG" "myWorkspace"
                  :: map Exported (tarw st) ++ [IndexJSON ["Perf"; "Heartbeat"]])
                 None).
Proof.
  assert (Hwf : wfClient Samples.flakyClient).
  { intros n workspace query t0 t1 perr tab rest. unfold Samples.flakyClient.
    destruct (query =? "Perf")%string; [|discriminate].
    intros [= _ <- _]. split; repeat constructor; eauto. }
  exact (X19_Run_succeeds RefLib.refLib (fun rune => rune) SampleRun.azure SampleRun.config
           "PT0H15M0S"
           (mkParts "12345678-1234-1234-1234-123456789012" "myRG" "myWorkspace")
           (mkWorkspace (Some (mkWorkspaceProperties (Some "guid-1"))))
           ["Perf"; "Heartbeat"]
           eq_refl eq_refl eq_refl eq_refl ltac:(discriminate) eq_refl eq_refl eq_refl eq_refl
           Hwf).
Defined.

Import Utf8 GoStrings GoTime Utils MustGather Planner Exporter ExporterSpec ExporterFacts.
Import PlannerSpec PlannerFacts.

Section NegativeLookback.
Local Open Scope Z_scope.

(** X20: a negative lookback plans no window: [exportTableData] issues no
    query and writes nothing but a summary of 0 rows.  The lookback is
    negative when the sum of the components of the ISO form overflows
    [int64]. *)
Theorem X20_negative_lookback_exports_nothing (L : GoLib) (cfg : Config) (lcli : LogsClient)
  (since : Z) (table safe workspaceGUID iso : string) (st : State) :
  - 2 ^ 63 < lookback L cfg iso < 0 ->
  planWindows since (lookback L cfg iso) = []
  /\ exportTableData L cfg lcli since table safe workspaceGUID iso st
     = Done (mkState (tarw st ++ [summaryEntry table safe 0 iso])
                     (stitchedLogs st) (stitchedEvents st) (queries st)).
Proof.
  intros Hneg.
  assert (Hplan : planWindows since (lookback L cfg iso) = []).
  { unfold planWindows, chunkStart, chunkSize, turns.
    set (D := lookback L cfg iso) in *.
    destruct (Z.eqb_spec D 0) as [|_]; [lia|].
    rewrite (wrap64_small (- D)) by lia.
    assert (Hc : 15 * Minute = 900000000000) by reflexivity.
    assert (Hh : 2 * Hour = 7200000000000) by reflexivity.
    destruct (Z.leb_spec D (2 * Hour)) as [_|Hgt]; [|lia].
    replace (since - (since + - D) + 15 * Minute - 1) with (D + 15 * Minute - 1) by lia.
    rewrite Hc.
    assert (Hq : (D + 900000000000 - 1) / 900000000000 <= 0).
    { apply Z.lt_succ_r. apply Z.div_lt_upper_bound; lia. }
    destruct ((D + 900000000000 - 1) / 900000000000) eqn:E; try lia; reflexivity. }
  split; [exact Hplan|].
  unfold exportTableData. rewrite Hplan. reflexivity.
Qed.

(** 2562047 hours and 153722867 minutes: each component fits, their sum
    does not. *)
Lemma X20_witness_overflowing_timespan :
  let cfg := mkConfig "" "PT2562047H153722867M" "" "" "" false false false false "" in
  lookback RefLib.refLib cfg "PT2562047H153722867M" = -2853709551616
  /\ planWindows 63808171200000000000 (lookback RefLib.refLib cfg "PT2562047H153722867M") = []
  /\ exportTableData RefLib.refLib cfg Samples.flakyClient 63808171200000000000
                     "Perf" "Perf" "guid" "PT2562047H153722867M" (mkState [] ∅ ∅ 0)
     = Done (mkState [summaryEntry "Perf" "Perf" 0 "PT2562047H153722867M"] ∅ ∅ 0).
Proof.
  intros cfg. split; [reflexivity|].
  exact (X20_negative_lookback_exports_nothing RefLib.refLib cfg Samples.flakyClient
           63808171200000000000 "Perf" "Perf" "guid" "PT2562047H153722867M" (mkState [] ∅ ∅ 0)
           ltac:(split; reflexivity)).
Defined.

End NegativeLookback.

(** ** Lines *)

Module LineFacts.
Import Utf8 GoStrings GoTime Utils MustGather Exporter StringSpec StringFacts DurationFacts.

Lemma ReplaceAll_removes old new s :
  allChars (fun c => negb (c =? old)%char) new = true ->
  allChars (fun c => negb (c =? old)%char) (ReplaceAll old new s) = true.
Proof.
  intros Hnew. induction s as [|c s IH]; cbn [ReplaceAll]; [reflexivity|].
  destruct (c =? old)%char eqn:Hc.
  - now rewrite allChars_app, Hnew, IH.
  - cbn [allChars]. now rewrite Hc, IH.
Qed.

Lemma ReplaceAll_keeps P old new s :
  allChars P new = true -> allChars P s = true -> allChars P (ReplaceAll old new s) = true.
Proof.
  intros Hnew. induction s as [|c s IH]; cbn [ReplaceAll allChars]; [reflexivity|].
  intros [Hc Hs]%andb_prop. destruct (c =? old)%char.
  - now rewrite allChars_app, Hnew, IH.
  - cbn [allChars]. now rewrite Hc, IH.
Qed.

Lemma allChars_and P Q s :
  allChars P s = true -> allChars Q s = true -> allChars (fun c => P c && Q c) s = true.
Proof.
  induction s as [|c s IH]; cbn [allChars]; [reflexivity|].
  intros [-> Hp]%andb_prop [-> Hq]%andb_prop. now rewrite IH.
Qed.

End LineFacts.

Import Utf8 GoStrings GoTime Utils MustGather Exporter StringSpec StringFacts LineFacts.

(** X21: the line written for a container-log row is the time stamp, the
    source in brackets and the message, ended by a line feed; the message
    is written without any carriage return or line feed of its own (a line
    feed becomes a backslash and an n), so a message of several lines stays
    on one line.  The line of an event ends with its message, in which every
    line feed has become a blank. *)
Theorem X21_message_on_one_line (L : GoLib) :
  (forall r : v2row,
     exists text,
       v2Line L r = (lineStamp L (tm r) ++ " [" ++ src r ++ "] " ++ text ++ newline)%string
       /\ allChars (fun c => negb (c =? lineFeed)%char && negb (c =? carriageReturn)%char) text
          = true)
  /\ (forall r : evtrow,
        exists text,
          evtLine L r
          = (lineStamp L (evtm r) ++ " " ++ evtNamespace r ++ "/" ++ name r ++ " " ++ reason r
             ++ " " ++ text ++ newline)%string
          /\ allChars (fun c => negb (c =? lineFeed)%char) text = true).
Proof.
  split.
  - intros r. eexists. split; [reflexivity|].
    apply allChars_and.
    + apply ReplaceAll_removes. reflexivity.
    + apply ReplaceAll_keeps; [reflexivity|]. apply ReplaceAll_removes. reflexivity.
  - intros r. eexists. split; [reflexivity|]. apply ReplaceAll_removes. reflexivity.
Qed.

(** ** White space around an argument *)

Module TrimFacts.
Import Utf8 GoStrings StringSpec StringFacts DurationFacts.

(** A white-space rune at the head of [a] is one at the head of [a ++ b],
    and all its bytes lie in [a]. *)
Lemma spaceLen_app a b k :
  spaceLen a = S k -> spaceLen (a ++ b) = S k /\ (k < String.length a)%nat.
Proof.
  destruct a as [|c r]; [discriminate|]. app_step; cbv beta iota. unfold spaceLen.
  destruct (isAsciiSpace c).
  { intros [= <-]. split; [reflexivity | cbn; lia]. }
  destruct (c =? "194")%char.
  { destruct r as [|d r']; [discriminate|]. app_step; cbv beta iota.
    destruct ((d =? "133") || (d =? "160"))%char; [|discriminate].
    intros [= <-]. split; [reflexivity | cbn; lia]. }
  destruct (c =? "225")%char.
  { destruct r as [|d r']; [discriminate|]. app_step; cbv beta iota.
    by_byte d; try discriminate.
    destruct r' as [|e r'']; [discriminate|]. app_step; cbv beta iota.
    by_byte e; try discriminate.
    intros [= <-]. split; [reflexivity | cbn; lia]. }
  destruct (c =? "226")%char.
  { destruct r as [|d r']; [discriminate|]. app_step; cbv beta iota.
    by_byte d; try discriminate.
    all: destruct r' as [|e r'']; [discriminate|]; app_step; cbv beta iota.
    all: first
      [ destruct (between "128" "138" e || (e =? "168") || (e =? "169") || (e =? "175"))%char;
        [|discriminate]
      | by_byte e; try discriminate ].
    all: intros [= <-]; (split; [reflexivity | cbn; lia]). }
  destruct (c =? "227")%char; [|discriminate].
  destruct r as [|d r']; [discriminate|]. app_step; cbv beta iota.
  by_byte d; try discriminate.
  destruct r' as [|e r'']; [discriminate|]. app_step; cbv beta iota.
  by_byte e; try discriminate.
  intros [= <-]. split; [reflexivity | cbn; lia].
Qed.

Lemma allSpaceFrom_app b : allSpaceFrom 0 b = true ->
  forall a k, (k <= String.length a)%nat -> allSpaceFrom k a = true ->
              allSpaceFrom k (a ++ b) = true.
Proof.
  intros Hb. induction a as [|c r IH]; intros k Hk; app_step.
  - cbn in Hk. replace k with 0%nat by lia. intros _. exact Hb.
  - cbn [allSpaceFrom]. cbn [String.length] in Hk. destruct k as [|k].
    + destruct (spaceLen (String c r)) as [|k'] eqn:Hlen; [discriminate|].
      destruct (spaceLen_app (String c r) b k' Hlen) as [Happ Hk'].
      change (String c r ++ b)%string with (String c (r ++ b)%string) in Happ.
      rewrite Happ. cbn [String.length] in Hk'. apply IH. lia.
    + apply IH. lia.
Qed.

(** What [TrimRightSpace] drops is made of white space. *)
Lemma TrimRightSpace_split t :
  exists w, t = (TrimRightSpace t ++ w)%string /\ allSpaceFrom 0 w = true.
Proof.
  induction t as [|c r (w & Hw & Hspace)]; [exists EmptyString; split; reflexivity|].
  cbn [TrimRightSpace]. destruct (allSpaceFrom 0 (String c r)) eqn:Hall.
  - exists (String c r). split; [reflexivity | exact Hall].
  - exists w. app_step. split; [now rewrite <- Hw | exact Hspace].
Qed.

Lemma TrimRightSpace_idempotent t : TrimRightSpace (TrimRightSpace t) = TrimRightSpace t.
Proof.
  induction t as [|c r IH]; [reflexivity|].
  cbn [TrimRightSpace]. destruct (allSpaceFrom 0 (String c r)) eqn:Hall; [reflexivity|].
  cbn [TrimRightSpace]. rewrite IH.
  destruct (allSpaceFrom 0 (String c (TrimRightSpace r))) eqn:Hall'; [|reflexivity].
  exfalso. destruct (TrimRightSpace_split r) as (w & Hw & Hspace).
  pose proof (allSpaceFrom_app w Hspace (String c (TrimRightSpace r)) 0 ltac:(lia) Hall') as H.
  change (String c (TrimRightSpace r) ++ w)%string
    with (String c (TrimRightSpace r ++ w)%string) in H.
  rewrite <- Hw in H. congruence.
Qed.

(** What [TrimLeftSpace] returns does not start with white space. *)
Lemma trimLeftFrom_head : forall s k,
  trimLeftFrom k s = EmptyString \/ spaceLen (trimLeftFrom k s) = 0%nat.
Proof.
  induction s as [|c r IH]; intros k; [left; reflexivity|].
  cbn [trimLeftFrom]. destruct k as [|k]; [|apply IH].
  destruct (spaceLen (String c r)) as [|k'] eqn:Hlen; [right; exact Hlen | apply IH].
Qed.

Lemma TrimLeftSpace_fixed s : spaceLen s = 0%nat -> TrimLeftSpace s = s.
Proof.
  intros H. unfold TrimLeftSpace. destruct s as [|c r]; [reflexivity|].
  cbn [trimLeftFrom]. now rewrite H.
Qed.

Lemma TrimSpace_idempotent s : TrimSpace (TrimSpace s) = TrimSpace s.
Proof.
  unfold TrimSpace.
  assert (Hleft : TrimLeftSpace (TrimRightSpace (TrimLeftSpace s))
                  = TrimRightSpace (TrimLeftSpace s)).
  { destruct (trimLeftFrom_head s 0) as [Hempty | Hhead]; fold (TrimLeftSpace s) in *.
    - rewrite Hempty. reflexivity.
    - apply TrimLeftSpace_fixed.
      destruct (spaceLen (TrimRightSpace (TrimLeftSpace s))) as [|k] eqn:Hlen; [reflexivity|].
      destruct (TrimRightSpace_split (TrimLeftSpace s)) as (w & Hw & _).
      destruct (spaceLen_app _ w k Hlen) as [Happ _].
      rewrite <- Hw in Happ. congruence. }
  rewrite Hleft. apply TrimRightSpace_idempotent.
Qed.

End TrimFacts.

Import Utf8 GoStrings GoTime Utils MustGather ResourceID TrimFacts.

(** X22: [strings.TrimSpace] is idempotent, for the white space of Unicode
    as for that of ASCII, so each function of pkg/utils returns on a trimmed
    argument what it returns on the argument: white space around a timespan,
    a name, a time stamp or a resource ID never changes the result. *)
Theorem X22_surrounding_white_space_ignored (L : GoLib) (lowerRune : string -> string)
  (s : string) :
  TrimSpace (TrimSpace s) = TrimSpace s
  /\ ISO8601Duration L (TrimSpace s) = ISO8601Duration L s
  /\ ParseISO8601ToDuration L (TrimSpace s) = ParseISO8601ToDuration L s
  /\ ParseTimeRFC3339 L (TrimSpace s) = ParseTimeRFC3339 L s
  /\ SafeFileName (TrimSpace s) = SafeFileName s
  /\ ParseResourceID lowerRune (TrimSpace s) = ParseResourceID lowerRune s.
Proof.
  pose proof (TrimSpace_idempotent s) as H.
  split; [exact H|].
  unfold ISO8601Duration, ParseISO8601ToDuration, ParseTimeRFC3339, SafeFileName,
    ParseResourceID.
  rewrite !H. repeat split; reflexivity.
Qed.

(** ** The catalog *)

Module CatalogFacts.
Import Gatherer CatalogSpec.
Local Open Scope list_scope.

Lemma appendNames_ok values : forall tables,
  Forall (fun t : TableRef => is_Some t) values ->
  appendNames values tables = Done (tables ++ namesOf values).
Proof.
  induction values as [|t values IH]; intros tables Hall.
  { cbn. now rewrite app_nil_r. }
  apply Forall_cons in Hall as [[[n|] ->] Hall]; cbn [appendNames namesOf omap list_omap].
  - rewrite (IH _ Hall). fold (namesOf values). now rewrite <- app_assoc.
  - apply (IH _ Hall).
Qed.

Lemma listTables_ok pages : forall tables,
  Forall fetched pages ->
  listTables pages tables = Done (Ok (tables ++ concat (map pageNames pages))).
Proof.
  induction pages as [|page pages IH]; intros tables Hall.
  { cbn. now rewrite app_nil_r. }
  apply Forall_cons in Hall as [(values & -> & Hvalues) Hall].
  cbn [listTables map concat pageNames]. rewrite (appendNames_ok _ _ Hvalues), (IH _ Hall).
  now rewrite <- app_assoc.
Qed.

Lemma listTables_error before e after : forall tables,
  Forall fetched before ->
  listTables (before ++ Err e :: after) tables = Done (Err ("list tables: " ++ e)%string).
Proof.
  induction before as [|page before IH]; intros tables Hall; [reflexivity|].
  apply Forall_cons in Hall as [(values & -> & Hvalues) Hall].
  cbn [app listTables]. rewrite (appendNames_ok _ _ Hvalues). apply (IH _ Hall).
Qed.

End CatalogFacts.

Import Utf8 GoStrings GoTime Utils MustGather Planner Exporter ExporterSpec ExporterFacts.
Import ResourceID Gatherer CatalogSpec CatalogFacts StringSpec ArchiveSpec ArchiveFacts.

(** X23: the catalog that [Run] lists with the export-all flag holds the
    names of the tables of all pages, in the order of the pages and of the
    tables in them, a table without a name being skipped; and when a page
    cannot be fetched, the listing ends with the error of that page, whatever
    the pages before and after it hold. *)
Theorem X23_catalog_listing (pages before after : list (result (list TableRef)))
  (e : string) :
  (Forall fetched pages ->
   listTables pages [] = Done (Ok (concat (map pageNames pages))))
  /\ (Forall fetched before ->
      listTables (before ++ Err e :: after) [] = Done (Err ("list tables: " ++ e)%string)).
Proof.
  split.
  - intros Hall. now rewrite (listTables_ok pages [] Hall).
  - apply listTables_error.
Qed.

(** The two pages of the sample environment, and the same with a page that
    fails between them. *)
Lemma X23_witness_two_pages :
  listTables [Ok [Some (Some "Perf"); Some None]; Ok [Some (Some "Heartbeat")]] []
  = Done (Ok ["Perf"; "Heartbeat"])
  /\ listTables [Ok [Some (Some "Perf"); Some None]; Err "throttled";
                 Ok [Some (Some "Heartbeat")]] []
     = Done (Err "list tables: throttled").
Proof.
  split.
  - refine (proj1 (X23_catalog_listing
                     [Ok [Some (Some "Perf"); Some None]; Ok [Some (Some "Heartbeat")]]
                     [] [] "") _).
    repeat constructor; eexists; (split; [reflexivity | repeat constructor; eauto]).
  - refine (proj2 (X23_catalog_listing [] [Ok [Some (Some "Perf"); Some None]]
                     [Ok [Some (Some "Heartbeat")]] "throttled") _).
    repeat constructor; eexists; (split; [reflexivity | repeat constructor; eauto]).
Defined.

(** X24: whatever the names of the tables, namespaces, pods and containers
    are, they enter the paths of the archive through [SafeFileName] only:
    every entry [exportTables] writes is a file of the directory of a table,
    the log of a container or the events of a namespace, and each name in
    its path is non-empty and made of the bytes of [[A-Za-z0-9_-]], so that
    no entry leaves its directory. *)
Theorem X24_paths_stay_in_place (L : GoLib) (cfg : Config) (lcli : LogsClient)
  (tcli : TablesClient) (clock : nat -> Z) (tables : list string)
  (workspaceGUID iso : string) :
  wfClient lcli ->
  exists st,
    exportTables L cfg lcli tcli clock tables workspaceGUID iso [] = Done st
    /\ Forall (fun e => underTables e \/ containerLog e \/ eventsLog e) (tarw st).
Proof.
  intros Hwf.
  destruct (exportTables_exported L cfg lcli tcli clock tables workspaceGUID iso [] Hwf)
    as (st0 & Hrun & (added & Htar & Hadded) & _).
  exists (flushStitched cfg st0). split; [exact Hrun|].
  cbn [app] in Htar.
  assert (Htables : Forall (fun e => underTables e \/ containerLog e \/ eventsLog e) (tarw st0)).
  { rewrite Htar. eapply Forall_impl; [exact Hadded|]. intros e He. now left. }
  unfold flushStitched. destruct (StitchLogs cfg); [|exact Htables].
  cbn [tarw]. apply Forall_app. split; [exact Htables|]. apply Forall_app. split.
  - apply Forall_map, Forall_forall. intros [k b] _. right. left.
    exists (SafeFileName (ns k)), (SafeFileName (pod k)), (SafeFileName (container k)).
    split; [reflexivity|]. repeat split; try apply SafeFileName_nonempty; apply SafeFileName_clean.
  - destruct (StitchIncludeEvents cfg); [|constructor].
    apply Forall_map, Forall_forall. intros [n b] _. right. right.
    exists (SafeFileName n). split; [reflexivity|].
    split; [apply SafeFileName_nonempty | apply SafeFileName_clean].
Qed.

(** A table, a namespace and a pod whose names try to leave the archive. *)
Lemma X24_witness_hostile_names :
  let lcli : LogsClient := fun n _ _ _ _ =>
    if (n =? 0)%nat then
      QueryResult None
        [mkTable [Some "TimeGenerated"; Some "PodNamespace"; Some "PodName";
                  Some "ContainerName"; Some "LogSource"; Some "LogMessage"]
           [[AString "2023-01-01T11:50:01Z"; AString "../../etc"; AString "..";
             AString "a/b"; AString "stdout"; AString "ready"]]]
    else QueryResult None [] in
  let cfg := mkConfig "" "15m" "" "" "" false true true false "" in
  exists st,
    exportTables RefLib.refLib cfg lcli None (fun _ => 63808171200000000000%Z)
                 ["ContainerLogV2"] "guid" "PT0H15M0S" [] = Done st
    /\ Forall (fun e => underTables e \/ containerLog e \/ eventsLog e) (tarw st).
Proof.
  intros lcli cfg.
  apply (X24_paths_stay_in_place RefLib.refLib cfg lcli None).
  intros n workspace query t0 t1 perr tab rest. unfold lcli.
  destruct (n =? 0)%nat; [|discriminate]. intros [= _ <- _].
  split; repeat constructor; eauto.
Defined.
